(** * Runway admission control: a shallow embedding of [runway.c]

    The program simulates one runway shared by aircraft threads and one
    air-traffic-controller thread.  All shared counters are C [int]s guarded
    by a single mutex; they are modelled as [Z].  The counters only move by
    one per critical section and are bounded by the number of aircraft
    threads (at most [MAX_AIRCRAFT]), see [counters_in_int_range], so the
    machine arithmetic never wraps and plain [Z] addition is exact.

    Every critical section of the source (the code between a
    [pthread_mutex_lock] or a return from [pthread_cond_timedwait] and the
    next [pthread_mutex_unlock] or [pthread_cond_timedwait]) is one atomic
    step of the transition system below.  The values returned by
    [time(NULL)] are inputs of the steps. *)

From Stdlib Require Import ZArith Lia ZifyBool Bool List Ascii String.
From stdpp Require Import base list.
Import ListNotations.
Local Open Scope Z_scope.

(** ** Constants of the simulation *)

Definition MAX_RUNWAY_CAPACITY : Z := 2.
Definition CONTROLLER_LIMIT : Z := 8.
Definition MAX_AIRCRAFT : Z := 1000.
Definition FUEL_MIN : Z := 20.
Definition FUEL_MAX : Z := 60.
Definition EMERGENCY_TIMEOUT : Z := 30.
Definition DIRECTION_SWITCH_TIME : Z := 5.
Definition DIRECTION_LIMIT : Z := 3.

Definition COMMERCIAL : Z := 0.
Definition CARGO : Z := 1.
Definition EMERGENCY : Z := 2.

Definition NORTH : Z := 0.
Definition SOUTH : Z := 1.
Definition EAST : Z := 2.
Definition WEST : Z := 4.

(** ** Data model *)

(** [aircraft_info], one per line of the workload file. *)
Record aircraft_info := {
  arrival_time : Z;
  runway_time : Z;
  aircraft_id : Z;
  aircraft_type : Z;
  fuel_reserve : Z;
  arrival_timestamp : Z
}.

(** The file-scope variables protected by [runway_mutex]. *)
Record globals := {
  waiting_commercial : Z;
  waiting_cargo : Z;
  waiting_emergency : Z;
  waiting_north : Z;
  waiting_south : Z;
  fuel_emergency_waiting : Z;
  last_regular_type : Z;
  regular_type_count : Z;
  aircraft_on_runway : Z;
  commercial_on_runway : Z;
  cargo_on_runway : Z;
  emergency_on_runway : Z;
  aircraft_since_break : Z;
  current_direction : Z;
  consecutive_direction : Z
}.

(** Assignments to single variables. *)
Definition set_waiting_commercial (v : Z) (g : globals) : globals :=
  {| waiting_commercial := v; waiting_cargo := waiting_cargo g;
     waiting_emergency := waiting_emergency g; waiting_north := waiting_north g;
     waiting_south := waiting_south g;
     fuel_emergency_waiting := fuel_emergency_waiting g;
     last_regular_type := last_regular_type g;
     regular_type_count := regular_type_count g;
     aircraft_on_runway := aircraft_on_runway g;
     commercial_on_runway := commercial_on_runway g;
     cargo_on_runway := cargo_on_runway g;
     emergency_on_runway := emergency_on_runway g;
     aircraft_since_break := aircraft_since_break g;
     current_direction := current_direction g;
     consecutive_direction := consecutive_direction g |}.

Definition set_waiting_cargo (v : Z) (g : globals) : globals :=
  {| waiting_commercial := waiting_commercial g; waiting_cargo := v;
     waiting_emergency := waiting_emergency g; waiting_north := waiting_north g;
     waiting_south := waiting_south g;
     fuel_emergency_waiting := fuel_emergency_waiting g;
     last_regular_type := last_regular_type g;
     regular_type_count := regular_type_count g;
     aircraft_on_runway := aircraft_on_runway g;
     commercial_on_runway := commercial_on_runway g;
     cargo_on_runway := cargo_on_runway g;
     emergency_on_runway := emergency_on_runway g;
     aircraft_since_break := aircraft_since_break g;
     current_direction := current_direction g;
     consecutive_direction := consecutive_direction g |}.

Definition set_waiting_emergency (v : Z) (g : globals) : globals :=
  {| waiting_commercial := waiting_commercial g;
     waiting_cargo := waiting_cargo g;
     waiting_emergency := v; waiting_north := waiting_north g;
     waiting_south := waiting_south g;
     fuel_emergency_waiting := fuel_emergency_waiting g;
     last_regular_type := last_regular_type g;
     regular_type_count := regular_type_count g;
     aircraft_on_runway := aircraft_on_runway g;
     commercial_on_runway := commercial_on_runway g;
     cargo_on_runway := cargo_on_runway g;
     emergency_on_runway := emergency_on_runway g;
     aircraft_since_break := aircraft_since_break g;
     current_direction := current_direction g;
     consecutive_direction := consecutive_direction g |}.

Definition set_waiting_north (v : Z) (g : globals) : globals :=
  {| waiting_commercial := waiting_commercial g;
     waiting_cargo := waiting_cargo g;
     waiting_emergency := waiting_emergency g; waiting_north := v;
     waiting_south := waiting_south g;
     fuel_emergency_waiting := fuel_emergency_waiting g;
     last_regular_type := last_regular_type g;
     regular_type_count := regular_type_count g;
     aircraft_on_runway := aircraft_on_runway g;
     commercial_on_runway := commercial_on_runway g;
     cargo_on_runway := cargo_on_runway g;
     emergency_on_runway := emergency_on_runway g;
     aircraft_since_break := aircraft_since_break g;
     current_direction := current_direction g;
     consecutive_direction := consecutive_direction g |}.

Definition set_waiting_south (v : Z) (g : globals) : globals :=
  {| waiting_commercial := waiting_commercial g;
     waiting_cargo := waiting_cargo g;
     waiting_emergency := waiting_emergency g;
     waiting_north := waiting_north g;
     waiting_south := v;
     fuel_emergency_waiting := fuel_emergency_waiting g;
     last_regular_type := last_regular_type g;
     regular_type_count := regular_type_count g;
     aircraft_on_runway := aircraft_on_runway g;
     commercial_on_runway := commercial_on_runway g;
     cargo_on_runway := cargo_on_runway g;
     emergency_on_runway := emergency_on_runway g;
     aircraft_since_break := aircraft_since_break g;
     current_direction := current_direction g;
     consecutive_direction := consecutive_direction g |}.

Definition set_fuel_emergency_waiting (v : Z) (g : globals) : globals :=
  {| waiting_commercial := waiting_commercial g;
     waiting_cargo := waiting_cargo g;
     waiting_emergency := waiting_emergency g;
     waiting_north := waiting_north g;
     waiting_south := waiting_south g;
     fuel_emergency_waiting := v;
     last_regular_type := last_regular_type g;
     regular_type_count := regular_type_count g;
     aircraft_on_runway := aircraft_on_runway g;
     commercial_on_runway := commercial_on_runway g;
     cargo_on_runway := cargo_on_runway g;
     emergency_on_runway := emergency_on_runway g;
     aircraft_since_break := aircraft_since_break g;
     current_direction := current_direction g;
     consecutive_direction := consecutive_direction g |}.

Definition set_last_regular_type (v : Z) (g : globals) : globals :=
  {| waiting_commercial := waiting_commercial g;
     waiting_cargo := waiting_cargo g;
     waiting_emergency := waiting_emergency g;
     waiting_north := waiting_north g;
     waiting_south := waiting_south g;
     fuel_emergency_waiting := fuel_emergency_waiting g;
     last_regular_type := v;
     regular_type_count := regular_type_count g;
     aircraft_on_runway := aircraft_on_runway g;
     commercial_on_runway := commercial_on_runway g;
     cargo_on_runway := cargo_on_runway g;
     emergency_on_runway := emergency_on_runway g;
     aircraft_since_break := aircraft_since_break g;
     current_direction := current_direction g;
     consecutive_direction := consecutive_direction g |}.

Definition set_regular_type_count (v : Z) (g : globals) : globals :=
  {| waiting_commercial := waiting_commercial g;
     waiting_cargo := waiting_cargo g;
     waiting_emergency := waiting_emergency g;
     waiting_north := waiting_north g;
     waiting_south := waiting_south g;
     fuel_emergency_waiting := fuel_emergency_waiting g;
     last_regular_type := last_regular_type g;
     regular_type_count := v;
     aircraft_on_runway := aircraft_on_runway g;
     commercial_on_runway := commercial_on_runway g;
     cargo_on_runway := cargo_on_runway g;
     emergency_on_runway := emergency_on_runway g;
     aircraft_since_break := aircraft_since_break g;
     current_direction := current_direction g;
     consecutive_direction := consecutive_direction g |}.

Definition set_aircraft_on_runway (v : Z) (g : globals) : globals :=
  {| waiting_commercial := waiting_commercial g;
     waiting_cargo := waiting_cargo g;
     waiting_emergency := waiting_emergency g;
     waiting_north := waiting_north g;
     waiting_south := waiting_south g;
     fuel_emergency_waiting := fuel_emergency_waiting g;
     last_regular_type := last_regular_type g;
     regular_type_count := regular_type_count g;
     aircraft_on_runway := v;
     commercial_on_runway := commercial_on_runway g;
     cargo_on_runway := cargo_on_runway g;
     emergency_on_runway := emergency_on_runway g;
     aircraft_since_break := aircraft_since_break g;
     current_direction := current_direction g;
     consecutive_direction := consecutive_direction g |}.

Definition set_commercial_on_runway (v : Z) (g : globals) : globals :=
  {| waiting_commercial := waiting_commercial g;
     waiting_cargo := waiting_cargo g;
     waiting_emergency := waiting_emergency g;
     waiting_north := waiting_north g;
     waiting_south := waiting_south g;
     fuel_emergency_waiting := fuel_emergency_waiting g;
     last_regular_type := last_regular_type g;
     regular_type_count := regular_type_count g;
     aircraft_on_runway := aircraft_on_runway g;
     commercial_on_runway := v;
     cargo_on_runway := cargo_on_runway g;
     emergency_on_runway := emergency_on_runway g;
     aircraft_since_break := aircraft_since_break g;
     current_direction := current_direction g;
     consecutive_direction := consecutive_direction g |}.

Definition set_cargo_on_runway (v : Z) (g : globals) : globals :=
  {| waiting_commercial := waiting_commercial g;
     waiting_cargo := waiting_cargo g;
     waiting_emergency := waiting_emergency g;
     waiting_north := waiting_north g;
     waiting_south := waiting_south g;
     fuel_emergency_waiting := fuel_emergency_waiting g;
     last_regular_type := last_regular_type g;
     regular_type_count := regular_type_count g;
     aircraft_on_runway := aircraft_on_runway g;
     commercial_on_runway := commercial_on_runway g;
     cargo_on_runway := v;
     emergency_on_runway := emergency_on_runway g;
     aircraft_since_break := aircraft_since_break g;
     current_direction := current_direction g;
     consecutive_direction := consecutive_direction g |}.

Definition set_emergency_on_runway (v : Z) (g : globals) : globals :=
  {| waiting_commercial := waiting_commercial g;
     waiting_cargo := waiting_cargo g;
     waiting_emergency := waiting_emergency g;
     waiting_north := waiting_north g;
     waiting_south := waiting_south g;
     fuel_emergency_waiting := fuel_emergency_waiting g;
     last_regular_type := last_regular_type g;
     regular_type_count := regular_type_count g;
     aircraft_on_runway := aircraft_on_runway g;
     commercial_on_runway := commercial_on_runway g;
     cargo_on_runway := cargo_on_runway g;
     emergency_on_runway := v;
     aircraft_since_break := aircraft_since_break g;
     current_direction := current_direction g;
     consecutive_direction := consecutive_direction g |}.

Definition set_aircraft_since_break (v : Z) (g : globals) : globals :=
  {| waiting_commercial := waiting_commercial g;
     waiting_cargo := waiting_cargo g;
     waiting_emergency := waiting_emergency g;
     waiting_north := waiting_north g;
     waiting_south := waiting_south g;
     fuel_emergency_waiting := fuel_emergency_waiting g;
     last_regular_type := last_regular_type g;
     regular_type_count := regular_type_count g;
     aircraft_on_runway := aircraft_on_runway g;
     commercial_on_runway := commercial_on_runway g;
     cargo_on_runway := cargo_on_runway g;
     emergency_on_runway := emergency_on_runway g;
     aircraft_since_break := v;
     current_direction := current_direction g;
     consecutive_direction := consecutive_direction g |}.

Definition set_current_direction (v : Z) (g : globals) : globals :=
  {| waiting_commercial := waiting_commercial g;
     waiting_cargo := waiting_cargo g;
     waiting_emergency := waiting_emergency g;
     waiting_north := waiting_north g;
     waiting_south := waiting_south g;
     fuel_emergency_waiting := fuel_emergency_waiting g;
     last_regular_type := last_regular_type g;
     regular_type_count := regular_type_count g;
     aircraft_on_runway := aircraft_on_runway g;
     commercial_on_runway := commercial_on_runway g;
     cargo_on_runway := cargo_on_runway g;
     emergency_on_runway := emergency_on_runway g;
     aircraft_since_break := aircraft_since_break g;
     current_direction := v;
     consecutive_direction := consecutive_direction g |}.

Definition set_consecutive_direction (v : Z) (g : globals) : globals :=
  {| waiting_commercial := waiting_commercial g;
     waiting_cargo := waiting_cargo g;
     waiting_emergency := waiting_emergency g;
     waiting_north := waiting_north g;
     waiting_south := waiting_south g;
     fuel_emergency_waiting := fuel_emergency_waiting g;
     last_regular_type := last_regular_type g;
     regular_type_count := regular_type_count g;
     aircraft_on_runway := aircraft_on_runway g;
     commercial_on_runway := commercial_on_runway g;
     cargo_on_runway := cargo_on_runway g;
     emergency_on_runway := emergency_on_runway g;
     aircraft_since_break := aircraft_since_break g;
     current_direction := current_direction g;
     consecutive_direction := v |}.

Definition set_arrival_timestamp (v : Z) (ai : aircraft_info) : aircraft_info :=
  {| arrival_time := arrival_time ai; runway_time := runway_time ai;
     aircraft_id := aircraft_id ai; aircraft_type := aircraft_type ai;
     fuel_reserve := fuel_reserve ai; arrival_timestamp := v |}.

Definition set_aircraft_id (v : Z) (ai : aircraft_info) : aircraft_info :=
  {| arrival_time := arrival_time ai; runway_time := runway_time ai;
     aircraft_id := v; aircraft_type := aircraft_type ai;
     fuel_reserve := fuel_reserve ai;
     arrival_timestamp := arrival_timestamp ai |}.

(** The values of the globals written by [initialize]. *)
Definition initial_globals : globals :=
  {| waiting_commercial := 0; waiting_cargo := 0; waiting_emergency := 0;
     waiting_north := 0; waiting_south := 0; fuel_emergency_waiting := 0;
     last_regular_type := -1; regular_type_count := 0;
     aircraft_on_runway := 0; commercial_on_runway := 0;
     cargo_on_runway := 0; emergency_on_runway := 0;
     aircraft_since_break := 0; current_direction := NORTH;
     consecutive_direction := 0 |}.

(** ** The admission predicate *)

(** The local [opposite_waiting] computed by [can_enter_common] and by
    [controller_thread]: it starts at 0 and is overwritten only when the
    direction is NORTH or SOUTH. *)
Definition opposite_waiting (g : globals) : Z :=
  if current_direction g =? NORTH then waiting_south g
  else if current_direction g =? SOUTH then waiting_north g
  else 0.

(** The local [same_waiting] of [controller_thread]. *)
Definition same_waiting (g : globals) : Z :=
  if current_direction g =? NORTH then waiting_north g
  else if current_direction g =? SOUTH then waiting_south g
  else 0.

(** The local [other_type_waiting] of [can_enter_common]. *)
Definition other_type_waiting (g : globals) (ai : aircraft_info) : Z :=
  if aircraft_type ai =? COMMERCIAL then waiting_cargo g
  else waiting_commercial g.

(** [can_enter_common]: 1 when the aircraft may enter now, 0 otherwise.
    Each [if] is one early [return 0] of the source, in source order. *)
Definition can_enter_common (g : globals) (ai : aircraft_info)
    (desired_direction fuel_emergency : Z) : Z :=
  if aircraft_on_runway g >=? MAX_RUNWAY_CAPACITY then 0
  else if aircraft_since_break g >=? CONTROLLER_LIMIT then 0
  else if ((aircraft_type ai =? COMMERCIAL) || (aircraft_type ai =? CARGO))
          && negb (desired_direction =? current_direction g) then 0
  else if (aircraft_type ai =? COMMERCIAL) && (cargo_on_runway g >? 0) then 0
  else if (aircraft_type ai =? CARGO) && (commercial_on_runway g >? 0) then 0
  else if (fuel_emergency_waiting g >? 0) && (fuel_emergency =? 0) then 0
  else if negb (aircraft_type ai =? EMERGENCY) && (waiting_emergency g >? 0)
       then 0
  else if ((aircraft_type ai =? COMMERCIAL) || (aircraft_type ai =? CARGO))
          && ((regular_type_count g >=? 4)
              && (last_regular_type g =? aircraft_type ai)
              && (other_type_waiting g ai >? 0)) then 0
  else if (desired_direction =? current_direction g)
          && (consecutive_direction g >=? DIRECTION_LIMIT)
          && (opposite_waiting g >? 0) then 0
  else 1.

(** ** The requester protocol *)

(** Conversion of a [time_t] difference to [int]: the value is reduced to
    the signed 32-bit range. *)
Definition to_int (x : Z) : Z := (x + 2 ^ 31) mod 2 ^ 32 - 2 ^ 31.

(** How one pass through the [while (1)] body of an enter function ends:
    the function unlocks and returns, or it calls
    [pthread_cond_timedwait] with its local [fuel_emergency] flag. *)
Inductive enter_result :=
| Entered (g : globals)
| TimedWait (g : globals) (fuel_emergency : bool).

(** [commercial_enter], from [pthread_mutex_lock] to the loop. *)
Definition commercial_enter_begin (g : globals) : globals :=
  let g := set_waiting_commercial (waiting_commercial g + 1) g in
  let g := set_waiting_north (waiting_north g + 1) g in
  g.

(** [commercial_enter], one pass through the loop body; [now] is the value
    of [time(NULL)]. *)
Definition commercial_enter_loop (arg : aircraft_info) (now : Z)
    (fuel_emergency : bool) (g : globals) : enter_result :=
  let desired_direction := NORTH in
  let waited := to_int (now - arrival_timestamp arg) in
  let '(fuel_emergency, g) :=
    if negb fuel_emergency && (waited >=? fuel_reserve arg)
    then (true, set_fuel_emergency_waiting (fuel_emergency_waiting g + 1) g)
    else (fuel_emergency, g) in
  if can_enter_common g arg desired_direction (Z.b2z fuel_emergency) =? 0
  then TimedWait g fuel_emergency
  else
    let g := set_waiting_commercial (waiting_commercial g - 1) g in
    let g := set_waiting_north (waiting_north g - 1) g in
    let g := if fuel_emergency
             then set_fuel_emergency_waiting (fuel_emergency_waiting g - 1) g
             else g in
    let g := set_aircraft_on_runway (aircraft_on_runway g + 1) g in
    let g := set_commercial_on_runway (commercial_on_runway g + 1) g in
    let g := set_aircraft_since_break (aircraft_since_break g + 1) g in
    let g := set_consecutive_direction (consecutive_direction g + 1) g in
    let g := if last_regular_type g =? COMMERCIAL
             then set_regular_type_count (regular_type_count g + 1) g
             else set_regular_type_count 1
                    (set_last_regular_type COMMERCIAL g) in
    Entered g.

(** [cargo_enter], from [pthread_mutex_lock] to the loop. *)
Definition cargo_enter_begin (g : globals) : globals :=
  let g := set_waiting_cargo (waiting_cargo g + 1) g in
  let g := set_waiting_south (waiting_south g + 1) g in
  g.

(** [cargo_enter], one pass through the loop body. *)
Definition cargo_enter_loop (ai : aircraft_info) (now : Z)
    (fuel_emergency : bool) (g : globals) : enter_result :=
  let desired_direction := SOUTH in
  let waited := to_int (now - arrival_timestamp ai) in
  let '(fuel_emergency, g) :=
    if negb fuel_emergency && (waited >=? fuel_reserve ai)
    then (true, set_fuel_emergency_waiting (fuel_emergency_waiting g + 1) g)
    else (fuel_emergency, g) in
  if can_enter_common g ai desired_direction (Z.b2z fuel_emergency) =? 0
  then TimedWait g fuel_emergency
  else
    let g := set_waiting_cargo (waiting_cargo g - 1) g in
    let g := set_waiting_south (waiting_south g - 1) g in
    let g := if fuel_emergency
             then set_fuel_emergency_waiting (fuel_emergency_waiting g - 1) g
             else g in
    let g := set_aircraft_on_runway (aircraft_on_runway g + 1) g in
    let g := set_cargo_on_runway (cargo_on_runway g + 1) g in
    let g := set_aircraft_since_break (aircraft_since_break g + 1) g in
    let g := set_consecutive_direction (consecutive_direction g + 1) g in
    let g := if last_regular_type g =? CARGO
             then set_regular_type_count (regular_type_count g + 1) g
             else set_regular_type_count 1 (set_last_regular_type CARGO g) in
    Entered g.

(** [emergency_enter], from [pthread_mutex_lock] to the loop. *)
Definition emergency_enter_begin (g : globals) : globals :=
  set_waiting_emergency (waiting_emergency g + 1) g.

(** [emergency_enter], one pass through the loop body. *)
Definition emergency_enter_loop (ai : aircraft_info) (now : Z)
    (fuel_emergency : bool) (g : globals) : enter_result :=
  let waited := to_int (now - arrival_timestamp ai) in
  let '(fuel_emergency, g) :=
    if negb fuel_emergency && (waited >=? fuel_reserve ai)
    then (true, set_fuel_emergency_waiting (fuel_emergency_waiting g + 1) g)
    else (fuel_emergency, g) in
  let desired_direction := current_direction g in
  if can_enter_common g ai desired_direction (Z.b2z fuel_emergency) =? 0
  then TimedWait g fuel_emergency
  else
    let g := set_waiting_emergency (waiting_emergency g - 1) g in
    let g := if fuel_emergency
             then set_fuel_emergency_waiting (fuel_emergency_waiting g - 1) g
             else g in
    let g := set_aircraft_on_runway (aircraft_on_runway g + 1) g in
    let g := set_emergency_on_runway (emergency_on_runway g + 1) g in
    let g := set_aircraft_since_break (aircraft_since_break g + 1) g in
    let g := set_consecutive_direction (consecutive_direction g + 1) g in
    Entered g.

(** The leave functions.  [None] is a failed [assert] (the process
    aborts); on [Some] the function goes on to broadcast and unlock. *)
Definition commercial_leave (g : globals) : option globals :=
  let g := set_aircraft_on_runway (aircraft_on_runway g - 1) g in
  let g := set_commercial_on_runway (commercial_on_runway g - 1) g in
  if (aircraft_on_runway g >=? 0) && (commercial_on_runway g >=? 0)
  then Some g else None.

Definition cargo_leave (g : globals) : option globals :=
  let g := set_aircraft_on_runway (aircraft_on_runway g - 1) g in
  let g := set_cargo_on_runway (cargo_on_runway g - 1) g in
  if (aircraft_on_runway g >=? 0) && (cargo_on_runway g >=? 0)
  then Some g else None.

Definition emergency_leave (g : globals) : option globals :=
  let g := set_aircraft_on_runway (aircraft_on_runway g - 1) g in
  let g := set_emergency_on_runway (emergency_on_runway g - 1) g in
  if (aircraft_on_runway g >=? 0) && (emergency_on_runway g >=? 0)
  then Some g else None.

(** The range assertions repeated in the three thread functions. *)
Definition counters_in_range (g : globals) : bool :=
  (aircraft_on_runway g <=? MAX_RUNWAY_CAPACITY) && (aircraft_on_runway g >=? 0)
  && (commercial_on_runway g >=? 0)
  && (commercial_on_runway g <=? MAX_RUNWAY_CAPACITY)
  && (cargo_on_runway g >=? 0) && (cargo_on_runway g <=? MAX_RUNWAY_CAPACITY)
  && (emergency_on_runway g >=? 0)
  && (emergency_on_runway g <=? MAX_RUNWAY_CAPACITY).

(** Assertions of [commercial_aircraft], [cargo_aircraft] and
    [emergency_aircraft] between the enter and the leave call. *)
Definition commercial_aircraft_asserts (g : globals) : bool :=
  counters_in_range g && (cargo_on_runway g =? 0).

Definition cargo_aircraft_asserts (g : globals) : bool :=
  counters_in_range g && (commercial_on_runway g =? 0).

Definition emergency_aircraft_asserts (g : globals) : bool :=
  counters_in_range g.

(** ** The controller *)

(** [take_break] after its [sleep]: the assertion, then the reset. *)
Definition take_break (g : globals) : option globals :=
  if aircraft_on_runway g =? 0
  then Some (set_aircraft_since_break 0 g)
  else None.

(** [switch_direction] before its [sleep]: the assertion. *)
Definition switch_direction_assert (g : globals) : bool :=
  aircraft_on_runway g =? 0.

(** [switch_direction] after its [sleep]. *)
Definition switch_direction (g : globals) : globals :=
  let g := set_current_direction
             (if current_direction g =? NORTH then SOUTH else NORTH) g in
  let g := set_consecutive_direction 0 g in
  g.

(** The decision taken by one pass of the loop of [controller_thread]. *)
Inductive controller_action := DoBreak | DoSwitch | DoNothing.

Definition controller_decide (g : globals) : controller_action :=
  if (aircraft_since_break g >=? CONTROLLER_LIMIT)
     && (aircraft_on_runway g =? 0)
  then DoBreak
  else if aircraft_on_runway g =? 0
  then
    if (opposite_waiting g >? 0)
       && ((consecutive_direction g >=? DIRECTION_LIMIT)
           || (same_waiting g =? 0))
    then DoSwitch else DoNothing
  else DoNothing.

(** ** Threads and the transition system *)

(** Where an aircraft thread is.  [Waiting fe w]: inside
    [pthread_cond_timedwait] with local flag [fuel_emergency = fe]; [w] says
    whether a broadcast has released it since it began to wait. *)
Inductive pc :=
| Created
| Arrived
| Waiting (fuel_emergency woken : bool)
| OnRunway
| Departed.

Record thread := { th_info : aircraft_info; th_pc : pc }.

(** Where the controller thread is: between maintenance actions (mutex
    free while it sleeps 100ms), or asleep inside [take_break] or
    [switch_direction] with the mutex held. *)
Inductive controller_pc := Polling | OnBreak | Switching.

Record config := {
  shared : globals;
  threads : list thread;
  controller : controller_pc
}.

(** The thread function [main] starts for an aircraft of this type. *)
Definition thread_class (ai : aircraft_info) : Z :=
  if aircraft_type ai =? COMMERCIAL then COMMERCIAL
  else if aircraft_type ai =? CARGO then CARGO
  else EMERGENCY.

Definition enter_begin (ai : aircraft_info) (g : globals) : globals :=
  if aircraft_type ai =? COMMERCIAL then commercial_enter_begin g
  else if aircraft_type ai =? CARGO then cargo_enter_begin g
  else emergency_enter_begin g.

Definition enter_loop (ai : aircraft_info) (now : Z) (fuel_emergency : bool)
    (g : globals) : enter_result :=
  if aircraft_type ai =? COMMERCIAL
  then commercial_enter_loop ai now fuel_emergency g
  else if aircraft_type ai =? CARGO
  then cargo_enter_loop ai now fuel_emergency g
  else emergency_enter_loop ai now fuel_emergency g.

Definition leave (ai : aircraft_info) (g : globals) : option globals :=
  if aircraft_type ai =? COMMERCIAL then commercial_leave g
  else if aircraft_type ai =? CARGO then cargo_leave g
  else emergency_leave g.

Definition on_runway_asserts (ai : aircraft_info) (g : globals) : bool :=
  if aircraft_type ai =? COMMERCIAL then commercial_aircraft_asserts g
  else if aircraft_type ai =? CARGO then cargo_aircraft_asserts g
  else emergency_aircraft_asserts g.

(** [pthread_cond_broadcast]: every thread blocked on the condition
    variable is released. *)
Definition wake (t : thread) : thread :=
  match th_pc t with
  | Waiting fe _ => {| th_info := th_info t; th_pc := Waiting fe true |}
  | _ => t
  end.

Definition pthread_cond_broadcast (ts : list thread) : list thread :=
  map wake ts.

(** What a step lets an observer see. *)
Inductive obs :=
| Silent
| Granted (i : nat) (cls : Z)
| Released (i : nat) (cls : Z)
| BreakTaken
| DirectionSwitched.

(** The steps of the threads.  [Arrive]: a thread function stores
    [time(NULL)] in [arrival_timestamp].  [Enter]: an enter function, from
    [pthread_mutex_lock] to its return or to its first
    [pthread_cond_timedwait].  [Retry]: one more pass through the loop when
    the timed wait returns (after a broadcast, a timeout or a spurious
    wake-up).  [CheckOnRunway] and [CheckDeparted]: the assertions a thread
    function makes after the enter and after the leave call; they read the
    globals without the mutex, so they can happen at any moment.  [Leave]:
    a leave function.  [ControllerPoll]: one pass of the controller loop up
    to the [sleep] of a maintenance action, or to the unlock when there is
    none.  [ControllerDone]: the rest of a maintenance action, the
    broadcast and the unlock. *)
Inductive event :=
| Arrive (i : nat) (now : Z)
| Enter (i : nat) (now : Z)
| Retry (i : nat) (now : Z)
| CheckOnRunway (i : nat)
| Leave (i : nat)
| CheckDeparted (i : nat)
| ControllerPoll
| ControllerDone.

(** [Disabled]: the event cannot happen in this configuration (the thread
    is elsewhere, or it would block on the mutex).  [Abort]: an [assert]
    fails. *)
Inductive outcome :=
| Ok (c : config) (o : obs)
| Abort
| Disabled.

Definition after_enter (c : config) (i : nat) (t : thread)
    (r : enter_result) : outcome :=
  match r with
  | Entered g =>
      Ok {| shared := g;
            threads := <[i := {| th_info := th_info t; th_pc := OnRunway |}]>
                         (threads c);
            controller := controller c |}
         (Granted i (thread_class (th_info t)))
  | TimedWait g fe =>
      Ok {| shared := g;
            threads := <[i := {| th_info := th_info t;
                                 th_pc := Waiting fe false |}]> (threads c);
            controller := controller c |}
         Silent
  end.

Definition step (c : config) (e : event) : outcome :=
  match e with
  | Arrive i now =>
      match threads c !! i with
      | Some t =>
          match th_pc t with
          | Created =>
              Ok {| shared := shared c;
                    threads :=
                      <[i := {| th_info := set_arrival_timestamp now (th_info t);
                                th_pc := Arrived |}]> (threads c);
                    controller := controller c |} Silent
          | _ => Disabled
          end
      | None => Disabled
      end
  | Enter i now =>
      match controller c, threads c !! i with
      | Polling, Some t =>
          match th_pc t with
          | Arrived =>
              after_enter c i t
                (enter_loop (th_info t) now false
                   (enter_begin (th_info t) (shared c)))
          | _ => Disabled
          end
      | _, _ => Disabled
      end
  | Retry i now =>
      match controller c, threads c !! i with
      | Polling, Some t =>
          match th_pc t with
          | Waiting fe _ =>
              after_enter c i t (enter_loop (th_info t) now fe (shared c))
          | _ => Disabled
          end
      | _, _ => Disabled
      end
  | CheckOnRunway i =>
      match threads c !! i with
      | Some t =>
          match th_pc t with
          | OnRunway =>
              if on_runway_asserts (th_info t) (shared c)
              then Ok c Silent else Abort
          | _ => Disabled
          end
      | None => Disabled
      end
  | Leave i =>
      match controller c, threads c !! i with
      | Polling, Some t =>
          match th_pc t with
          | OnRunway =>
              match leave (th_info t) (shared c) with
              | Some g =>
                  Ok {| shared := g;
                        threads :=
                          pthread_cond_broadcast
                            (<[i := {| th_info := th_info t;
                                       th_pc := Departed |}]> (threads c));
                        controller := controller c |}
                     (Released i (thread_class (th_info t)))
              | None => Abort
              end
          | _ => Disabled
          end
      | _, _ => Disabled
      end
  | CheckDeparted i =>
      match threads c !! i with
      | Some t =>
          match th_pc t with
          | Departed =>
              if counters_in_range (shared c) then Ok c Silent else Abort
          | _ => Disabled
          end
      | None => Disabled
      end
  | ControllerPoll =>
      match controller c with
      | Polling =>
          match controller_decide (shared c) with
          | DoBreak =>
              Ok {| shared := shared c; threads := threads c;
                    controller := OnBreak |} Silent
          | DoSwitch =>
              if switch_direction_assert (shared c)
              then Ok {| shared := shared c; threads := threads c;
                         controller := Switching |} Silent
              else Abort
          | DoNothing => Ok c Silent
          end
      | _ => Disabled
      end
  | ControllerDone =>
      match controller c with
      | Polling => Disabled
      | OnBreak =>
          match take_break (shared c) with
          | Some g =>
              Ok {| shared := g;
                    threads := pthread_cond_broadcast (threads c);
                    controller := Polling |} BreakTaken
          | None => Abort
          end
      | Switching =>
          Ok {| shared := switch_direction (shared c);
                threads := pthread_cond_broadcast (threads c);
                controller := Polling |} DirectionSwitched
      end
  end.

(** The configuration in which [main] starts the threads. *)
Definition init_config (ai : list aircraft_info) : config :=
  {| shared := initial_globals;
     threads := map (fun a => {| th_info := a; th_pc := Created |}) ai;
     controller := Polling |}.

(** Executions from the initial configuration, with what they showed,
    most recent first. *)
Inductive exec (ai : list aircraft_info) : list obs -> config -> Prop :=
| exec_init : exec ai [] (init_config ai)
| exec_step tr c e c' o :
    exec ai tr c -> step c e = Ok c' o -> exec ai (o :: tr) c'.

Definition reachable (ai : list aircraft_info) (c : config) : Prop :=
  exists tr, exec ai tr c.

(** Running a list of events, oldest first; [None] when one of them is
    disabled or aborts. *)
Fixpoint run (c : config) (es : list event) : option config :=
  match es with
  | [] => Some c
  | e :: es =>
      match step c e with
      | Ok c' _ => run c' es
      | _ => None
      end
  end.

(** ** Start-up: [initialize] and [main] *)

Section Startup.

(** [EINVAL] comes from [errno.h]. *)
Variable EINVAL : Z.

(** [sscanf (line, "%d%d%d", ...)]: the three integers when it
    returns 3, [None] for any other return value. *)
Variable sscanf3 : string -> option (Z * Z * Z).

(** The value returned by the [k]-th call of [rand()]. *)
Variable rand : nat -> Z.

(** The test on [line[0]] that skips comment and empty lines. *)
Definition skipped_line (line : string) : bool :=
  match line with
  | String ch _ =>
      Ascii.eqb ch "#"%char || Ascii.eqb ch (Ascii.ascii_of_nat 10)
      || Ascii.eqb ch (Ascii.ascii_of_nat 13)
  | EmptyString => false
  end.

(** The reading loop of [initialize].  [lines] are the successive results
    of [fgets]; [ai] holds the records stored so far, so the loop counter
    [i] is its length.  Fields that the loop does not write are 0. *)
Fixpoint read_records (lines : list string) (ai : list aircraft_info)
    : list aircraft_info :=
  match lines with
  | [] => ai
  | line :: rest =>
      if Z.of_nat (length ai) <? MAX_AIRCRAFT then
        if skipped_line line then read_records rest ai
        else
          match sscanf3 line with
          | Some (ty, arrival, on_runway) =>
              read_records rest
                (ai ++ [ {| arrival_time := arrival;
                            runway_time := on_runway;
                            aircraft_id := 0;
                            aircraft_type := ty;
                            fuel_reserve :=
                              FUEL_MIN
                              + Z.rem (rand (length ai))
                                  (FUEL_MAX - FUEL_MIN + 1);
                            arrival_timestamp := 0 |} ])
          | None => read_records rest ai
          end
      else ai
  end.

(** [initialize]: [inl 1] is [exit(1)] after a failed [fopen] ([file] is
    [None]); otherwise the records read, whose number is the value
    returned.  The globals it resets are [initial_globals]. *)
Definition initialize (file : option (list string))
    : Z + list aircraft_info :=
  match file with
  | None => inl 1
  | Some lines => inr (read_records lines [])
  end.

Inductive spawned :=
| SpawnController
| SpawnAircraft (ai : aircraft_info).

(** How the process ends: the exit status, [None] when the process never
    exits because [main] waits in [pthread_join] for a thread that does not
    terminate, and the threads that were created before, in order. *)
Record process := { exit_code : option Z; started : list spawned }.

(** The join loop of [main] over the aircraft threads [i], [i + 1], ...,
    [n] of them: [finishes k] says whether aircraft thread [k] terminates,
    so that [pthread_join] returns for it; the loop gets past all of them
    only when each one terminates. *)
Fixpoint join_aircraft (finishes : nat -> bool) (i n : nat) : bool :=
  match n with
  | O => true
  | S n' => finishes i && join_aircraft finishes (S i) n'
  end.

(** The creation loop of [main] and what follows it.  [create_ok k] says
    whether the [k]-th call of [pthread_create] succeeds (the controller
    is call 0); a failure is [exit(1)].  The [sleep (arrival_time)] before
    each call returns once that time has passed and leaves no trace here.
    After the loop, in which [i] has reached the number of aircraft, come
    the join loop, the cancellation of the controller (whose join returns,
    the controller passing [pthread_testcancel] in every round), and
    [return 0]. *)
Fixpoint create_aircraft (create_ok finishes : nat -> bool)
    (ais : list aircraft_info) (i : nat) (sofar : list spawned) : process :=
  match ais with
  | [] =>
      {| exit_code := if join_aircraft finishes 0 i then Some 0 else None;
         started := sofar |}
  | a :: rest =>
      let a := set_aircraft_id (Z.of_nat i) a in
      if create_ok (S i)
      then create_aircraft create_ok finishes rest (S i)
             (sofar ++ [SpawnAircraft a])
      else {| exit_code := Some 1; started := sofar |}
  end.

Definition main (nargs : Z) (file : option (list string))
    (create_ok finishes : nat -> bool) : process :=
  if negb (nargs =? 2) then {| exit_code := Some EINVAL; started := [] |}
  else
    match initialize file with
    | inl code => {| exit_code := Some code; started := [] |}
    | inr ai =>
        let num_aircraft := Z.of_nat (length ai) in
        if (num_aircraft >? MAX_AIRCRAFT) || (num_aircraft <=? 0)
        then {| exit_code := Some 1; started := [] |}
        else if create_ok 0%nat
        then create_aircraft create_ok finishes ai 0 [SpawnController]
        else {| exit_code := Some 1; started := [] |}
    end.

End Startup.

(** ** Specification-side definitions *)

(** The eight checks of the admission predicate, in their order of
    precedence. *)
Definition capacity_check (g : globals) : Prop :=
  aircraft_on_runway g < 2.

Definition break_gate_check (g : globals) : Prop :=
  aircraft_since_break g < 8.

Definition direction_check (g : globals) (ai : aircraft_info)
    (desired_direction : Z) : Prop :=
  aircraft_type ai = COMMERCIAL \/ aircraft_type ai = CARGO ->
  desired_direction = current_direction g.

Definition segregation_check (g : globals) (ai : aircraft_info) : Prop :=
  (aircraft_type ai = COMMERCIAL -> ~ cargo_on_runway g > 0)
  /\ (aircraft_type ai = CARGO -> ~ commercial_on_runway g > 0).

Definition escalation_check (g : globals) (fuel_emergency : Z) : Prop :=
  fuel_emergency = 0 -> ~ fuel_emergency_waiting g > 0.

Definition emergency_precedence_check (g : globals) (ai : aircraft_info)
    : Prop :=
  aircraft_type ai <> EMERGENCY -> ~ waiting_emergency g > 0.

Definition fairness_check (g : globals) (ai : aircraft_info) : Prop :=
  (aircraft_type ai = COMMERCIAL ->
   ~ (regular_type_count g >= 4 /\ last_regular_type g = COMMERCIAL
      /\ waiting_cargo g > 0))
  /\ (aircraft_type ai = CARGO ->
      ~ (regular_type_count g >= 4 /\ last_regular_type g = CARGO
         /\ waiting_commercial g > 0)).

(** A requester waits for the opposite direction when the runway points
    north and [waiting_south] is positive, or when it points south and
    [waiting_north] is positive. *)
Definition rotation_check (g : globals) (desired_direction : Z) : Prop :=
  ~ (desired_direction = current_direction g
     /\ consecutive_direction g >= 3
     /\ (current_direction g = NORTH /\ waiting_south g > 0
         \/ current_direction g = SOUTH /\ waiting_north g > 0)).

(** Check number [k] (counted from 1); numbers outside 1..8 pass. *)
Definition check (k : nat) (g : globals) (ai : aircraft_info)
    (desired_direction fuel_emergency : Z) : Prop :=
  match k with
  | 1%nat => capacity_check g
  | 2%nat => break_gate_check g
  | 3%nat => direction_check g ai desired_direction
  | 4%nat => segregation_check g ai
  | 5%nat => escalation_check g fuel_emergency
  | 6%nat => emergency_precedence_check g ai
  | 7%nat => fairness_check g ai
  | 8%nat => rotation_check g desired_direction
  | _ => True
  end.

(** Counting the threads that satisfy a test. *)
Fixpoint tally (p : thread -> bool) (ts : list thread) : Z :=
  match ts with
  | [] => 0
  | t :: ts => Z.b2z (p t) + tally p ts
  end.

Definition is_waiting (t : thread) : bool :=
  match th_pc t with Waiting _ _ => true | _ => false end.

Definition is_on_runway (t : thread) : bool :=
  match th_pc t with OnRunway => true | _ => false end.

Definition waiting_as (cls : Z) (t : thread) : bool :=
  (thread_class (th_info t) =? cls) && is_waiting t.

Definition on_runway_as (cls : Z) (t : thread) : bool :=
  (thread_class (th_info t) =? cls) && is_on_runway t.

Definition escalated (t : thread) : bool :=
  match th_pc t with Waiting true _ => true | _ => false end.

Definition has_entered (t : thread) : bool :=
  match th_pc t with OnRunway | Departed => true | _ => false end.

(** No thread is still blocked on the condition variable. *)
Definition blocked (t : thread) : bool :=
  match th_pc t with Waiting _ false => true | _ => false end.

Definition all_waiters_woken (c : config) : Prop :=
  forall i t, threads c !! i = Some t -> blocked t = false.

(** The events after which the admission predicate can answer
    differently. *)
Definition state_mutating (o : obs) : Prop :=
  match o with
  | Silent => False
  | _ => True
  end.

(** The number of most recent admissions of standard class [cls] that no
    admission of the other standard class interrupts (emergency admissions
    do not count and do not interrupt); the trace is most recent first. *)
Fixpoint standard_run (cls : Z) (tr : list obs) : Z :=
  match tr with
  | [] => 0
  | Granted _ c :: tr' =>
      if c =? cls then 1 + standard_run cls tr'
      else if c =? EMERGENCY then standard_run cls tr'
      else 0
  | _ :: tr' => standard_run cls tr'
  end.

Definition other_class (cls : Z) : Z :=
  if cls =? COMMERCIAL then CARGO else COMMERCIAL.

(** The invariant of the shared state: what each counter counts. *)
Record Inv (c : config) : Prop := {
  inv_total :
    aircraft_on_runway (shared c)
    = commercial_on_runway (shared c) + cargo_on_runway (shared c)
      + emergency_on_runway (shared c);
  inv_commercial :
    commercial_on_runway (shared c)
    = tally (on_runway_as COMMERCIAL) (threads c);
  inv_cargo :
    cargo_on_runway (shared c) = tally (on_runway_as CARGO) (threads c);
  inv_emergency :
    emergency_on_runway (shared c)
    = tally (on_runway_as EMERGENCY) (threads c);
  inv_capacity : aircraft_on_runway (shared c) <= MAX_RUNWAY_CAPACITY;
  inv_segregation :
    commercial_on_runway (shared c) = 0 \/ cargo_on_runway (shared c) = 0;
  inv_waiting_commercial :
    waiting_commercial (shared c) = tally (waiting_as COMMERCIAL) (threads c);
  inv_waiting_cargo :
    waiting_cargo (shared c) = tally (waiting_as CARGO) (threads c);
  inv_waiting_emergency :
    waiting_emergency (shared c) = tally (waiting_as EMERGENCY) (threads c);
  inv_north : waiting_north (shared c) = waiting_commercial (shared c);
  inv_south : waiting_south (shared c) = waiting_cargo (shared c);
  inv_fuel : fuel_emergency_waiting (shared c) = tally escalated (threads c);
  inv_break :
    0 <= aircraft_since_break (shared c) <= CONTROLLER_LIMIT;
  inv_direction :
    current_direction (shared c) = NORTH
    \/ current_direction (shared c) = SOUTH;
  inv_maintenance :
    controller c <> Polling -> aircraft_on_runway (shared c) = 0;
  inv_consecutive :
    0 <= consecutive_direction (shared c)
    <= tally has_entered (threads c);
  inv_fair_count :
    0 <= regular_type_count (shared c) <= tally has_entered (threads c);
  inv_fair_type :
    last_regular_type (shared c) = -1
    \/ last_regular_type (shared c) = COMMERCIAL
    \/ last_regular_type (shared c) = CARGO
}.

(** The signed 32-bit range of a C [int]. *)
Definition in_int_range (x : Z) : Prop := - 2 ^ 31 <= x < 2 ^ 31.

(** ** Abbreviations for the common parts of the three enter functions *)

(** The test that declares a fuel emergency. *)
Definition escalates (ai : aircraft_info) (now : Z) (fuel_emergency : bool)
    : bool :=
  negb fuel_emergency
  && (to_int (now - arrival_timestamp ai) >=? fuel_reserve ai).

(** The globals after the escalation block of an enter loop. *)
Definition after_escalation (ai : aircraft_info) (now : Z)
    (fuel_emergency : bool) (g : globals) : globals :=
  if escalates ai now fuel_emergency
  then set_fuel_emergency_waiting (fuel_emergency_waiting g + 1) g
  else g.

(** The [desired_direction] an enter function passes to
    [can_enter_common]. *)
Definition desired_direction_of (ai : aircraft_info) (g : globals) : Z :=
  if aircraft_type ai =? COMMERCIAL then NORTH
  else if aircraft_type ai =? CARGO then SOUTH
  else current_direction g.

(** What an admission writes, field by field: [g1] are the globals when
    the predicate is evaluated, [fe] the local flag at that moment. *)
Record entry_effect (ai : aircraft_info) (fe : bool) (g1 g' : globals)
    : Prop := {
  ent_waiting_commercial :
    waiting_commercial g'
    = waiting_commercial g1 - Z.b2z (thread_class ai =? COMMERCIAL);
  ent_waiting_cargo :
    waiting_cargo g' = waiting_cargo g1 - Z.b2z (thread_class ai =? CARGO);
  ent_waiting_emergency :
    waiting_emergency g'
    = waiting_emergency g1 - Z.b2z (thread_class ai =? EMERGENCY);
  ent_waiting_north :
    waiting_north g'
    = waiting_north g1 - Z.b2z (thread_class ai =? COMMERCIAL);
  ent_waiting_south :
    waiting_south g' = waiting_south g1 - Z.b2z (thread_class ai =? CARGO);
  ent_fuel :
    fuel_emergency_waiting g' = fuel_emergency_waiting g1 - Z.b2z fe;
  ent_on_runway : aircraft_on_runway g' = aircraft_on_runway g1 + 1;
  ent_commercial :
    commercial_on_runway g'
    = commercial_on_runway g1 + Z.b2z (thread_class ai =? COMMERCIAL);
  ent_cargo :
    cargo_on_runway g'
    = cargo_on_runway g1 + Z.b2z (thread_class ai =? CARGO);
  ent_emergency :
    emergency_on_runway g'
    = emergency_on_runway g1 + Z.b2z (thread_class ai =? EMERGENCY);
  ent_since_break : aircraft_since_break g' = aircraft_since_break g1 + 1;
  ent_direction : current_direction g' = current_direction g1;
  ent_consecutive : consecutive_direction g' = consecutive_direction g1 + 1;
  ent_last :
    last_regular_type g'
    = if thread_class ai =? EMERGENCY then last_regular_type g1
      else thread_class ai;
  ent_count :
    regular_type_count g'
    = if thread_class ai =? EMERGENCY then regular_type_count g1
      else if last_regular_type g1 =? thread_class ai
           then regular_type_count g1 + 1
           else 1
}.

(** The fields that registering as a waiter and declaring a fuel
    emergency leave alone. *)
Record same_runway_fields (g g' : globals) : Prop := {
  srf_on_runway : aircraft_on_runway g' = aircraft_on_runway g;
  srf_commercial : commercial_on_runway g' = commercial_on_runway g;
  srf_cargo : cargo_on_runway g' = cargo_on_runway g;
  srf_emergency : emergency_on_runway g' = emergency_on_runway g;
  srf_since_break : aircraft_since_break g' = aircraft_since_break g;
  srf_direction : current_direction g' = current_direction g;
  srf_consecutive : consecutive_direction g' = consecutive_direction g;
  srf_last : last_regular_type g' = last_regular_type g;
  srf_count : regular_type_count g' = regular_type_count g
}.

(** An aircraft thread at the head of its enter loop: [e] is its event,
    [fe] its local flag and [g0] the globals before the escalation block. *)
Definition entering (c : config) (e : event) (i : nat) (t : thread)
    (now : Z) (fe : bool) (g0 : globals) : Prop :=
  controller c = Polling /\ threads c !! i = Some t
  /\ (e = Enter i now /\ th_pc t = Arrived /\ fe = false
      /\ g0 = enter_begin (th_info t) (shared c)
      \/ e = Retry i now /\ (exists w, th_pc t = Waiting fe w)
         /\ g0 = shared c).

(** The change of the occupancy counter of class [cls0] shown by [o]. *)
Definition occupancy_change (cls0 : Z) (o : obs) : Z :=
  match o with
  | Granted _ cls => Z.b2z (cls =? cls0)
  | Released _ cls => - Z.b2z (cls =? cls0)
  | _ => 0
  end.

Definition total_change (o : obs) : Z :=
  match o with
  | Granted _ _ => 1
  | Released _ _ => -1
  | _ => 0
  end.

(** ** A worked scenario

    Two emergency aircraft occupy the runway; a commercial aircraft with a
    fuel reserve of 20 arrives, waits and declares a fuel emergency; a third
    emergency aircraft arrives later; then the runway empties. *)

Definition scenario_aircraft (ty fuel : Z) : aircraft_info :=
  {| arrival_time := 0; runway_time := 100; aircraft_id := 0;
     aircraft_type := ty; fuel_reserve := fuel; arrival_timestamp := 0 |}.

Definition scenario_ai : list aircraft_info :=
  [ scenario_aircraft EMERGENCY 60; scenario_aircraft EMERGENCY 60;
    scenario_aircraft COMMERCIAL 20; scenario_aircraft EMERGENCY 60 ].

Definition scenario_events : list event :=
  [ Arrive 0 0; Enter 0 0; Arrive 1 0; Enter 1 0;
    Arrive 2 0; Enter 2 0; Retry 2 20;
    Arrive 3 50; Enter 3 50;
    Leave 0; Leave 1 ].

(** The commercial aircraft, once it has declared its fuel emergency, and
    the emergency aircraft that arrived at time 50. *)
Definition scenario_commercial : thread :=
  {| th_info := scenario_aircraft COMMERCIAL 20; th_pc := Waiting true true |}.

Definition scenario_emergency : thread :=
  {| th_info := set_arrival_timestamp 50 (scenario_aircraft EMERGENCY 60);
     th_pc := Waiting false true |}.

Definition scenario_departed : thread :=
  {| th_info := scenario_aircraft EMERGENCY 60; th_pc := Departed |}.

(** The configuration after [scenario_events]: the runway is empty and the
    two waiters block each other. *)
Definition scenario_stalled : config :=
  {| shared :=
       {| waiting_commercial := 1; waiting_cargo := 0; waiting_emergency := 1;
          waiting_north := 1; waiting_south := 0;
          fuel_emergency_waiting := 1;
          last_regular_type := -1; regular_type_count := 0;
          aircraft_on_runway := 0; commercial_on_runway := 0;
          cargo_on_runway := 0; emergency_on_runway := 0;
          aircraft_since_break := 2; current_direction := NORTH;
          consecutive_direction := 2 |};
     threads := [ scenario_departed; scenario_departed;
                  scenario_commercial; scenario_emergency ];
     controller := Polling |}.

(** After the commercial aircraft has tried again at time 100 and gone
    back to wait. *)
Definition scenario_blocked : config :=
  {| shared := shared scenario_stalled;
     threads := [ scenario_departed; scenario_departed;
                  {| th_info := scenario_aircraft COMMERCIAL 20;
                     th_pc := Waiting true false |};
                  scenario_emergency ];
     controller := Polling |}.

(** After the emergency aircraft has tried again at time 110, declared its
    own fuel emergency and entered. *)
Definition scenario_entered : config :=
  {| shared :=
       {| waiting_commercial := 1; waiting_cargo := 0; waiting_emergency := 0;
          waiting_north := 1; waiting_south := 0;
          fuel_emergency_waiting := 1;
          last_regular_type := -1; regular_type_count := 0;
          aircraft_on_runway := 1; commercial_on_runway := 0;
          cargo_on_runway := 0; emergency_on_runway := 1;
          aircraft_since_break := 3; current_direction := NORTH;
          consecutive_direction := 3 |};
     threads := [ scenario_departed; scenario_departed;
                  {| th_info := scenario_aircraft COMMERCIAL 20;
                     th_pc := Waiting true false |};
                  {| th_info :=
                       set_arrival_timestamp 50
                         (scenario_aircraft EMERGENCY 60);
                     th_pc := OnRunway |} ];
     controller := Polling |}.

(** A second scenario: a single cargo aircraft arrives while the runway
    points north, and the controller begins to turn it. *)
Definition turning_ai : list aircraft_info := [ scenario_aircraft CARGO 30 ].

Definition turning_events : list event :=
  [ Arrive 0 0; Enter 0 0; ControllerPoll ].

Definition turning_globals (direction : Z) : globals :=
  {| waiting_commercial := 0; waiting_cargo := 1; waiting_emergency := 0;
     waiting_north := 0; waiting_south := 1; fuel_emergency_waiting := 0;
     last_regular_type := -1; regular_type_count := 0;
     aircraft_on_runway := 0; commercial_on_runway := 0;
     cargo_on_runway := 0; emergency_on_runway := 0;
     aircraft_since_break := 0; current_direction := direction;
     consecutive_direction := 0 |}.

Definition turning_before : config :=
  {| shared := turning_globals NORTH;
     threads := [ {| th_info := scenario_aircraft CARGO 30;
                     th_pc := Waiting false false |} ];
     controller := Switching |}.

Definition turning_after : config :=
  {| shared := turning_globals SOUTH;
     threads := [ {| th_info := scenario_aircraft CARGO 30;
                     th_pc := Waiting false true |} ];
     controller := Polling |}.

(** Running a list of events while recording what they show. *)
Fixpoint run_trace (c : config) (es : list event) (tr : list obs)
    : option (list obs * config) :=
  match es with
  | [] => Some (tr, c)
  | e :: es =>
      match step c e with
      | Ok c' o => run_trace c' es (o :: tr)
      | _ => None
      end
  end.

(** A third scenario: five commercial aircraft use the runway one after
    the other and no cargo aircraft ever arrives. *)
Definition five_ai : list aircraft_info :=
  [ scenario_aircraft COMMERCIAL 30; scenario_aircraft COMMERCIAL 30;
    scenario_aircraft COMMERCIAL 30; scenario_aircraft COMMERCIAL 30;
    scenario_aircraft COMMERCIAL 30 ].

Definition five_events : list event :=
  [ Arrive 0 0; Enter 0 0; Leave 0; Arrive 1 1; Enter 1 1; Leave 1;
    Arrive 2 2; Enter 2 2; Leave 2; Arrive 3 3; Enter 3 3; Leave 3;
    Arrive 4 4 ].

(** ** Further specification-side definitions *)

(** Admissions shown since the last completed break, and since the last
    direction switch; the trace is most recent first. *)
Fixpoint since_last_break (tr : list obs) : Z :=
  match tr with
  | [] => 0
  | Granted _ _ :: tr' => 1 + since_last_break tr'
  | BreakTaken :: _ => 0
  | _ :: tr' => since_last_break tr'
  end.

Fixpoint since_last_switch (tr : list obs) : Z :=
  match tr with
  | [] => 0
  | Granted _ _ :: tr' => 1 + since_last_switch tr'
  | DirectionSwitched :: _ => 0
  | _ :: tr' => since_last_switch tr'
  end.

(** Admissions minus releases of class [cls0] in a trace, and of all
    classes. *)
Fixpoint net_occupancy_of (cls0 : Z) (tr : list obs) : Z :=
  match tr with
  | [] => 0
  | o :: tr' => occupancy_change cls0 o + net_occupancy_of cls0 tr'
  end.

Fixpoint net_occupancy (tr : list obs) : Z :=
  match tr with
  | [] => 0
  | o :: tr' => total_change o + net_occupancy tr'
  end.

(** How often thread [i] was admitted, and released, in a trace. *)
Fixpoint granted_count (i : nat) (tr : list obs) : Z :=
  match tr with
  | [] => 0
  | Granted k _ :: tr' =>
      (if Nat.eqb k i then 1 else 0) + granted_count i tr'
  | _ :: tr' => granted_count i tr'
  end.

Fixpoint released_count (i : nat) (tr : list obs) : Z :=
  match tr with
  | [] => 0
  | Released k _ :: tr' =>
      (if Nat.eqb k i then 1 else 0) + released_count i tr'
  | _ :: tr' => released_count i tr'
  end.

Definition is_departed (t : thread) : bool :=
  match th_pc t with Departed => true | _ => false end.

(** How far a thread has come. *)
Definition pc_rank (p : pc) : Z :=
  match p with
  | Created => 0
  | Arrived => 1
  | Waiting false _ => 2
  | Waiting true _ => 3
  | OnRunway => 4
  | Departed => 5
  end.

(** The type codes [can_enter_common] knows. *)
Definition known_type (ai : aircraft_info) : Prop :=
  aircraft_type ai = COMMERCIAL \/ aircraft_type ai = CARGO
  \/ aircraft_type ai = EMERGENCY.

(** The direction an aircraft of a standard class asks for. *)
Definition class_direction (cls : Z) : Z :=
  if cls =? COMMERCIAL then NORTH else SOUTH.

(** The three integers of the lines that [initialize] does not skip and
    that [sscanf] converts, in file order. *)
Fixpoint parsed_lines (sscanf3 : string -> option (Z * Z * Z))
    (lines : list string) : list (Z * Z * Z) :=
  match lines with
  | [] => []
  | line :: rest =>
      if skipped_line line then parsed_lines sscanf3 rest
      else
        match sscanf3 line with
        | Some r => r :: parsed_lines sscanf3 rest
        | None => parsed_lines sscanf3 rest
        end
  end.

Definition record_fields (a : aircraft_info) : Z * Z * Z :=
  (aircraft_type a, arrival_time a, runway_time a).

(** The threads [main] creates for the records [ais] when every
    [pthread_create] succeeds: record number [i] gets identifier [i]. *)
Fixpoint spawn_all (ais : list aircraft_info) (i : nat) : list spawned :=
  match ais with
  | [] => []
  | a :: rest =>
      SpawnAircraft (set_aircraft_id (Z.of_nat i) a) :: spawn_all rest (S i)
  end.

(** The trace and the configuration of the third scenario. *)
Definition five_trace : list obs :=
  Eval vm_compute in
    match run_trace (init_config five_ai) five_events [] with
    | Some (tr, _) => tr
    | None => []
    end.

Definition five_config : config :=
  Eval vm_compute in
    match run_trace (init_config five_ai) five_events [] with
    | Some (_, c) => c
    | None => init_config five_ai
    end.

(** A fourth scenario: eight emergency aircraft use the runway one after
    the other, and the controller then begins its break. *)
Definition eight_ai : list aircraft_info :=
  repeat (scenario_aircraft EMERGENCY 30) 8.

Definition eight_events : list event :=
  [ Arrive 0 0; Enter 0 0; Leave 0; Arrive 1 0; Enter 1 0; Leave 1;
    Arrive 2 0; Enter 2 0; Leave 2; Arrive 3 0; Enter 3 0; Leave 3;
    Arrive 4 0; Enter 4 0; Leave 4; Arrive 5 0; Enter 5 0; Leave 5;
    Arrive 6 0; Enter 6 0; Leave 6; Arrive 7 0; Enter 7 0; Leave 7;
    ControllerPoll ].

Definition eight_trace : list obs :=
  Eval vm_compute in
    match run_trace (init_config eight_ai) eight_events [] with
    | Some (tr, _) => tr
    | None => []
    end.

Definition eight_config : config :=
  Eval vm_compute in
    match run_trace (init_config eight_ai) eight_events [] with
    | Some (_, c) => c
    | None => init_config eight_ai
    end.

(** A fifth scenario: an aircraft whose type code is 7 arrives, waits, and
    declares a fuel emergency. *)
Definition stranded_ai : list aircraft_info := [ scenario_aircraft 7 20 ].

Definition stranded_events : list event :=
  [ Arrive 0 0; Enter 0 0; Retry 0 30 ].

Definition stranded_thread : thread :=
  {| th_info := scenario_aircraft 7 20; th_pc := Waiting true false |}.

Definition stranded_trace : list obs := [ Silent; Silent; Silent ].

Definition stranded_config : config :=
  {| shared :=
       {| waiting_commercial := 0; waiting_cargo := 0; waiting_emergency := 1;
          waiting_north := 0; waiting_south := 0;
          fuel_emergency_waiting := 1;
          last_regular_type := -1; regular_type_count := 0;
          aircraft_on_runway := 0; commercial_on_runway := 0;
          cargo_on_runway := 0; emergency_on_runway := 0;
          aircraft_since_break := 0; current_direction := NORTH;
          consecutive_direction := 0 |};
     threads := [ stranded_thread ];
     controller := Polling |}.

(** A workload of two usable lines between a comment and an empty line,
    with a [sscanf] that finds three integers in the lines that start with
    a digit, and a [rand] that always returns 45. *)
Definition sample_lines : list string :=
  [ "# type arrival runway"%string; "0 1 2"%string;
    String (Ascii.ascii_of_nat 10) EmptyString; "2 0 3"%string ].

Definition sample_sscanf3 (line : string) : option (Z * Z * Z) :=
  match line with
  | String "0"%char _ => Some (0, 1, 2)
  | String "2"%char _ => Some (2, 0, 3)
  | _ => None
  end.

Definition sample_rand (k : nat) : Z := 45.

Definition sample_record (ty arrival on_runway : Z) : aircraft_info :=
  {| arrival_time := arrival; runway_time := on_runway; aircraft_id := 0;
     aircraft_type := ty; fuel_reserve := 24; arrival_timestamp := 0 |}.

(** A cargo aircraft that has arrived at time 0 while the runway points
    north and has not yet reached its enter function. *)
Definition waiting_thread : thread :=
  {| th_info := scenario_aircraft CARGO 30; th_pc := Arrived |}.

Definition waiting_before : config :=
  {| shared := initial_globals;
     threads := [ waiting_thread ];
     controller := Polling |}.

(** * Proofs *)

(** ** The admission predicate *)

Ltac unfold_constants :=
  unfold MAX_RUNWAY_CAPACITY, CONTROLLER_LIMIT, DIRECTION_LIMIT, COMMERCIAL,
    CARGO, EMERGENCY, NORTH, SOUTH in *.

(** Each early return of [can_enter_common] fires exactly when the check
    of the same rank fails. *)
Lemma capacity_check_iff g :
  (aircraft_on_runway g >=? MAX_RUNWAY_CAPACITY) = false <-> capacity_check g.
Proof. unfold capacity_check. unfold_constants. lia. Qed.

Lemma break_gate_check_iff g :
  (aircraft_since_break g >=? CONTROLLER_LIMIT) = false <-> break_gate_check g.
Proof. unfold break_gate_check. unfold_constants. lia. Qed.

Lemma direction_check_iff g ai d :
  ((aircraft_type ai =? COMMERCIAL) || (aircraft_type ai =? CARGO))
  && negb (d =? current_direction g) = false <-> direction_check g ai d.
Proof. unfold direction_check. unfold_constants. lia. Qed.

Lemma segregation_check_iff g ai :
  (aircraft_type ai =? COMMERCIAL) && (cargo_on_runway g >? 0) = false
  /\ (aircraft_type ai =? CARGO) && (commercial_on_runway g >? 0) = false
  <-> segregation_check g ai.
Proof. unfold segregation_check. unfold_constants. lia. Qed.

Lemma escalation_check_iff g fe :
  (fuel_emergency_waiting g >? 0) && (fe =? 0) = false
  <-> escalation_check g fe.
Proof. unfold escalation_check. lia. Qed.

Lemma emergency_precedence_check_iff g ai :
  negb (aircraft_type ai =? EMERGENCY) && (waiting_emergency g >? 0) = false
  <-> emergency_precedence_check g ai.
Proof. unfold emergency_precedence_check. unfold_constants. lia. Qed.

Lemma fairness_check_iff g ai :
  ((aircraft_type ai =? COMMERCIAL) || (aircraft_type ai =? CARGO))
  && ((regular_type_count g >=? 4)
      && (last_regular_type g =? aircraft_type ai)
      && (other_type_waiting g ai >? 0)) = false
  <-> fairness_check g ai.
Proof.
  unfold fairness_check, other_type_waiting. unfold_constants.
  destruct (aircraft_type ai =? 0) eqn:E; lia.
Qed.

Lemma rotation_check_iff g d :
  (d =? current_direction g)
  && (consecutive_direction g >=? DIRECTION_LIMIT)
  && (opposite_waiting g >? 0) = false
  <-> rotation_check g d.
Proof.
  unfold rotation_check, opposite_waiting. unfold_constants.
  destruct (current_direction g =? 0) eqn:E0; [lia|].
  destruct (current_direction g =? 1) eqn:E1; lia.
Qed.

Lemma can_enter_common_spec g ai d fe :
  can_enter_common g ai d fe = 1 <->
  capacity_check g /\ break_gate_check g /\ direction_check g ai d
  /\ segregation_check g ai /\ escalation_check g fe
  /\ emergency_precedence_check g ai /\ fairness_check g ai
  /\ rotation_check g d.
Proof.
  rewrite <- capacity_check_iff, <- break_gate_check_iff,
    <- direction_check_iff, <- segregation_check_iff, <- escalation_check_iff,
    <- emergency_precedence_check_iff, <- fairness_check_iff,
    <- rotation_check_iff.
  unfold can_enter_common.
  repeat match goal with
         | |- (if ?b then 0 else _) = 1 <-> _ =>
             destruct b;
             [ split; [ discriminate | intuition discriminate ] | ]
         end.
  intuition.
Qed.

Lemma can_enter_common_01 g ai d fe :
  can_enter_common g ai d fe = 0 \/ can_enter_common g ai d fe = 1.
Proof.
  unfold can_enter_common.
  repeat match goal with
         | |- (if ?b then 0 else _) = 0 \/ _ => destruct b; [ by left | ]
         end.
  by right.
Qed.

(** ** Counting threads *)

Lemma tally_nonneg p ts : 0 <= tally p ts.
Proof. induction ts as [|t ts IH]; simpl; [lia|]. destruct (p t); simpl; lia. Qed.

Lemma tally_le_length p ts : tally p ts <= Z.of_nat (length ts).
Proof.
  induction ts as [|t ts IH]; simpl length; simpl tally; [lia|].
  destruct (p t); simpl Z.b2z; lia.
Qed.

Lemma tally_insert p (ts : list thread) i t t' :
  ts !! i = Some t ->
  tally p (<[i := t']> ts) = tally p ts - Z.b2z (p t) + Z.b2z (p t').
Proof.
  revert i. induction ts as [|a ts IH]; intros [|i] H; simpl in *;
    try discriminate.
  - injection H as ->. lia.
  - rewrite (IH i H). lia.
Qed.

Lemma tally_broadcast p ts :
  (forall t, p (wake t) = p t) ->
  tally p (pthread_cond_broadcast ts) = tally p ts.
Proof.
  intros Hp. unfold pthread_cond_broadcast.
  induction ts as [|a ts IH]; cbn [map tally]; [done|].
  rewrite IH, Hp. done.
Qed.

Lemma tally_lookup p (ts : list thread) i t :
  ts !! i = Some t -> Z.b2z (p t) <= tally p ts.
Proof.
  revert i. induction ts as [|a ts IH]; intros [|i] H; simpl in *;
    try discriminate.
  - injection H as ->. pose proof (tally_nonneg p ts). lia.
  - specialize (IH i H). destruct (p a); simpl; lia.
Qed.

Lemma tally_init p ai :
  (forall a, p {| th_info := a; th_pc := Created |} = false) ->
  tally p (map (fun a => {| th_info := a; th_pc := Created |}) ai) = 0.
Proof.
  intros Hp. induction ai as [|a ai IH]; simpl; [done|].
  rewrite Hp, IH. done.
Qed.

Lemma wake_waiting_as cls t : waiting_as cls (wake t) = waiting_as cls t.
Proof. destruct t as [a []]; reflexivity. Qed.

Lemma wake_on_runway_as cls t : on_runway_as cls (wake t) = on_runway_as cls t.
Proof. destruct t as [a []]; reflexivity. Qed.

Lemma wake_escalated t : escalated (wake t) = escalated t.
Proof. destruct t as [a [| |[] ?| |]]; reflexivity. Qed.

Lemma wake_has_entered t : has_entered (wake t) = has_entered t.
Proof. destruct t as [a []]; reflexivity. Qed.

Lemma thread_class_cases ai :
  thread_class ai = COMMERCIAL /\ aircraft_type ai = COMMERCIAL
  \/ thread_class ai = CARGO /\ aircraft_type ai = CARGO
  \/ thread_class ai = EMERGENCY /\ aircraft_type ai <> COMMERCIAL
     /\ aircraft_type ai <> CARGO.
Proof.
  unfold thread_class. unfold_constants.
  destruct (Z.eqb_spec (aircraft_type ai) 0); [lia|].
  destruct (Z.eqb_spec (aircraft_type ai) 1); lia.
Qed.

(** ** What the critical sections write *)

Lemma enter_loop_TimedWait ai now fe g g' fe' :
  enter_loop ai now fe g = TimedWait g' fe' ->
  g' = after_escalation ai now fe g
  /\ fe' = fe || escalates ai now fe
  /\ can_enter_common g' ai (desired_direction_of ai g') (Z.b2z fe') = 0.
Proof.
  unfold enter_loop, commercial_enter_loop, cargo_enter_loop,
    emergency_enter_loop, after_escalation, desired_direction_of, escalates.
  destruct (aircraft_type ai =? COMMERCIAL), (aircraft_type ai =? CARGO),
    fe, (to_int (now - arrival_timestamp ai) >=? fuel_reserve ai);
    cbn [negb andb orb];
    match goal with
    | |- context [can_enter_common ?a ?b ?c ?d =? 0] =>
        destruct (Z.eqb_spec (can_enter_common a b c d) 0) as [E|E]
    end; intros H; inversion H; subst; auto.
Qed.

Lemma enter_loop_Entered ai now fe g g' :
  enter_loop ai now fe g = Entered g' ->
  let g1 := after_escalation ai now fe g in
  let fe' := fe || escalates ai now fe in
  can_enter_common g1 ai (desired_direction_of ai g1) (Z.b2z fe') = 1
  /\ entry_effect ai fe' g1 g'.
Proof.
  unfold enter_loop, commercial_enter_loop, cargo_enter_loop,
    emergency_enter_loop, after_escalation, desired_direction_of, escalates,
    thread_class.
  destruct (aircraft_type ai =? COMMERCIAL) eqn:E0,
    (aircraft_type ai =? CARGO) eqn:E1,
    fe, (to_int (now - arrival_timestamp ai) >=? fuel_reserve ai);
    cbn [negb andb orb];
    match goal with
    | |- context [can_enter_common ?a ?b ?c ?d =? 0] =>
        pose proof (can_enter_common_01 a b c d) as H01;
        destruct (Z.eqb_spec (can_enter_common a b c d) 0) as [E|E]
    end; intros Hres; inversion Hres; subst; clear Hres;
    (split; [lia|]);
    split; unfold thread_class; rewrite ?E0, ?E1; cbn;
    repeat match goal with
           | |- context [if ?b then _ else _] => destruct b eqn:?
           end; cbn; lia.
Qed.

Ltac compute_globals :=
  cbv [set_waiting_commercial set_waiting_cargo set_waiting_emergency
       set_waiting_north set_waiting_south set_fuel_emergency_waiting
       set_last_regular_type set_regular_type_count set_aircraft_on_runway
       set_commercial_on_runway set_cargo_on_runway set_emergency_on_runway
       set_aircraft_since_break set_current_direction
       set_consecutive_direction
       waiting_commercial waiting_cargo waiting_emergency waiting_north
       waiting_south fuel_emergency_waiting last_regular_type
       regular_type_count aircraft_on_runway commercial_on_runway
       cargo_on_runway emergency_on_runway aircraft_since_break
       current_direction consecutive_direction].

Lemma after_escalation_eq ai now fe g :
  after_escalation ai now fe g
  = set_fuel_emergency_waiting
      (fuel_emergency_waiting g + Z.b2z (escalates ai now fe)) g.
Proof.
  unfold after_escalation. destruct (escalates ai now fe); [done|].
  destruct g; unfold set_fuel_emergency_waiting; cbn. f_equal. lia.
Qed.

Lemma escalates_flag ai now fe :
  Z.b2z (fe || escalates ai now fe) = Z.b2z fe + Z.b2z (escalates ai now fe).
Proof. unfold escalates. destruct fe; cbn; [|done]. lia. Qed.

Lemma enter_begin_eq ai g :
  enter_begin ai g
  = set_waiting_south
      (waiting_south g + Z.b2z (thread_class ai =? CARGO))
      (set_waiting_north
         (waiting_north g + Z.b2z (thread_class ai =? COMMERCIAL))
         (set_waiting_emergency
            (waiting_emergency g + Z.b2z (thread_class ai =? EMERGENCY))
            (set_waiting_cargo
               (waiting_cargo g + Z.b2z (thread_class ai =? CARGO))
               (set_waiting_commercial
                  (waiting_commercial g
                   + Z.b2z (thread_class ai =? COMMERCIAL)) g)))).
Proof.
  unfold enter_begin, thread_class, commercial_enter_begin, cargo_enter_begin,
    emergency_enter_begin.
  unfold_constants. destruct g.
  destruct (aircraft_type ai =? 0), (aircraft_type ai =? 1);
    cbn [Z.b2z Z.eqb]; compute_globals; f_equal; lia.
Qed.

Lemma leave_eq ai g g' :
  leave ai g = Some g' ->
  g' = set_emergency_on_runway
         (emergency_on_runway g - Z.b2z (thread_class ai =? EMERGENCY))
         (set_cargo_on_runway
            (cargo_on_runway g - Z.b2z (thread_class ai =? CARGO))
            (set_commercial_on_runway
               (commercial_on_runway g
                - Z.b2z (thread_class ai =? COMMERCIAL))
               (set_aircraft_on_runway (aircraft_on_runway g - 1) g)))
  /\ 0 <= aircraft_on_runway g'.
Proof.
  unfold leave, thread_class, commercial_leave, cargo_leave, emergency_leave.
  unfold_constants. destruct g.
  destruct (aircraft_type ai =? 0), (aircraft_type ai =? 1);
    cbn [Z.b2z Z.eqb]; compute_globals;
    match goal with
    | |- context [if ?b then _ else _] => destruct b eqn:E
    end; intros H; inversion H; subst; clear H; cbn [Z.b2z Z.eqb]; compute_globals;
    (split; [f_equal; lia | lia]).
Qed.

(** ** The invariant *)

Lemma Inv_init ai : Inv (init_config ai).
Proof.
  split; cbn; rewrite ?tally_init by (intros; apply andb_false_r || done);
    unfold_constants; try lia.
  all: try congruence.
Qed.

Ltac name_tallies c :=
  set (tally (on_runway_as COMMERCIAL) (threads c)) in *;
  set (tally (on_runway_as CARGO) (threads c)) in *;
  set (tally (on_runway_as EMERGENCY) (threads c)) in *;
  set (tally (waiting_as COMMERCIAL) (threads c)) in *;
  set (tally (waiting_as CARGO) (threads c)) in *;
  set (tally (waiting_as EMERGENCY) (threads c)) in *;
  set (tally escalated (threads c)) in *;
  set (tally has_entered (threads c)) in *.

Ltac know_tallies c :=
  pose proof (tally_nonneg (on_runway_as COMMERCIAL) (threads c));
  pose proof (tally_nonneg (on_runway_as CARGO) (threads c));
  pose proof (tally_nonneg (on_runway_as EMERGENCY) (threads c));
  pose proof (tally_nonneg (waiting_as COMMERCIAL) (threads c));
  pose proof (tally_nonneg (waiting_as CARGO) (threads c));
  pose proof (tally_nonneg (waiting_as EMERGENCY) (threads c));
  pose proof (tally_nonneg escalated (threads c));
  pose proof (tally_nonneg has_entered (threads c)).

Lemma escalated_Waiting a fe w :
  escalated {| th_info := a; th_pc := Waiting fe w |} = fe.
Proof. by destruct fe. Qed.

Lemma escalated_pc t fe w : th_pc t = Waiting fe w -> escalated t = fe.
Proof. unfold escalated. intros ->. by destruct fe. Qed.

Ltac tally_simpl c Hlk Hpc :=
  cbn [shared threads controller];
  rewrite ?tally_broadcast
    by (intro; first [ apply wake_waiting_as | apply wake_on_runway_as
                     | apply wake_escalated | apply wake_has_entered ]);
  rewrite ?(tally_insert _ _ _ _ _ Hlk);
  name_tallies c;
  rewrite ?escalated_Waiting, ?(escalated_pc _ _ _ Hpc);
  unfold waiting_as, on_runway_as, escalated, has_entered, is_waiting,
    is_on_runway;
  cbn [th_pc th_info]; rewrite ?Hpc;
  rewrite ?andb_false_r, ?andb_true_r.

Ltac class_cases ai :=
  let Hc := fresh "Hcls" in
  let Ht := fresh "Hty" in
  let Ht' := fresh "Hty'" in
  destruct (thread_class_cases ai) as [[Hc Ht]|[[Hc Ht]|[Hc [Ht Ht']]]];
  rewrite ?Hc in *.

Lemma step_Inv_arrive c i now c' o :
  Inv c -> step c (Arrive i now) = Ok c' o -> Inv c'.
Proof.
  intros [] H. cbn [step] in H.
  destruct (threads c !! i) as [t|] eqn:Hlk; [|done].
  destruct (th_pc t) eqn:Hpc; try done. injection H as <- <-.
  know_tallies c.
  split; tally_simpl c Hlk Hpc; cbn; try lia; done.
Qed.

(** The structural checks are all the invariant needs from a successful
    evaluation of the predicate. *)
Lemma can_enter_common_structural g ai d fe :
  can_enter_common g ai d fe = 1 ->
  aircraft_on_runway g < 2 /\ aircraft_since_break g < 8
  /\ (thread_class ai = COMMERCIAL -> cargo_on_runway g <= 0)
  /\ (thread_class ai = CARGO -> commercial_on_runway g <= 0).
Proof.
  intros H. apply can_enter_common_spec in H.
  destruct H as (H1 & H2 & _ & [H4 H4'] & _).
  unfold capacity_check, break_gate_check in *.
  destruct (thread_class_cases ai) as [[Hc Ht]|[[Hc Ht]|[Hc [Ht Ht']]]];
    rewrite Hc; unfold_constants; repeat split; lia.
Qed.

Ltac globals_fields :=
  cbn [waiting_commercial waiting_cargo waiting_emergency waiting_north
       waiting_south fuel_emergency_waiting last_regular_type
       regular_type_count aircraft_on_runway commercial_on_runway
       cargo_on_runway emergency_on_runway aircraft_since_break
       current_direction consecutive_direction
       set_waiting_commercial set_waiting_cargo set_waiting_emergency
       set_waiting_north set_waiting_south set_fuel_emergency_waiting
       set_last_regular_type set_regular_type_count set_aircraft_on_runway
       set_commercial_on_runway set_cargo_on_runway set_emergency_on_runway
       set_aircraft_since_break set_current_direction
       set_consecutive_direction] in *.

Ltac finish_inv :=
  globals_fields;
  repeat match goal with
         | |- context [Z.b2z ?b] =>
             is_var b; generalize dependent (Z.b2z b); intros
         end;
  cbn [Z.b2z Z.eqb Pos.eqb] in *; unfold_constants;
  cbn [Z.b2z Z.eqb Pos.eqb] in *;
  repeat match goal with
         | H : context [if ?b then _ else _] |- _ => destruct b
         end;
  first [ lia | intros ?; congruence ].

Lemma step_Inv_enter c i now c' o :
  Inv c -> step c (Enter i now) = Ok c' o -> Inv c'.
Proof.
  intros [] H. cbn [step] in H.
  destruct (controller c) eqn:Hctl; try done.
  destruct (threads c !! i) as [t|] eqn:Hlk; [|done].
  destruct (th_pc t) eqn:Hpc; try done.
  know_tallies c.
  destruct (enter_loop _ _ _ _) as [g'|g' fe'] eqn:Hloop; cbn in H;
    injection H as <- <-.
  - apply enter_loop_Entered in Hloop. cbn zeta in Hloop.
    destruct Hloop as [Hcan []].
    apply can_enter_common_structural in Hcan.
    destruct Hcan as (Hk1 & Hk2 & Hk3 & Hk4).
    rewrite orb_false_l in *.
    rewrite after_escalation_eq, enter_begin_eq in *.
    globals_fields.
    generalize dependent (Z.b2z (escalates (th_info t) now false)). intros e **.
    split; tally_simpl c Hlk Hpc; rewrite ?Hctl;
      class_cases (th_info t); finish_inv.
  - apply enter_loop_TimedWait in Hloop. destruct Hloop as (-> & -> & _).
    rewrite orb_false_l in *.
    rewrite after_escalation_eq, enter_begin_eq in *.
    globals_fields.
    split; tally_simpl c Hlk Hpc; rewrite ?Hctl;
      class_cases (th_info t); finish_inv.
Qed.

Lemma step_Inv_retry c i now c' o :
  Inv c -> step c (Retry i now) = Ok c' o -> Inv c'.
Proof.
  intros [] H. cbn [step] in H.
  destruct (controller c) eqn:Hctl; try done.
  destruct (threads c !! i) as [t|] eqn:Hlk; [|done].
  destruct (th_pc t) as [| |fe w| |] eqn:Hpc; try done.
  know_tallies c.
  destruct (enter_loop _ _ _ _) as [g'|g' fe'] eqn:Hloop; cbn in H;
    injection H as <- <-.
  - apply enter_loop_Entered in Hloop. cbn zeta in Hloop.
    destruct Hloop as [Hcan []].
    apply can_enter_common_structural in Hcan.
    destruct Hcan as (Hk1 & Hk2 & Hk3 & Hk4).
    rewrite escalates_flag in *.
    rewrite after_escalation_eq in *.
    globals_fields.
    generalize dependent (Z.b2z (escalates (th_info t) now fe)). intros e **.
    split; tally_simpl c Hlk Hpc; rewrite ?Hctl;
      class_cases (th_info t); finish_inv.
  - apply enter_loop_TimedWait in Hloop. destruct Hloop as (-> & -> & _).
    rewrite after_escalation_eq in *.
    globals_fields.
    split; tally_simpl c Hlk Hpc; rewrite ?Hctl; rewrite ?escalates_flag;
      class_cases (th_info t); finish_inv.
Qed.


Lemma on_runway_counted cls (ts : list thread) i t :
  ts !! i = Some t -> th_pc t = OnRunway ->
  Z.b2z (thread_class (th_info t) =? cls) <= tally (on_runway_as cls) ts.
Proof.
  intros Hlk Hpc. pose proof (tally_lookup (on_runway_as cls) _ _ _ Hlk) as L.
  unfold on_runway_as at 1 in L. unfold is_on_runway in L.
  by rewrite Hpc, andb_true_r in L.
Qed.

Lemma waiting_counted cls (ts : list thread) i t fe w :
  ts !! i = Some t -> th_pc t = Waiting fe w ->
  Z.b2z (thread_class (th_info t) =? cls) <= tally (waiting_as cls) ts.
Proof.
  intros Hlk Hpc. pose proof (tally_lookup (waiting_as cls) _ _ _ Hlk) as L.
  unfold waiting_as at 1 in L. unfold is_waiting in L.
  by rewrite Hpc, andb_true_r in L.
Qed.

Lemma step_Inv_leave c i c' o :
  Inv c -> step c (Leave i) = Ok c' o -> Inv c'.
Proof.
  intros [] H. cbn [step] in H.
  destruct (controller c) eqn:Hctl; try done.
  destruct (threads c !! i) as [t|] eqn:Hlk; [|done].
  destruct (th_pc t) eqn:Hpc; try done.
  know_tallies c.
  pose proof (on_runway_counted COMMERCIAL _ _ _ Hlk Hpc) as L0.
  pose proof (on_runway_counted CARGO _ _ _ Hlk Hpc) as L1.
  pose proof (on_runway_counted EMERGENCY _ _ _ Hlk Hpc) as L2.
  destruct (leave _ _) as [g'|] eqn:Hleave; [|done]. injection H as <- <-.
  apply leave_eq in Hleave. destruct Hleave as [-> Hnn].
  split; tally_simpl c Hlk Hpc; rewrite ?Hctl;
    class_cases (th_info t); finish_inv.
Qed.

Lemma step_Inv_controller_poll c c' o :
  Inv c -> step c ControllerPoll = Ok c' o -> Inv c'.
Proof.
  intros HI H. cbn [step] in H.
  destruct (controller c) eqn:Hctl; try done.
  unfold controller_decide, switch_direction_assert in H.
  destruct HI.
  repeat match type of H with
         | context [if ?b then _ else _] => destruct b eqn:?
         end; try done; injection H as <- <-;
    split; cbn [shared threads controller]; auto; intros _; lia.
Qed.

Lemma step_Inv_controller_done c c' o :
  Inv c -> step c ControllerDone = Ok c' o -> Inv c'.
Proof.
  intros [] H. cbn [step] in H.
  destruct (controller c) eqn:Hctl; try done.
  - unfold take_break in H.
    destruct (aircraft_on_runway (shared c) =? 0) eqn:E; [|done].
    injection H as <- <-.
    split; cbn [shared threads controller];
      rewrite ?tally_broadcast
        by (intro; first [ apply wake_waiting_as | apply wake_on_runway_as
                         | apply wake_escalated | apply wake_has_entered ]);
      globals_fields; unfold_constants; first [ done | lia ].
  - injection H as <- <-. unfold switch_direction.
    split; cbn [shared threads controller];
      rewrite ?tally_broadcast
        by (intro; first [ apply wake_waiting_as | apply wake_on_runway_as
                         | apply wake_escalated | apply wake_has_entered ]);
      globals_fields; unfold_constants;
      repeat match goal with
             | |- context [if ?b then _ else _] => destruct b
             end;
      first [ done | lia ].
Qed.

Lemma step_Inv c e c' o : Inv c -> step c e = Ok c' o -> Inv c'.
Proof.
  intros HI H. destruct e.
  - eapply step_Inv_arrive; eauto.
  - eapply step_Inv_enter; eauto.
  - eapply step_Inv_retry; eauto.
  - cbn [step] in H. repeat case_match; try done. by injection H as <- <-.
  - eapply step_Inv_leave; eauto.
  - cbn [step] in H. repeat case_match; try done. by injection H as <- <-.
  - eapply step_Inv_controller_poll; eauto.
  - eapply step_Inv_controller_done; eauto.
Qed.

Lemma exec_Inv ai tr c : exec ai tr c -> Inv c.
Proof.
  induction 1 as [|tr c e c' o _ IH Hstep]; [apply Inv_init|].
  eapply step_Inv; eauto.
Qed.

Lemma reachable_Inv ai c : reachable ai c -> Inv c.
Proof. intros [tr H]. eapply exec_Inv; eauto. Qed.

(** ** Inversion of a step by what it shows *)

Lemma step_cases c e c' o :
  step c e = Ok c' o ->
  match o with
  | Granted i cls =>
      exists t now fe g0,
        entering c e i t now fe g0
        /\ cls = thread_class (th_info t)
        /\ enter_loop (th_info t) now fe g0 = Entered (shared c')
        /\ threads c'
           = <[i := {| th_info := th_info t; th_pc := OnRunway |}]> (threads c)
        /\ controller c' = Polling
  | Released i cls =>
      exists t,
        e = Leave i /\ controller c = Polling /\ threads c !! i = Some t
        /\ th_pc t = OnRunway /\ cls = thread_class (th_info t)
        /\ leave (th_info t) (shared c) = Some (shared c')
        /\ threads c'
           = pthread_cond_broadcast
               (<[i := {| th_info := th_info t; th_pc := Departed |}]>
                  (threads c))
        /\ controller c' = Polling
  | BreakTaken =>
      e = ControllerDone /\ controller c = OnBreak
      /\ take_break (shared c) = Some (shared c')
      /\ threads c' = pthread_cond_broadcast (threads c)
      /\ controller c' = Polling
  | DirectionSwitched =>
      e = ControllerDone /\ controller c = Switching
      /\ shared c' = switch_direction (shared c)
      /\ threads c' = pthread_cond_broadcast (threads c)
      /\ controller c' = Polling
  | Silent =>
      shared c' = shared c
      /\ (controller c' = controller c
          \/ e = ControllerPoll /\ controller c = Polling
             /\ aircraft_on_runway (shared c) = 0)
      /\ (threads c' = threads c
          \/ exists i now t,
               e = Arrive i now /\ threads c !! i = Some t
               /\ th_pc t = Created
               /\ threads c'
                  = <[i := {| th_info := set_arrival_timestamp now (th_info t);
                              th_pc := Arrived |}]> (threads c))
      \/ exists i t now fe g0 fe',
           entering c e i t now fe g0
           /\ enter_loop (th_info t) now fe g0 = TimedWait (shared c') fe'
           /\ threads c'
              = <[i := {| th_info := th_info t; th_pc := Waiting fe' false |}]>
                  (threads c)
           /\ controller c' = Polling
  end.
Proof.
  unfold entering. intros H. destruct e as [i now|i now|i now|i|i|i| |];
    cbn [step] in H.
  - destruct (threads c !! i) as [t|] eqn:Hlk; [|done].
    destruct (th_pc t) eqn:Hpc; try done. injection H as <- <-.
    left. cbn. split; [done|]. split; [by left|]. right. by exists i, now, t.
  - destruct (controller c) eqn:Hctl; try done.
    destruct (threads c !! i) as [t|] eqn:Hlk; [|done].
    destruct (th_pc t) eqn:Hpc; try done.
    destruct (enter_loop _ _ _ _) as [g'|g' fe'] eqn:Hloop; cbn in H;
      injection H as <- <-; cbn.
    + exists t, now, false, (enter_begin (th_info t) (shared c)).
      rewrite Hloop. intuition.
    + right. exists i, t, now, false, (enter_begin (th_info t) (shared c)), fe'.
      rewrite Hloop. intuition.
  - destruct (controller c) eqn:Hctl; try done.
    destruct (threads c !! i) as [t|] eqn:Hlk; [|done].
    destruct (th_pc t) as [| |fe w| |] eqn:Hpc; try done.
    destruct (enter_loop _ _ _ _) as [g'|g' fe'] eqn:Hloop; cbn in H;
      injection H as <- <-; cbn.
    + exists t, now, fe, (shared c). rewrite Hloop. intuition eauto.
    + right. exists i, t, now, fe, (shared c), fe'. rewrite Hloop.
      intuition eauto.
  - destruct (threads c !! i) as [t|] eqn:Hlk; [|done].
    destruct (th_pc t); try done. destruct (on_runway_asserts _ _); [|done].
    injection H as <- <-. left. auto.
  - destruct (controller c) eqn:Hctl; try done.
    destruct (threads c !! i) as [t|] eqn:Hlk; [|done].
    destruct (th_pc t) eqn:Hpc; try done.
    destruct (leave _ _) as [g'|] eqn:Hleave; [|done]. injection H as <- <-.
    exists t. cbn. intuition.
  - destruct (threads c !! i) as [t|] eqn:Hlk; [|done].
    destruct (th_pc t); try done. destruct (counters_in_range _); [|done].
    injection H as <- <-. left. auto.
  - destruct (controller c) eqn:Hctl; try done.
    unfold controller_decide, switch_direction_assert in H.
    destruct (aircraft_since_break (shared c) >=? CONTROLLER_LIMIT);
      destruct (Z.eqb_spec (aircraft_on_runway (shared c)) 0);
      cbn [andb] in H;
      repeat match type of H with
             | context [if ?b then _ else _] => destruct b
             end; try done; injection H as <- <-; left; cbn;
      rewrite ?Hctl; intuition.
  - destruct (controller c) eqn:Hctl; try done.
    + destruct (take_break _) as [g'|] eqn:Hbrk; [|done].
      injection H as <- <-. cbn. intuition.
    + injection H as <- <-. cbn. intuition.
Qed.

Lemma entering_same_runway_fields c e i t now fe g0 :
  entering c e i t now fe g0 ->
  same_runway_fields (shared c) (after_escalation (th_info t) now fe g0).
Proof.
  intros (_ & _ & [(_ & _ & _ & ->)|(_ & _ & ->)]);
    rewrite after_escalation_eq, ?enter_begin_eq; by split.
Qed.

Lemma step_Silent_same_runway_fields c e c' :
  step c e = Ok c' Silent -> same_runway_fields (shared c) (shared c').
Proof.
  intros H. apply step_cases in H.
  destruct H as [(-> & _)|(i & t & now & fe & g0 & fe' & He & Hloop & _)].
  - by split.
  - apply enter_loop_TimedWait in Hloop. destruct Hloop as (-> & _).
    eapply entering_same_runway_fields; eauto.
Qed.

(** Every step moves the occupancy counters by what it shows. *)
Lemma step_occupancy c e c' o :
  step c e = Ok c' o ->
  aircraft_on_runway (shared c')
  = aircraft_on_runway (shared c) + total_change o
  /\ commercial_on_runway (shared c')
     = commercial_on_runway (shared c) + occupancy_change COMMERCIAL o
  /\ cargo_on_runway (shared c')
     = cargo_on_runway (shared c) + occupancy_change CARGO o
  /\ emergency_on_runway (shared c')
     = emergency_on_runway (shared c) + occupancy_change EMERGENCY o.
Proof.
  intros H. destruct o as [|i cls|i cls| |].
  - apply step_Silent_same_runway_fields in H. destruct H. cbn. lia.
  - apply step_cases in H.
    destruct H as (t & now & fe & g0 & He & -> & Hloop & _).
    apply enter_loop_Entered in Hloop. cbn zeta in Hloop.
    destruct Hloop as [_ []].
    destruct (entering_same_runway_fields _ _ _ _ _ _ _ He). cbn. lia.
  - apply step_cases in H.
    destruct H as (t & _ & _ & _ & _ & -> & Hleave & _).
    apply leave_eq in Hleave. destruct Hleave as [-> _]. cbn. lia.
  - apply step_cases in H. destruct H as (_ & _ & Hb & _).
    unfold take_break in Hb. destruct (_ =? _); [|done].
    injection Hb as <-. cbn. lia.
  - apply step_cases in H. destruct H as (_ & _ & -> & _). cbn. lia.
Qed.

Lemma granted_class c e c' i cls :
  step c e = Ok c' (Granted i cls) ->
  cls = COMMERCIAL \/ cls = CARGO \/ cls = EMERGENCY.
Proof.
  intros H. apply step_cases in H.
  destruct H as (t & _ & _ & _ & _ & -> & _).
  destruct (thread_class_cases (th_info t)); intuition.
Qed.

(** Executions built by [run]. *)
Lemma run_exec ai es : forall tr c c',
  exec ai tr c -> run c es = Some c' -> exists tr', exec ai tr' c'.
Proof.
  induction es as [|e es IH]; intros tr c c' Hex Hrun; cbn in Hrun.
  - injection Hrun as <-. eauto.
  - destruct (step c e) as [c1 o| |] eqn:Hstep; try done.
    eapply IH; [|exact Hrun]. eapply exec_step; eauto.
Qed.

Lemma run_reachable ai es c :
  run (init_config ai) es = Some c -> reachable ai c.
Proof. intros H. eapply run_exec; [apply exec_init|exact H]. Qed.

Lemma reachable_step ai c e c' o :
  reachable ai c -> step c e = Ok c' o -> reachable ai c'.
Proof. intros [tr H] Hs. exists (o :: tr). eapply exec_step; eauto. Qed.

(** ** The counters fit in a C [int] *)

Lemma broadcast_length ts : length (pthread_cond_broadcast ts) = length ts.
Proof. unfold pthread_cond_broadcast. apply length_map. Qed.

Lemma step_length c e c' o :
  step c e = Ok c' o -> length (threads c') = length (threads c).
Proof.
  intros H. apply step_cases in H. destruct o as [|i cls|i cls| |].
  - destruct H as [(_ & _ & [-> | (i & now & t & _ & _ & _ & ->)])
                  |(i & t & now & fe & g0 & fe' & _ & _ & -> & _)];
      by rewrite ?length_insert.
  - destruct H as (t & now & fe & g0 & _ & _ & _ & -> & _).
    by rewrite length_insert.
  - destruct H as (t & _ & _ & _ & _ & _ & _ & -> & _).
    by rewrite broadcast_length, length_insert.
  - destruct H as (_ & _ & _ & -> & _). by rewrite broadcast_length.
  - destruct H as (_ & _ & _ & -> & _). by rewrite broadcast_length.
Qed.

Lemma exec_length ai tr c : exec ai tr c -> length (threads c) = length ai.
Proof.
  induction 1 as [|tr c e c' o _ IH Hstep].
  - cbn. apply length_map.
  - by rewrite (step_length _ _ _ _ Hstep).
Qed.

(** With at most [MAX_AIRCRAFT] aircraft, which [main] guarantees, every
    shared counter of a reachable state is far inside the range of [int]. *)
Lemma counters_in_int_range ai c :
  reachable ai c ->
  Z.of_nat (length ai) <= MAX_AIRCRAFT ->
  in_int_range (waiting_commercial (shared c))
  /\ in_int_range (waiting_cargo (shared c))
  /\ in_int_range (waiting_emergency (shared c))
  /\ in_int_range (waiting_north (shared c))
  /\ in_int_range (waiting_south (shared c))
  /\ in_int_range (fuel_emergency_waiting (shared c))
  /\ in_int_range (last_regular_type (shared c))
  /\ in_int_range (regular_type_count (shared c))
  /\ in_int_range (aircraft_on_runway (shared c))
  /\ in_int_range (commercial_on_runway (shared c))
  /\ in_int_range (cargo_on_runway (shared c))
  /\ in_int_range (emergency_on_runway (shared c))
  /\ in_int_range (aircraft_since_break (shared c))
  /\ in_int_range (current_direction (shared c))
  /\ in_int_range (consecutive_direction (shared c)).
Proof.
  intros [tr Hex] Hn. pose proof (exec_length _ _ _ Hex) as Hlen.
  destruct (exec_Inv _ _ _ Hex). know_tallies c.
  pose proof (tally_le_length (waiting_as COMMERCIAL) (threads c)).
  pose proof (tally_le_length (waiting_as CARGO) (threads c)).
  pose proof (tally_le_length (waiting_as EMERGENCY) (threads c)).
  pose proof (tally_le_length escalated (threads c)).
  pose proof (tally_le_length has_entered (threads c)).
  rewrite Hlen in *. unfold in_int_range. unfold_constants.
  unfold MAX_AIRCRAFT in *.
  repeat split; lia.
Qed.

Lemma scenario_stalled_run :
  run (init_config scenario_ai) scenario_events = Some scenario_stalled.
Proof. vm_compute. reflexivity. Qed.

Lemma scenario_stalled_reachable : reachable scenario_ai scenario_stalled.
Proof. apply (run_reachable _ scenario_events), scenario_stalled_run. Qed.

Lemma scenario_blocked_step :
  step scenario_stalled (Retry 2 100) = Ok scenario_blocked Silent.
Proof. vm_compute. reflexivity. Qed.

Lemma scenario_blocked_reachable : reachable scenario_ai scenario_blocked.
Proof.
  eapply reachable_step;
    [apply scenario_stalled_reachable|apply scenario_blocked_step].
Qed.

Lemma scenario_entered_step :
  step scenario_blocked (Retry 3 110)
  = Ok scenario_entered (Granted 3 EMERGENCY).
Proof. vm_compute. reflexivity. Qed.

(** ** No assertion fails *)

Lemma counters_in_range_Inv c : Inv c -> counters_in_range (shared c) = true.
Proof.
  intros []. know_tallies c. unfold counters_in_range. unfold_constants. lia.
Qed.

Lemma Inv_no_abort c e : Inv c -> step c e <> Abort.
Proof.
  intros HI. pose proof (counters_in_range_Inv c HI) as Hrange.
  destruct HI. know_tallies c.
  destruct e as [i now|i now|i now|i|i|i| |]; cbn [step].
  - repeat case_match; done.
  - destruct (controller c); try done.
    destruct (threads c !! i) as [t|]; [|done]. destruct (th_pc t); try done.
    by destruct (enter_loop _ _ _ _).
  - destruct (controller c); try done.
    destruct (threads c !! i) as [t|]; [|done]. destruct (th_pc t); try done.
    by destruct (enter_loop _ _ _ _).
  - destruct (threads c !! i) as [t|] eqn:Hlk; [|done].
    destruct (th_pc t) eqn:Hpc; try done.
    pose proof (on_runway_counted COMMERCIAL _ _ _ Hlk Hpc) as L0.
    pose proof (on_runway_counted CARGO _ _ _ Hlk Hpc) as L1.
    assert (on_runway_asserts (th_info t) (shared c) = true) as ->; [|done].
    unfold on_runway_asserts, commercial_aircraft_asserts,
      cargo_aircraft_asserts, emergency_aircraft_asserts.
    rewrite Hrange. cbn [andb].
    destruct (thread_class_cases (th_info t))
      as [[Hc Ht]|[[Hc Ht]|[Hc [Ht Ht']]]]; rewrite Hc in *;
      unfold_constants; cbn [Z.eqb Pos.eqb Z.b2z] in *;
      repeat match goal with
             | |- context [if ?b then _ else _] => destruct b eqn:?
             end; lia.
  - destruct (controller c); try done.
    destruct (threads c !! i) as [t|] eqn:Hlk; [|done].
    destruct (th_pc t) eqn:Hpc; try done.
    pose proof (on_runway_counted COMMERCIAL _ _ _ Hlk Hpc) as L0.
    pose proof (on_runway_counted CARGO _ _ _ Hlk Hpc) as L1.
    pose proof (on_runway_counted EMERGENCY _ _ _ Hlk Hpc) as L2.
    assert (is_Some (leave (th_info t) (shared c))) as [g' ->]; [|done].
    unfold leave, commercial_leave, cargo_leave, emergency_leave.
    destruct (thread_class_cases (th_info t))
      as [[Hc Ht]|[[Hc Ht]|[Hc [Ht Ht']]]]; rewrite Hc in *;
      unfold_constants; cbn [Z.eqb Pos.eqb Z.b2z] in *; globals_fields;
      repeat match goal with
             | |- context [if ?b then _ else _] => destruct b eqn:?
             end; first [ by eexists | lia ].
  - destruct (threads c !! i) as [t|]; [|done]. destruct (th_pc t); try done.
    by rewrite Hrange.
  - destruct (controller c); try done.
    unfold controller_decide, switch_direction_assert.
    destruct (aircraft_since_break (shared c) >=? CONTROLLER_LIMIT);
      destruct (aircraft_on_runway (shared c) =? 0); cbn [andb]; try done.
    by destruct (_ && _).
  - destruct (controller c) eqn:Hctl; try done.
    unfold take_break.
    rewrite inv_maintenance0 by congruence. done.
Qed.

(** ** Claims *)

Lemma check_decidable k g ai d fe :
  check k g ai d fe \/ ~ check k g ai d fe.
Proof.
  do 9 (try destruct k as [|k]); cbn [check]; auto.
  - rewrite <- capacity_check_iff. destruct (_ >=? _); auto.
  - rewrite <- break_gate_check_iff. destruct (_ >=? _); auto.
  - rewrite <- direction_check_iff. destruct (_ && _); auto.
  - rewrite <- segregation_check_iff.
    destruct (_ && _); [right; intros [? _]; done|].
    destruct (_ && _); [right; intros [_ ?]; done|]. auto.
  - rewrite <- escalation_check_iff. destruct (_ && _); auto.
  - rewrite <- emergency_precedence_check_iff. destruct (_ && _); auto.
  - rewrite <- fairness_check_iff. destruct (_ && _); auto.
  - rewrite <- rotation_check_iff. destruct (_ && _); auto.
Qed.

Lemma first_failing (P : nat -> Prop) :
  (forall k, P k \/ ~ P k) ->
  forall n,
    (forall k, (k < n)%nat -> P k)
    \/ exists k, (k < n)%nat /\ ~ P k /\ forall j, (j < k)%nat -> P j.
Proof.
  intros Pdec. induction n as [|n [IH|IH]].
  - left. intros k Hk. lia.
  - destruct (Pdec n) as [Hn|Hn].
    + left. intros k Hk. destruct (decide (k = n)) as [->|]; [done|].
      apply IH. lia.
    + right. exists n. split; [lia|]. split; [done|]. exact IH.
  - right. destruct IH as (k & Hk & Hn & Hf). exists k. split; [lia|]. done.
Qed.

Lemma can_enter_common_checks g ai d fe :
  can_enter_common g ai d fe = 1 <-> forall k, check k g ai d fe.
Proof.
  rewrite can_enter_common_spec. split.
  - intros (?&?&?&?&?&?&?&?) k. do 9 (try destruct k as [|k]); cbn; auto.
  - intros H.
    pose proof (H 1%nat). pose proof (H 2%nat). pose proof (H 3%nat).
    pose proof (H 4%nat). pose proof (H 5%nat). pose proof (H 6%nat).
    pose proof (H 7%nat). pose proof (H 8%nat). cbn in *. tauto.
Qed.

(** C1.  [can_enter_common] answers 0 or 1; it answers 1 exactly when the
    eight checks (capacity, break gate, direction for commercial and cargo
    only, class segregation, fuel-emergency priority, emergency precedence,
    fairness, direction rotation) all pass, and it answers 0 exactly when
    some check fails, the first failing one in the order 1..8 deciding.  An
    emergency aircraft passes the direction check whatever direction it
    asks for, and [emergency_enter] asks for the current direction. *)
Theorem C1_can_enter_common_eight_checks :
  forall g ai d fe,
    (can_enter_common g ai d fe = 0 \/ can_enter_common g ai d fe = 1)
    /\ (can_enter_common g ai d fe = 1 <-> forall k, check k g ai d fe)
    /\ (can_enter_common g ai d fe = 0 <->
        exists k, (1 <= k <= 8)%nat /\ ~ check k g ai d fe
                  /\ forall j, (j < k)%nat -> check j g ai d fe)
    /\ (aircraft_type ai = EMERGENCY -> check 3 g ai d fe)
    /\ (forall now fe0,
          let g1 := after_escalation ai now fe0 g in
          let fe1 := Z.b2z (fe0 || escalates ai now fe0) in
          match emergency_enter_loop ai now fe0 g with
          | Entered _ =>
              can_enter_common g1 ai (current_direction g1) fe1 = 1
          | TimedWait _ _ =>
              can_enter_common g1 ai (current_direction g1) fe1 = 0
          end).
Proof.
  intros g ai d fe. split; [apply can_enter_common_01|].
  split; [apply can_enter_common_checks|]. split; [|split].
  - split.
    + intros H0.
      destruct (first_failing (fun k => check k g ai d fe)
                  (fun k => check_decidable k g ai d fe) 9)
        as [Hall|(k & Hk & Hn & Hfirst)].
      * assert (can_enter_common g ai d fe = 1) as H1; [|lia].
        apply can_enter_common_checks. intros k.
        destruct (decide (k < 9)%nat); [by apply Hall|].
        do 9 (destruct k as [|k]; [lia|]). exact I.
      * exists k. split; [|done]. split; [|lia].
        destruct k; [|lia]. exfalso. apply Hn. exact I.
    + intros (k & _ & Hn & _).
      destruct (can_enter_common_01 g ai d fe) as [|H1]; [done|].
      exfalso. apply Hn. by apply can_enter_common_checks.
  - cbn. unfold direction_check. unfold_constants. lia.
  - intros now fe0. cbn zeta.
    unfold emergency_enter_loop, after_escalation, escalates.
    destruct fe0, (to_int (now - arrival_timestamp ai) >=? fuel_reserve ai);
      cbn [negb andb orb];
      match goal with
      | |- context [can_enter_common ?a ?b ?c ?d =? 0] =>
          pose proof (can_enter_common_01 a b c d);
          destruct (Z.eqb_spec (can_enter_common a b c d) 0)
      end; lia.
Qed.

Lemma can_enter_common_full g a d fe :
  aircraft_on_runway g >= MAX_RUNWAY_CAPACITY -> can_enter_common g a d fe = 0.
Proof.
  intros H. unfold can_enter_common.
  destruct (aircraft_on_runway g >=? MAX_RUNWAY_CAPACITY) eqn:E; [done|lia].
Qed.

Lemma occupancy_change_total c e c' o :
  step c e = Ok c' o ->
  occupancy_change COMMERCIAL o + occupancy_change CARGO o
  + occupancy_change EMERGENCY o = total_change o.
Proof.
  intros H. destruct o as [|i cls|i cls| |]; cbn; try done.
  - destruct (granted_class _ _ _ _ _ H) as [-> | [-> | ->]]; done.
  - apply step_cases in H. destruct H as (t & _ & _ & _ & _ & -> & _).
    destruct (thread_class_cases (th_info t)) as [[-> _] | [[-> _] | [-> _]]];
      done.
Qed.

(** C2.  In every reachable state the occupancy is between 0 and 2 and is
    the sum of the three per-class counters; the predicate denies when the
    occupancy is at least 2; every step moves the total and the per-class
    counters together: an admission adds one to the total and to exactly
    one class, a release subtracts them, any other step leaves them. *)
Theorem C2_occupancy_within_capacity :
  forall ai c,
    reachable ai c ->
    0 <= aircraft_on_runway (shared c) <= MAX_RUNWAY_CAPACITY
    /\ commercial_on_runway (shared c) + cargo_on_runway (shared c)
       + emergency_on_runway (shared c) = aircraft_on_runway (shared c)
    /\ (forall a d fe,
          aircraft_on_runway (shared c) >= MAX_RUNWAY_CAPACITY ->
          can_enter_common (shared c) a d fe = 0)
    /\ (forall e c' o,
          step c e = Ok c' o ->
          aircraft_on_runway (shared c')
          = aircraft_on_runway (shared c) + total_change o
          /\ commercial_on_runway (shared c')
             = commercial_on_runway (shared c) + occupancy_change COMMERCIAL o
          /\ cargo_on_runway (shared c')
             = cargo_on_runway (shared c) + occupancy_change CARGO o
          /\ emergency_on_runway (shared c')
             = emergency_on_runway (shared c) + occupancy_change EMERGENCY o
          /\ occupancy_change COMMERCIAL o + occupancy_change CARGO o
             + occupancy_change EMERGENCY o = total_change o).
Proof.
  intros ai c Hr. destruct (reachable_Inv _ _ Hr).
  know_tallies c. split; [lia|]. split; [lia|]. split.
  - intros a d fe. apply can_enter_common_full.
  - intros e c' o Hstep.
    pose proof (step_occupancy _ _ _ _ Hstep) as (?&?&?&?).
    pose proof (occupancy_change_total _ _ _ _ Hstep). auto.
Qed.

(** C2 on the state the scenario reaches. *)
Lemma C2_occupancy_witness :
  reachable scenario_ai scenario_stalled
  /\ 0 <= aircraft_on_runway (shared scenario_stalled) <= MAX_RUNWAY_CAPACITY.
Proof.
  assert (Hr : reachable scenario_ai scenario_stalled).
  { apply (run_reachable _ scenario_events). vm_compute. reflexivity. }
  split; [exact Hr|].
  exact (proj1 (C2_occupancy_within_capacity scenario_ai scenario_stalled Hr)).
Defined.

(** Class segregation is preserved by every step from any state, reachable
    or not. *)
Lemma segregation_step c e c' o :
  ~ (commercial_on_runway (shared c) > 0 /\ cargo_on_runway (shared c) > 0) ->
  step c e = Ok c' o ->
  ~ (commercial_on_runway (shared c') > 0 /\ cargo_on_runway (shared c') > 0).
Proof.
  intros Hseg H. pose proof (step_occupancy _ _ _ _ H) as (_ & Hc & Hg & _).
  destruct o as [|i cls|i cls| |]; cbn in Hc, Hg; try lia.
  apply step_cases in H.
    destruct H as (t & now & fe & g0 & He & -> & Hloop & _).
    apply enter_loop_Entered in Hloop. cbn zeta in Hloop.
    destruct Hloop as [Hcan _].
    apply can_enter_common_structural in Hcan.
    destruct Hcan as (_ & _ & H3 & H4).
    destruct (entering_same_runway_fields _ _ _ _ _ _ _ He).
    destruct (thread_class_cases (th_info t)) as [[Hk _]|[[Hk _]|[Hk _]]];
      rewrite Hk in *; unfold_constants; cbn in Hc, Hg; lia.
Qed.

(** C3.  In every reachable state commercial and cargo aircraft are never
    both on the runway; a commercial request is denied while a cargo
    aircraft is on the runway and symmetrically; every step preserves this;
    and the assertions made by an aircraft that is on the runway hold. *)
Theorem C3_class_segregation :
  forall ai c,
    reachable ai c ->
    ~ (commercial_on_runway (shared c) > 0 /\ cargo_on_runway (shared c) > 0)
    /\ (forall a d fe,
          aircraft_type a = COMMERCIAL -> cargo_on_runway (shared c) > 0 ->
          can_enter_common (shared c) a d fe = 0)
    /\ (forall a d fe,
          aircraft_type a = CARGO -> commercial_on_runway (shared c) > 0 ->
          can_enter_common (shared c) a d fe = 0)
    /\ (forall e c' o,
          step c e = Ok c' o ->
          ~ (commercial_on_runway (shared c') > 0
             /\ cargo_on_runway (shared c') > 0))
    /\ (forall i t,
          threads c !! i = Some t -> th_pc t = OnRunway ->
          (aircraft_type (th_info t) = COMMERCIAL ->
           cargo_on_runway (shared c) = 0)
          /\ (aircraft_type (th_info t) = CARGO ->
              commercial_on_runway (shared c) = 0))
    /\ (forall i, step c (CheckOnRunway i) <> Abort).
Proof.
  intros ai c Hr. pose proof (reachable_Inv _ _ Hr) as HI.
  assert (Hseg : ~ (commercial_on_runway (shared c) > 0
                    /\ cargo_on_runway (shared c) > 0)).
  { destruct HI. lia. }
  split; [exact Hseg|]. split; [|split]; [| |split; [|split]].
  - intros a d fe Ha Hg.
    destruct (can_enter_common_01 (shared c) a d fe) as [|H1]; [done|].
    apply can_enter_common_spec in H1. destruct H1 as (_&_&_&[H4 _]&_).
    by specialize (H4 Ha).
  - intros a d fe Ha Hg.
    destruct (can_enter_common_01 (shared c) a d fe) as [|H1]; [done|].
    apply can_enter_common_spec in H1. destruct H1 as (_&_&_&[_ H4]&_).
    by specialize (H4 Ha).
  - intros e c' o. by apply segregation_step.
  - intros i t Hlk Hpc. destruct HI. know_tallies c.
    pose proof (on_runway_counted COMMERCIAL _ _ _ Hlk Hpc) as L0.
    pose proof (on_runway_counted CARGO _ _ _ Hlk Hpc) as L1.
    unfold thread_class in L0, L1.
    split; intros Ha; rewrite Ha in L0, L1; cbn in L0, L1; lia.
  - intros i. by apply Inv_no_abort.
Qed.

(** C3 on the state the scenario reaches. *)
Lemma C3_class_segregation_witness :
  reachable scenario_ai scenario_stalled
  /\ ~ (commercial_on_runway (shared scenario_stalled) > 0
        /\ cargo_on_runway (shared scenario_stalled) > 0).
Proof.
  assert (Hr : reachable scenario_ai scenario_stalled).
  { apply (run_reachable _ scenario_events). vm_compute. reflexivity. }
  split; [exact Hr|].
  exact (proj1 (C3_class_segregation scenario_ai scenario_stalled Hr)).
Defined.

(** What a step does to the break counter and to the direction fields. *)
Lemma step_maintenance_fields c e c' o :
  step c e = Ok c' o ->
  aircraft_since_break (shared c')
  = match o with
    | Granted _ _ => aircraft_since_break (shared c) + 1
    | BreakTaken => 0
    | _ => aircraft_since_break (shared c)
    end
  /\ current_direction (shared c')
     = match o with
       | DirectionSwitched =>
           if current_direction (shared c) =? NORTH then SOUTH else NORTH
       | _ => current_direction (shared c)
       end
  /\ consecutive_direction (shared c')
     = match o with
       | Granted _ _ => consecutive_direction (shared c) + 1
       | DirectionSwitched => 0
       | _ => consecutive_direction (shared c)
       end.
Proof.
  intros H. destruct o as [|i cls|i cls| |].
  - apply step_Silent_same_runway_fields in H. by destruct H.
  - apply step_cases in H.
    destruct H as (t & now & fe & g0 & He & -> & Hloop & _).
    apply enter_loop_Entered in Hloop. cbn zeta in Hloop.
    destruct Hloop as [_ []].
    destruct (entering_same_runway_fields _ _ _ _ _ _ _ He). lia.
  - apply step_cases in H.
    destruct H as (t & _ & _ & _ & _ & -> & Hleave & _).
    apply leave_eq in Hleave. by destruct Hleave as [-> _].
  - apply step_cases in H. destruct H as (_ & _ & Hb & _).
    unfold take_break in Hb. destruct (_ =? _); [|done].
    by injection Hb as <-.
  - apply step_cases in H. by destruct H as (_ & _ & -> & _).
Qed.

Lemma granted_structural c e c' i cls :
  step c e = Ok c' (Granted i cls) ->
  aircraft_on_runway (shared c) < MAX_RUNWAY_CAPACITY
  /\ aircraft_since_break (shared c) < CONTROLLER_LIMIT.
Proof.
  intros H. apply step_cases in H.
  destruct H as (t & now & fe & g0 & He & -> & Hloop & _).
  apply enter_loop_Entered in Hloop. cbn zeta in Hloop.
  destruct Hloop as [Hcan _].
  apply can_enter_common_structural in Hcan. destruct Hcan as (H1 & H2 & _).
  destruct (entering_same_runway_fields _ _ _ _ _ _ _ He).
  unfold_constants. lia.
Qed.

(** C4.  No admission happens while [aircraft_since_break] is at or above
    8; after [initialize] (which writes 0) the counter only grows by one at
    each admission, keeps its value, or is written 0 by the controller
    completing [take_break], and a break is in progress or completes only
    with an empty runway. *)
Theorem C4_break_gate :
  forall ai c e c' o,
    reachable ai c ->
    step c e = Ok c' o ->
    aircraft_since_break (shared (init_config ai)) = 0
    /\ (forall i cls,
          o = Granted i cls ->
          aircraft_since_break (shared c) < CONTROLLER_LIMIT
          /\ aircraft_since_break (shared c')
             = aircraft_since_break (shared c) + 1)
    /\ (aircraft_since_break (shared c') = 0 ->
        aircraft_since_break (shared c) = 0 \/ o = BreakTaken)
    /\ (o = BreakTaken ->
        e = ControllerDone /\ controller c = OnBreak
        /\ aircraft_on_runway (shared c) = 0
        /\ aircraft_on_runway (shared c') = 0
        /\ aircraft_since_break (shared c') = 0)
    /\ ((forall i cls, o <> Granted i cls) -> o <> BreakTaken ->
        aircraft_since_break (shared c') = aircraft_since_break (shared c))
    /\ (controller c' = OnBreak -> aircraft_on_runway (shared c') = 0).
Proof.
  intros ai c e c' o Hr Hstep.
  pose proof (reachable_Inv _ _ Hr) as HI.
  pose proof (reachable_Inv _ _ (reachable_step _ _ _ _ _ Hr Hstep)) as HI'.
  pose proof (step_maintenance_fields _ _ _ _ Hstep) as (Hb & _ & _).
  pose proof (step_occupancy _ _ _ _ Hstep) as (Ho & _).
  split; [done|]. split; [|split; [|split; [|split]]].
  - intros i cls ->. split; [|done].
    by apply (granted_structural _ _ _ _ _ Hstep).
  - intros H0. destruct HI.
    destruct o; cbn in Hb; first [ by right | left; lia ].
  - intros ->. apply step_cases in Hstep.
    destruct Hstep as (-> & Hctl & _). cbn in Ho.
    assert (aircraft_on_runway (shared c) = 0)
      by (apply (inv_maintenance _ HI); congruence).
    repeat split; auto; lia.
  - intros Hna Hnb. destruct o; try done. by destruct (Hna i cls).
  - intros Hctl. apply (inv_maintenance _ HI'). congruence.
Qed.

(** C4 on the admission of the emergency aircraft in the scenario. *)
Lemma C4_break_gate_witness :
  reachable scenario_ai scenario_blocked
  /\ step scenario_blocked (Retry 3 110)
     = Ok scenario_entered (Granted 3 EMERGENCY)
  /\ aircraft_since_break (shared scenario_blocked) < CONTROLLER_LIMIT
  /\ aircraft_since_break (shared scenario_entered)
     = aircraft_since_break (shared scenario_blocked) + 1.
Proof.
  assert (Hr : reachable scenario_ai scenario_blocked).
  { apply (run_reachable _ (scenario_events ++ [Retry 2 100])).
    vm_compute. reflexivity. }
  assert (Hs : step scenario_blocked (Retry 3 110)
               = Ok scenario_entered (Granted 3 EMERGENCY)).
  { vm_compute. reflexivity. }
  split; [exact Hr|]. split; [exact Hs|].
  destruct (C4_break_gate scenario_ai scenario_blocked _ _ _ Hr Hs)
    as (_ & Hadm & _).
  exact (Hadm 3%nat EMERGENCY eq_refl).
Defined.

(** C6.  [current_direction] changes only when the controller completes
    [switch_direction]; the runway is empty before and after that step, and
    the step resets [consecutive_direction] to 0; while a maintenance action
    (break or switch) is in progress the runway is empty and no aircraft can
    enter or leave, so it stays empty until the action completes. *)
Theorem C6_direction_switch :
  forall ai c e c' o,
    reachable ai c ->
    step c e = Ok c' o ->
    (current_direction (shared c') <> current_direction (shared c) ->
     o = DirectionSwitched)
    /\ (o = DirectionSwitched ->
        e = ControllerDone /\ controller c = Switching
        /\ aircraft_on_runway (shared c) = 0
        /\ aircraft_on_runway (shared c') = 0
        /\ consecutive_direction (shared c') = 0
        /\ current_direction (shared c') <> current_direction (shared c))
    /\ (controller c <> Polling ->
        aircraft_on_runway (shared c) = 0
        /\ aircraft_on_runway (shared c') = 0
        /\ (e = ControllerDone \/ o = Silent)
        /\ forall i now,
             step c (Enter i now) = Disabled
             /\ step c (Retry i now) = Disabled
             /\ step c (Leave i) = Disabled)
    /\ (controller c' <> Polling -> aircraft_on_runway (shared c') = 0).
Proof.
  intros ai c e c' o Hr Hstep.
  pose proof (reachable_Inv _ _ Hr) as HI.
  pose proof (reachable_Inv _ _ (reachable_step _ _ _ _ _ Hr Hstep)) as HI'.
  pose proof (step_maintenance_fields _ _ _ _ Hstep) as (_ & Hd & Hc).
  pose proof (step_occupancy _ _ _ _ Hstep) as (Ho & _).
  split; [|split; [|split]].
  - intros Hne. destruct o; try done.
  - intros ->. apply step_cases in Hstep.
    destruct Hstep as (-> & Hctl & _). cbn in Ho.
    assert (aircraft_on_runway (shared c) = 0)
      by (apply (inv_maintenance _ HI); congruence).
    repeat split; auto; try lia.
    rewrite Hd. destruct HI. unfold_constants.
    destruct (current_direction (shared c) =? 0) eqn:E; lia.
  - intros Hctl.
    assert (aircraft_on_runway (shared c) = 0) as H0
      by (apply (inv_maintenance _ HI); congruence).
    split; [done|].
    assert (e = ControllerDone \/ o = Silent) as He.
    { destruct o; auto; apply step_cases in Hstep.
      - destruct Hstep as (t & now & fe & g0 & (? & _) & _). done.
      - destruct Hstep as (t & _ & ? & _). done.
      - left. by destruct Hstep.
      - left. by destruct Hstep. }
    split; [|split; [done|]].
    + destruct o; cbn in Ho; try lia; apply step_cases in Hstep.
      * destruct Hstep as (t & now & fe & g0 & (? & _) & _). done.
      * destruct Hstep as (t & _ & ? & _). done.
    + intros i now. cbn [step].
      destruct (controller c); try done.
  - intros Hctl. apply (inv_maintenance _ HI'). congruence.
Qed.

(** C6 on the switch from north to south of the second scenario. *)
Lemma C6_direction_switch_witness :
  reachable turning_ai turning_before
  /\ step turning_before ControllerDone = Ok turning_after DirectionSwitched
  /\ aircraft_on_runway (shared turning_before) = 0
  /\ aircraft_on_runway (shared turning_after) = 0
  /\ consecutive_direction (shared turning_after) = 0
  /\ current_direction (shared turning_after)
     <> current_direction (shared turning_before).
Proof.
  assert (Hr : reachable turning_ai turning_before).
  { apply (run_reachable _ turning_events). vm_compute. reflexivity. }
  assert (Hs : step turning_before ControllerDone
               = Ok turning_after DirectionSwitched).
  { vm_compute. reflexivity. }
  split; [exact Hr|]. split; [exact Hs|].
  destruct (C6_direction_switch turning_ai turning_before _ _ _ Hr Hs)
    as (_ & Hsw & _).
  destruct (Hsw eq_refl) as (_ & _ & H0 & H1 & H2 & H3).
  repeat split; assumption.
Defined.

Lemma tally_waiting_classes ts :
  tally is_waiting ts
  = tally (waiting_as COMMERCIAL) ts + tally (waiting_as CARGO) ts
    + tally (waiting_as EMERGENCY) ts.
Proof.
  induction ts as [|t ts IH]; cbn [tally]; [done|]. rewrite IH.
  unfold waiting_as.
  destruct (thread_class_cases (th_info t)) as [[-> _] | [[-> _] | [-> _]]];
    destruct (is_waiting t); cbn; lia.
Qed.

(** C9.  In every reachable state [waiting_north] equals
    [waiting_commercial] and [waiting_south] equals [waiting_cargo]; they
    count the waiting commercial and cargo threads, the waiting emergency
    threads being counted by [waiting_emergency] alone; so when only
    emergency aircraft wait, the controller sees no waiter for either
    direction and does not switch, and the rotation check of the predicate
    passes. *)
Theorem C9_direction_counters :
  forall ai c,
    reachable ai c ->
    waiting_north (shared c) = waiting_commercial (shared c)
    /\ waiting_south (shared c) = waiting_cargo (shared c)
    /\ waiting_north (shared c) = tally (waiting_as COMMERCIAL) (threads c)
    /\ waiting_south (shared c) = tally (waiting_as CARGO) (threads c)
    /\ waiting_emergency (shared c) = tally (waiting_as EMERGENCY) (threads c)
    /\ waiting_north (shared c) + waiting_south (shared c)
       + waiting_emergency (shared c) = tally is_waiting (threads c)
    /\ opposite_waiting (shared c) + same_waiting (shared c)
       = tally is_waiting (threads c) - waiting_emergency (shared c)
    /\ (waiting_commercial (shared c) = 0 -> waiting_cargo (shared c) = 0 ->
        opposite_waiting (shared c) = 0
        /\ same_waiting (shared c) = 0
        /\ controller_decide (shared c) <> DoSwitch
        /\ forall d, rotation_check (shared c) d).
Proof.
  intros ai c Hr. destruct (reachable_Inv _ _ Hr).
  rewrite tally_waiting_classes.
  assert (Hsum : opposite_waiting (shared c) + same_waiting (shared c)
                 = waiting_north (shared c) + waiting_south (shared c)).
  { unfold opposite_waiting, same_waiting. unfold_constants.
    destruct (current_direction (shared c) =? 0) eqn:E0; [lia|].
    destruct (current_direction (shared c) =? 1) eqn:E1; lia. }
  repeat split; try lia.
  - unfold opposite_waiting. unfold_constants.
    destruct (_ =? 0); [lia|]. destruct (_ =? 1); lia.
  - unfold same_waiting. unfold_constants.
    destruct (_ =? 0); [lia|]. destruct (_ =? 1); lia.
  - unfold controller_decide.
    assert ((opposite_waiting (shared c) >? 0) = false) as Hopp.
    { unfold opposite_waiting. unfold_constants.
      destruct (_ =? 0); [lia|]. destruct (_ =? 1); lia. }
    rewrite Hopp. cbn [andb].
    destruct (_ && _); [done|]. by destruct (_ =? 0).
  - unfold rotation_check. unfold_constants. lia.
Qed.

(** C9 on the state the scenario reaches. *)
Lemma C9_direction_counters_witness :
  reachable scenario_ai scenario_stalled
  /\ waiting_north (shared scenario_stalled)
     = waiting_commercial (shared scenario_stalled)
  /\ waiting_south (shared scenario_stalled)
     = waiting_cargo (shared scenario_stalled).
Proof.
  assert (Hr : reachable scenario_ai scenario_stalled).
  { apply (run_reachable _ scenario_events). vm_compute. reflexivity. }
  split; [exact Hr|].
  destruct (C9_direction_counters scenario_ai scenario_stalled Hr)
    as (Hn & Hs & _).
  split; assumption.
Defined.

(** ** Wake-ups *)

Lemma broadcast_wakes_all (ts : list thread) i t :
  pthread_cond_broadcast ts !! i = Some t -> blocked t = false.
Proof.
  unfold pthread_cond_broadcast. revert i.
  induction ts as [|a ts IH]; intros [|i] H; cbn in H; try done.
  - injection H as <-. by destruct a as [info [| |fe w| |]].
  - by apply (IH i).
Qed.

(** The claim of C5 as the specification words it fails: in the scenario,
    the emergency aircraft is admitted at time 110 without a broadcast, and
    the commercial aircraft, which the predicate denied before this
    admission and admits after it, is left blocked on the condition
    variable. *)
Lemma C5_admission_leaves_waiter_blocked :
  reachable scenario_ai scenario_blocked
  /\ step scenario_blocked (Retry 3 110)
     = Ok scenario_entered (Granted 3 EMERGENCY)
  /\ state_mutating (Granted 3 EMERGENCY)
  /\ threads scenario_entered !! 2%nat
     = Some {| th_info := scenario_aircraft COMMERCIAL 20;
               th_pc := Waiting true false |}
  /\ can_enter_common (shared scenario_blocked)
       (scenario_aircraft COMMERCIAL 20) NORTH 1 = 0
  /\ can_enter_common (shared scenario_entered)
       (scenario_aircraft COMMERCIAL 20) NORTH 1 = 1
  /\ ~ all_waiters_woken scenario_entered
  /\ ~ (forall c e c' o,
          step c e = Ok c' o -> state_mutating o -> all_waiters_woken c').
Proof.
  assert (Hw : ~ all_waiters_woken scenario_entered).
  { intros H. by specialize (H 2%nat _ eq_refl). }
  split; [apply scenario_blocked_reachable|].
  split; [apply scenario_entered_step|].
  repeat split; try done.
  intros H. apply Hw. by apply (H _ _ _ _ scenario_entered_step).
Qed.

(** C5, amended.  A release, the completion of a break and a direction
    switch broadcast: afterwards no requester is blocked on the condition
    variable.  An admission does not broadcast: every other thread is left
    as it was, and a blocked requester evaluates the predicate again when
    its timed wait ends, which the mutex being free is enough to allow. *)
Theorem C5_broadcast_on_release_and_maintenance :
  forall c e c' o,
    step c e = Ok c' o ->
    match o with
    | Released _ _ | BreakTaken | DirectionSwitched => all_waiters_woken c'
    | Granted i _ =>
        forall j, j <> i -> threads c' !! j = threads c !! j
    | Silent => True
    end
    /\ (forall j t fe w now,
          controller c' = Polling -> threads c' !! j = Some t ->
          th_pc t = Waiting fe w ->
          exists c'' o', step c' (Retry j now) = Ok c'' o').
Proof.
  intros c e c' o H. split.
  - unfold all_waiters_woken.
    destruct o as [|i cls|i cls| |]; [done|..]; apply step_cases in H.
    + destruct H as (t & now & fe & g0 & _ & _ & _ & -> & _).
      intros j Hj. by rewrite list_lookup_insert_ne.
    + destruct H as (t & _ & _ & _ & _ & _ & _ & -> & _).
      intros j tj. apply broadcast_wakes_all.
    + destruct H as (_ & _ & _ & -> & _).
      intros j tj. apply broadcast_wakes_all.
    + destruct H as (_ & _ & _ & -> & _).
      intros j tj. apply broadcast_wakes_all.
  - intros j t fe w now Hctl Hlk Hpc. cbn [step].
    rewrite Hctl, Hlk, Hpc. unfold after_enter.
    destruct (enter_loop _ _ _ _); eauto.
Qed.

(** C5 on the switch of the second scenario, which wakes the cargo
    aircraft. *)
Lemma C5_broadcast_witness :
  step turning_before ControllerDone = Ok turning_after DirectionSwitched
  /\ all_waiters_woken turning_after.
Proof.
  assert (Hs : step turning_before ControllerDone
               = Ok turning_after DirectionSwitched).
  { vm_compute. reflexivity. }
  split; [exact Hs|].
  exact (proj1 (C5_broadcast_on_release_and_maintenance _ _ _ _ Hs)).
Defined.

(** ** Fairness between the standard classes *)

Lemma step_fairness_fields c e c' o :
  step c e = Ok c' o ->
  last_regular_type (shared c')
  = match o with
    | Granted _ cls =>
        if cls =? EMERGENCY then last_regular_type (shared c) else cls
    | _ => last_regular_type (shared c)
    end
  /\ regular_type_count (shared c')
     = match o with
       | Granted _ cls =>
           if cls =? EMERGENCY then regular_type_count (shared c)
           else if last_regular_type (shared c) =? cls
                then regular_type_count (shared c) + 1
                else 1
       | _ => regular_type_count (shared c)
       end.
Proof.
  intros H. destruct o as [|i cls|i cls| |].
  - apply step_Silent_same_runway_fields in H. by destruct H.
  - apply step_cases in H.
    destruct H as (t & now & fe & g0 & He & -> & Hloop & _).
    apply enter_loop_Entered in Hloop. cbn zeta in Hloop.
    destruct Hloop as [_ []].
    destruct (entering_same_runway_fields _ _ _ _ _ _ _ He).
    rewrite ent_last0, ent_count0, srf_last0, srf_count0. done.
  - apply step_cases in H.
    destruct H as (t & _ & _ & _ & _ & -> & Hleave & _).
    apply leave_eq in Hleave. by destruct Hleave as [-> _].
  - apply step_cases in H. destruct H as (_ & _ & Hb & _).
    unfold take_break in Hb. destruct (_ =? _); [|done].
    by injection Hb as <-.
  - apply step_cases in H. by destruct H as (_ & _ & -> & _).
Qed.

(** [regular_type_count] is the length of the current run of admissions of
    the class [last_regular_type]. *)
Lemma exec_standard_run ai tr c :
  exec ai tr c ->
  forall cls,
    cls = COMMERCIAL \/ cls = CARGO ->
    standard_run cls tr
    = if last_regular_type (shared c) =? cls
      then regular_type_count (shared c) else 0.
Proof.
  induction 1 as [|tr c e c' o Hex IH Hstep]; intros cls Hcls.
  - cbn. by destruct Hcls as [-> | ->].
  - specialize (IH cls Hcls).
    pose proof (step_fairness_fields _ _ _ _ Hstep) as [Hl Hc].
    destruct o as [|i cls0|i cls0| |]; cbn [standard_run];
      rewrite ?Hl, ?Hc; try done.
    destruct (granted_class _ _ _ _ _ Hstep) as [-> | [-> | ->]];
      destruct Hcls as [-> | ->]; unfold_constants;
      cbn [Z.eqb Pos.eqb] in *; rewrite ?IH;
      repeat match goal with
             | |- context [if ?b then _ else _] => destruct b eqn:?
             end; lia.
Qed.

Lemma tally_zero p (ts : list thread) i t :
  tally p ts = 0 -> ts !! i = Some t -> p t = false.
Proof.
  intros H0 Hlk. pose proof (tally_lookup p _ _ _ Hlk).
  destruct (p t); [cbn in *; lia|done].
Qed.

Lemma entering_other_waiting c e i t now fe g0 :
  entering c e i t now fe g0 ->
  let g1 := after_escalation (th_info t) now fe g0 in
  (thread_class (th_info t) = COMMERCIAL ->
   waiting_cargo g1 = waiting_cargo (shared c))
  /\ (thread_class (th_info t) = CARGO ->
      waiting_commercial g1 = waiting_commercial (shared c)).
Proof.
  intros (_ & _ & [(_ & _ & _ & ->)|(_ & _ & ->)]); cbn zeta;
    rewrite after_escalation_eq, ?enter_begin_eq; globals_fields;
    split; intros Hk; rewrite ?Hk; unfold_constants; cbn; lia.
Qed.

Lemma run_trace_exec ai es : forall tr c tr' c',
  exec ai tr c -> run_trace c es tr = Some (tr', c') -> exec ai tr' c'.
Proof.
  induction es as [|e es IH]; intros tr c tr' c' Hex Hrun; cbn in Hrun.
  - by injection Hrun as <- <-.
  - destruct (step c e) as [c1 o| |] eqn:Hstep; try done.
    eapply IH; [|exact Hrun]. eapply exec_step; eauto.
Qed.

(** C7.  When a commercial or cargo aircraft is admitted after four or
    more admissions of its own class that no admission of the other
    standard class interrupts, no aircraft of the other standard class is
    waiting.  Every such admission sets [last_regular_type] to its class
    and makes [regular_type_count] the length of the run (one more than
    before when the class is the same, 1 otherwise); an emergency admission
    leaves both fields alone; and the predicate denies a standard request
    whenever the run is at least 4, of its class, and the other class
    waits. *)
Theorem C7_fairness_run :
  forall ai tr c e c' i cls,
    exec ai tr c ->
    step c e = Ok c' (Granted i cls) ->
    (cls = COMMERCIAL \/ cls = CARGO \/ cls = EMERGENCY)
    /\ (cls <> EMERGENCY ->
        (4 <= standard_run cls tr ->
         tally (waiting_as (other_class cls)) (threads c) = 0
         /\ (if cls =? COMMERCIAL then waiting_cargo (shared c)
             else waiting_commercial (shared c)) = 0
         /\ forall j t,
              threads c !! j = Some t ->
              thread_class (th_info t) = other_class cls ->
              is_waiting t = false)
        /\ last_regular_type (shared c') = cls
        /\ regular_type_count (shared c')
           = (if last_regular_type (shared c) =? cls
              then regular_type_count (shared c) + 1 else 1)
        /\ regular_type_count (shared c')
           = standard_run cls (Granted i cls :: tr))
    /\ (cls = EMERGENCY ->
        last_regular_type (shared c') = last_regular_type (shared c)
        /\ regular_type_count (shared c') = regular_type_count (shared c))
    /\ (forall g a d fe,
          aircraft_type a = COMMERCIAL \/ aircraft_type a = CARGO ->
          regular_type_count g >= 4 ->
          last_regular_type g = aircraft_type a ->
          other_type_waiting g a > 0 ->
          can_enter_common g a d fe = 0).
Proof.
  intros ai tr c e c' i cls Hex Hstep.
  pose proof (granted_class _ _ _ _ _ Hstep) as Hcls.
  pose proof (step_fairness_fields _ _ _ _ Hstep) as [Hl Hc].
  pose proof (exec_Inv _ _ _ Hex) as HI.
  split; [exact Hcls|]. split; [|split].
  - intros Hne.
    assert (Hstd : cls = COMMERCIAL \/ cls = CARGO) by tauto.
    pose proof (exec_standard_run _ _ _ Hex cls Hstd) as Hrun.
    assert (Hne' : (cls =? EMERGENCY) = false) by lia.
    rewrite Hne' in Hl, Hc.
    split; [|split; [done|split; [done|]]].
    + intros H4.
      assert (Hlast : last_regular_type (shared c) = cls
                      /\ 4 <= regular_type_count (shared c)).
      { destruct (Z.eqb_spec (last_regular_type (shared c)) cls); lia. }
      destruct Hlast as [Hlast Hcount].
      apply step_cases in Hstep.
      destruct Hstep as (t & now & fe & g0 & He & Ht & Hloop & _).
      apply enter_loop_Entered in Hloop. cbn zeta in Hloop.
      destruct Hloop as [Hcan _].
      apply can_enter_common_spec in Hcan.
      destruct Hcan as (_ & _ & _ & _ & _ & _ & [Hf Hf'] & _).
      destruct (entering_same_runway_fields _ _ _ _ _ _ _ He).
      destruct (entering_other_waiting _ _ _ _ _ _ _ He) as [Hw Hw'].
      destruct HI. know_tallies c.
      assert (Hzero : tally (waiting_as (other_class cls)) (threads c) = 0
                      /\ (if cls =? COMMERCIAL then waiting_cargo (shared c)
                          else waiting_commercial (shared c)) = 0).
      { destruct (thread_class_cases (th_info t))
          as [[Hk Hty] | [[Hk Hty] | [Hk _]]]; [| |congruence].
        - specialize (Hf Hty). specialize (Hw Hk). subst cls. rewrite Hk.
          unfold other_class. cbn. unfold_constants. lia.
        - specialize (Hf' Hty). specialize (Hw' Hk). subst cls. rewrite Hk.
          unfold other_class. cbn. unfold_constants. lia. }
      destruct Hzero as [Hz Hz']. split; [done|]. split; [done|].
      intros j tj Hlk Hk.
      pose proof (tally_zero _ _ _ _ Hz Hlk) as Hnot.
      unfold waiting_as in Hnot. rewrite Hk, Z.eqb_refl in Hnot. done.
    + cbn [standard_run]. rewrite Z.eqb_refl, Hrun, Hc.
      destruct (_ =? _); lia.
  - intros ->. cbn in Hl, Hc. done.
  - intros g a d fe Ha Hcount Hlast Hother.
    destruct (can_enter_common_01 g a d fe) as [|H1]; [done|].
    apply can_enter_common_spec in H1.
    destruct H1 as (_ & _ & _ & _ & _ & _ & [Hf Hf'] & _).
    unfold other_type_waiting in Hother. unfold_constants.
    destruct Ha as [Ha|Ha]; rewrite Ha in *; cbn in Hother.
    + specialize (Hf eq_refl). lia.
    + specialize (Hf' eq_refl). lia.
Qed.

(** C7 on the fifth commercial admission in a row of the third scenario:
    no cargo aircraft waits, and the run grows to 5. *)
Lemma C7_fairness_run_witness :
  exists tr c c',
    exec five_ai tr c
    /\ step c (Enter 4 4) = Ok c' (Granted 4 COMMERCIAL)
    /\ standard_run COMMERCIAL tr = 4
    /\ waiting_cargo (shared c) = 0
    /\ regular_type_count (shared c') = 5.
Proof.
  destruct (run_trace (init_config five_ai) five_events [])
    as [[tr c]|] eqn:Hrun; [|vm_compute in Hrun; discriminate].
  destruct (step c (Enter 4 4)) as [c' o| |] eqn:Hstep;
    [|vm_compute in Hrun; injection Hrun as <- <-;
      vm_compute in Hstep; discriminate..].
  assert (Ho : o = Granted 4 COMMERCIAL).
  { vm_compute in Hrun. injection Hrun as <- <-.
    vm_compute in Hstep. by injection Hstep as _ <-. }
  subst o.
  assert (Hex : exec five_ai tr c).
  { eapply run_trace_exec; [apply exec_init|exact Hrun]. }
  assert (H4 : standard_run COMMERCIAL tr = 4).
  { vm_compute in Hrun. by injection Hrun as <- <-. }
  exists tr, c, c'. split; [exact Hex|]. split; [exact Hstep|].
  split; [exact H4|].
  destruct (C7_fairness_run five_ai tr c _ c' 4%nat COMMERCIAL Hex Hstep)
    as (_ & Hstd & _).
  assert (Hne : COMMERCIAL <> EMERGENCY) by discriminate.
  destruct (Hstd Hne) as (Hrun4 & _ & _ & Hcount).
  assert (H4' : 4 <= standard_run COMMERCIAL tr) by (rewrite H4; lia).
  destruct (Hrun4 H4') as (_ & Hw & _).
  split; [exact Hw|].
  rewrite Hcount. cbn [standard_run]. rewrite H4. reflexivity.
Defined.

(** ** The stall between an escalated standard aircraft and an emergency *)

Lemma scenario_commercial_retry now :
  step scenario_stalled (Retry 2 now) = Ok scenario_blocked Silent.
Proof. reflexivity. Qed.

Lemma scenario_emergency_retry_early now :
  to_int (now - 50) < 60 ->
  step scenario_stalled (Retry 3 now)
  = Ok {| shared := shared scenario_stalled;
          threads := [ scenario_departed; scenario_departed;
                       scenario_commercial;
                       {| th_info := th_info scenario_emergency;
                          th_pc := Waiting false false |} ];
          controller := Polling |} Silent.
Proof.
  intros H. cbn [step scenario_stalled controller threads lookup list_lookup
                 scenario_emergency th_pc th_info].
  unfold enter_loop, emergency_enter_loop.
  cbn [aircraft_type scenario_aircraft set_arrival_timestamp
       arrival_timestamp fuel_reserve negb andb].
  assert ((to_int (now - 50) >=? 60) = false) as -> by lia.
  reflexivity.
Qed.

Lemma scenario_emergency_retry_late now :
  60 <= to_int (now - 50) ->
  step scenario_stalled (Retry 3 now)
  = Ok {| shared := shared scenario_entered;
          threads := [ scenario_departed; scenario_departed;
                       scenario_commercial;
                       {| th_info := th_info scenario_emergency;
                          th_pc := OnRunway |} ];
          controller := Polling |} (Granted 3 EMERGENCY).
Proof.
  intros H. cbn [step scenario_stalled controller threads lookup list_lookup
                 scenario_emergency th_pc th_info].
  unfold enter_loop, emergency_enter_loop.
  cbn [aircraft_type scenario_aircraft set_arrival_timestamp
       arrival_timestamp fuel_reserve negb andb].
  assert ((to_int (now - 50) >=? 60) = true) as -> by lia.
  reflexivity.
Qed.

Ltac compute_check :=
  cbn [check]; unfold capacity_check, break_gate_check, direction_check,
    segregation_check, escalation_check, emergency_precedence_check,
    fairness_check, rotation_check;
  cbn; unfold_constants; intuition lia.

(** C10.  Whenever some waiter has declared a fuel emergency and an
    emergency aircraft waits, the predicate denies every aircraft that is
    not of emergency type and every aircraft that has not declared a fuel
    emergency.  The scenario reaches such a state with an empty runway: the
    only waiter with a fuel emergency is commercial, the emergency aircraft
    has none, both pass the four structural checks, the commercial one
    passes check 5 and fails check 6, the emergency one fails check 5, and
    every waiting thread is denied.  The commercial aircraft stays denied
    whatever the time; the emergency aircraft stays denied until its own
    fuel reserve is used up, and is admitted then. *)
Theorem C10_mutual_denial :
  (forall g a d fe,
     fuel_emergency_waiting g > 0 -> waiting_emergency g > 0 ->
     (aircraft_type a <> EMERGENCY -> can_enter_common g a d fe = 0)
     /\ can_enter_common g a d 0 = 0)
  /\ reachable scenario_ai scenario_stalled
  /\ threads scenario_stalled !! 2%nat = Some scenario_commercial
  /\ threads scenario_stalled !! 3%nat = Some scenario_emergency
  /\ aircraft_type (th_info scenario_commercial) = COMMERCIAL
  /\ th_pc scenario_commercial = Waiting true true
  /\ aircraft_type (th_info scenario_emergency) = EMERGENCY
  /\ th_pc scenario_emergency = Waiting false true
  /\ aircraft_on_runway (shared scenario_stalled) = 0
  /\ (forall j t,
        threads scenario_stalled !! j = Some t -> escalated t = true ->
        t = scenario_commercial)
  /\ (forall k, (k <= 5)%nat ->
        check k (shared scenario_stalled) (th_info scenario_commercial)
          NORTH 1)
  /\ ~ check 6 (shared scenario_stalled) (th_info scenario_commercial) NORTH 1
  /\ (forall k, (k <= 4)%nat ->
        check k (shared scenario_stalled) (th_info scenario_emergency)
          (current_direction (shared scenario_stalled)) 0)
  /\ ~ check 5 (shared scenario_stalled) (th_info scenario_emergency)
         (current_direction (shared scenario_stalled)) 0
  /\ (forall j t fe w,
        threads scenario_stalled !! j = Some t -> th_pc t = Waiting fe w ->
        can_enter_common (shared scenario_stalled) (th_info t)
          (desired_direction_of (th_info t) (shared scenario_stalled))
          (Z.b2z fe) = 0)
  /\ (forall now,
        exists c', step scenario_stalled (Retry 2 now) = Ok c' Silent
                   /\ shared c' = shared scenario_stalled)
  /\ (forall now,
        to_int (now - arrival_timestamp (th_info scenario_emergency))
        < fuel_reserve (th_info scenario_emergency) ->
        exists c', step scenario_stalled (Retry 3 now) = Ok c' Silent
                   /\ shared c' = shared scenario_stalled)
  /\ (forall now,
        fuel_reserve (th_info scenario_emergency)
        <= to_int (now - arrival_timestamp (th_info scenario_emergency)) ->
        exists c', step scenario_stalled (Retry 3 now)
                   = Ok c' (Granted 3 EMERGENCY)).
Proof.
  split.
  { intros g a d fe Hf He. split.
    - intros Ha. destruct (can_enter_common_01 g a d fe) as [|H1]; [done|].
      apply can_enter_common_spec in H1.
      destruct H1 as (_ & _ & _ & _ & _ & H6 & _). by specialize (H6 Ha).
    - destruct (can_enter_common_01 g a d 0) as [|H1]; [done|].
      apply can_enter_common_spec in H1.
      destruct H1 as (_ & _ & _ & _ & H5 & _). by specialize (H5 eq_refl). }
  split; [apply scenario_stalled_reachable|].
  do 7 (split; [reflexivity|]).
  split.
  { intros j t Hlk Hesc.
    do 4 (destruct j as [|j]; [injection Hlk as <-; done|]). done. }
  split.
  { intros k Hk. do 6 (destruct k as [|k]; [compute_check|]).
    lia. }
  split; [compute_check|].
  split.
  { intros k Hk. do 5 (destruct k as [|k]; [compute_check|]).
    lia. }
  split; [compute_check|].
  split.
  { intros j t fe w Hlk Hpc.
    do 4 (destruct j as [|j];
          [injection Hlk as <-; cbn in Hpc; try done;
           injection Hpc as <- <-; reflexivity|]).
    done. }
  split.
  { intros now. eexists. split; [apply scenario_commercial_retry|done]. }
  split.
  { intros now H. eexists.
    split; [by apply scenario_emergency_retry_early|done]. }
  intros now H. eexists. by apply scenario_emergency_retry_late.
Qed.

(** ** Start-up and exit status *)

Lemma read_records_bound sscanf3 rand lines : forall ai,
  Z.of_nat (length ai) <= MAX_AIRCRAFT ->
  Z.of_nat (length (read_records sscanf3 rand lines ai)) <= MAX_AIRCRAFT.
Proof.
  induction lines as [|line rest IH]; intros ai Hai; cbn [read_records];
    [done|].
  destruct (Z.ltb_spec (Z.of_nat (length ai)) MAX_AIRCRAFT) as [Hlt|]; [|done].
  destruct (skipped_line line); [by apply IH|].
  destruct (sscanf3 line) as [[[ty arrival] on_runway]|]; [|by apply IH].
  apply IH. rewrite length_app. cbn [length]. lia.
Qed.

Lemma create_aircraft_started create_ok finishes ais : forall i sofar,
  exists more,
    started (create_aircraft create_ok finishes ais i sofar) = sofar ++ more.
Proof.
  induction ais as [|a rest IH]; intros i sofar; cbn [create_aircraft].
  - exists []. cbn. by rewrite app_nil_r.
  - destruct (create_ok (S i)).
    + destruct (IH (S i) (sofar ++ [SpawnAircraft (set_aircraft_id (Z.of_nat i) a)]))
        as [more ->].
      eexists. by rewrite <- app_assoc.
    + exists []. cbn. by rewrite app_nil_r.
Qed.

Lemma join_aircraft_all finishes n : forall i,
  (forall k, (i <= k < i + n)%nat -> finishes k = true) ->
  join_aircraft finishes i n = true.
Proof.
  induction n as [|n IH]; intros i Hfin; cbn [join_aircraft]; [done|].
  rewrite (Hfin i) by lia. cbn. apply IH. intros k Hk. apply Hfin. lia.
Qed.

Lemma join_aircraft_blocked finishes n : forall i k,
  (i <= k < i + n)%nat -> finishes k = false ->
  join_aircraft finishes i n = false.
Proof.
  induction n as [|n IH]; intros i k Hk Hfin; cbn [join_aircraft]; [lia|].
  destruct (decide (k = i)) as [->|Hne]; [by rewrite Hfin|].
  rewrite (IH (S i) k) by (done || lia). apply andb_false_r.
Qed.

(** When every [pthread_create] succeeds, all threads are created and the
    exit status is decided by the join loop. *)
Lemma create_aircraft_created create_ok finishes ais :
  forall i sofar,
    (forall j, (i < j <= i + length ais)%nat -> create_ok j = true) ->
    exit_code (create_aircraft create_ok finishes ais i sofar)
    = (if join_aircraft finishes 0 (i + length ais) then Some 0 else None)
    /\ length (started (create_aircraft create_ok finishes ais i sofar))
       = (length sofar + length ais)%nat.
Proof.
  induction ais as [|a rest IH]; intros i sofar Hok; cbn [create_aircraft].
  - cbn. rewrite Nat.add_0_r. split; [done|lia].
  - rewrite (Hok (S i)) by (cbn [length]; lia).
    destruct (IH (S i) (sofar ++ [SpawnAircraft (set_aircraft_id (Z.of_nat i) a)]))
      as [-> ->].
    + intros j Hj. apply Hok. cbn [length]. lia.
    + cbn [length]. rewrite length_app. cbn [length].
      replace (S i + length rest)%nat with (i + S (length rest))%nat by lia.
      split; [done|lia].
Qed.

(** The exit status is 0 only if every aircraft thread that was created
    has terminated. *)
Lemma create_aircraft_exit_0 create_ok finishes ais : forall i sofar,
  exit_code (create_aircraft create_ok finishes ais i sofar) = Some 0 ->
  join_aircraft finishes 0 (i + length ais) = true.
Proof.
  induction ais as [|a rest IH]; intros i sofar; cbn [create_aircraft].
  - cbn. rewrite Nat.add_0_r. by destruct (join_aircraft _ _ _).
  - destruct (create_ok (S i)); [|done]. intros H. apply IH in H.
    cbn [length].
    by replace (i + S (length rest))%nat with (S i + length rest)%nat by lia.
Qed.

(** The claim of C8 as the specification words it fails: a workload file
    that cannot be opened and a workload file without any record both end
    the process with status 1, so the codes are not distinct per cause; and
    a file with more than [MAX_AIRCRAFT] records is not an error: the first
    1000 are used and, every thread being created and terminating, the
    process ends with status 0. *)
Lemma C8_exit_codes_not_distinct :
  let sscanf3 := fun _ : string => Some (EMERGENCY, 0, 0) in
  let rand := fun _ : nat => 0 in
  let all_ok := fun _ : nat => true in
  exit_code (main 22 sscanf3 rand 2 None all_ok all_ok) = Some 1
  /\ exit_code (main 22 sscanf3 rand 2 (Some []) all_ok all_ok) = Some 1
  /\ exit_code (main 22 sscanf3 rand 2 None all_ok all_ok)
     = exit_code (main 22 sscanf3 rand 2 (Some []) all_ok all_ok)
  /\ exit_code
       (main 22 sscanf3 rand 2 (Some (repeat "2 0 0"%string 1001)) all_ok
          all_ok) = Some 0
  /\ length
       (started
          (main 22 sscanf3 rand 2 (Some (repeat "2 0 0"%string 1001)) all_ok
             all_ok))
     = 1001%nat.
Proof. vm_compute. repeat split. Qed.

(** C8, amended.  The process ends with status [EINVAL] when it is not
    given exactly one argument, and with status 1 both when the workload
    file cannot be opened and when no record was read from it; in these
    three cases no thread has been created.  The number of records read
    never exceeds [MAX_AIRCRAFT].  On normal completion, that is when at
    least one record was read, every thread is created and every aircraft
    thread terminates, the process ends with status 0 after creating the
    controller and one thread per record; when every thread is created but
    some aircraft thread never terminates, the process never exits.
    Status 0 is reached only after threads were created and only if every
    aircraft thread has terminated. *)
Theorem C8_exit_status :
  forall EINVAL sscanf3 rand nargs file create_ok finishes,
    EINVAL <> 0 ->
    (nargs <> 2 ->
     exit_code (main EINVAL sscanf3 rand nargs file create_ok finishes)
     = Some EINVAL
     /\ started (main EINVAL sscanf3 rand nargs file create_ok finishes) = [])
    /\ (nargs = 2 -> file = None ->
        exit_code (main EINVAL sscanf3 rand nargs file create_ok finishes)
        = Some 1
        /\ started (main EINVAL sscanf3 rand nargs file create_ok finishes)
           = [])
    /\ (forall lines,
          nargs = 2 -> file = Some lines ->
          read_records sscanf3 rand lines [] = [] ->
          exit_code (main EINVAL sscanf3 rand nargs file create_ok finishes)
          = Some 1
          /\ started (main EINVAL sscanf3 rand nargs file create_ok finishes)
             = [])
    /\ (forall lines,
          Z.of_nat (length (read_records sscanf3 rand lines []))
          <= MAX_AIRCRAFT)
    /\ (forall lines,
          nargs = 2 -> file = Some lines ->
          read_records sscanf3 rand lines [] <> [] ->
          (forall k, create_ok k = true) ->
          length (started
                    (main EINVAL sscanf3 rand nargs file create_ok finishes))
          = S (length (read_records sscanf3 rand lines []))
          /\ ((forall k,
                 (k < length (read_records sscanf3 rand lines []))%nat ->
                 finishes k = true) ->
              exit_code
                (main EINVAL sscanf3 rand nargs file create_ok finishes)
              = Some 0)
          /\ (forall k,
                (k < length (read_records sscanf3 rand lines []))%nat ->
                finishes k = false ->
                exit_code
                  (main EINVAL sscanf3 rand nargs file create_ok finishes)
                = None))
    /\ (started (main EINVAL sscanf3 rand nargs file create_ok finishes) = []
        -> exit_code (main EINVAL sscanf3 rand nargs file create_ok finishes)
           <> Some 0)
    /\ (exit_code (main EINVAL sscanf3 rand nargs file create_ok finishes)
        = Some 0 ->
        exists lines,
          nargs = 2 /\ file = Some lines
          /\ forall k,
               (k < length (read_records sscanf3 rand lines []))%nat ->
               finishes k = true).
Proof.
  intros EINVAL sscanf3 rand nargs file create_ok finishes HE.
  assert (Hbound : forall lines,
             Z.of_nat (length (read_records sscanf3 rand lines []))
             <= MAX_AIRCRAFT).
  { intros lines. apply read_records_bound. cbn. unfold MAX_AIRCRAFT. lia. }
  split; [|split; [|split; [|split; [|split; [|split]]]]].
  - intros Hn. unfold main.
    destruct (Z.eqb_spec nargs 2); [done|]. cbn. done.
  - intros -> ->. done.
  - intros lines -> -> Hnil. unfold main, initialize. cbn [negb Z.eqb Pos.eqb].
    rewrite Hnil. done.
  - exact Hbound.
  - intros lines -> -> Hne Hok. unfold main, initialize.
    cbn [negb Z.eqb Pos.eqb].
    specialize (Hbound lines).
    destruct (read_records sscanf3 rand lines []) as [|a ais] eqn:Hrec;
      [done|].
    assert (((Z.of_nat (length (a :: ais)) >? MAX_AIRCRAFT)
             || (Z.of_nat (length (a :: ais)) <=? 0)) = false) as ->.
    { cbn [length] in *. lia. }
    rewrite Hok.
    destruct (create_aircraft_created create_ok finishes (a :: ais) 0%nat
                [SpawnController] (fun j _ => Hok j)) as [-> ->].
    split; [done|]. cbn [Nat.add]. split.
    + intros Hfin. rewrite join_aircraft_all; [done|].
      intros k Hk. apply Hfin. lia.
    + intros k Hk Hfin.
      by rewrite (join_aircraft_blocked finishes _ 0 k) by (done || lia).
  - unfold main, initialize.
    destruct (Z.eqb_spec nargs 2); cbn [negb]; [|cbn; congruence].
    destruct file as [lines|]; [|done].
    destruct (_ || _); [done|]. destruct (create_ok 0%nat); [|done].
    destruct (create_aircraft_started create_ok finishes
                (read_records sscanf3 rand lines []) 0 [SpawnController])
      as [more ->].
    done.
  - unfold main, initialize.
    destruct (Z.eqb_spec nargs 2) as [->|]; cbn [negb]; [|cbn; congruence].
    destruct file as [lines|]; [|done].
    destruct (_ || _); [done|]. destruct (create_ok 0%nat); [|done].
    intros H0. apply create_aircraft_exit_0 in H0. cbn [Nat.add] in H0.
    exists lines. split; [done|]. split; [done|].
    intros k Hk. destruct (finishes k) eqn:Hfin; [done|].
    by rewrite (join_aircraft_blocked finishes _ 0 k) in H0 by (done || lia).
Qed.

(** C8 on a call without argument, and on the sample workload when every
    thread is created and terminates, with the value of [EINVAL] on
    Linux. *)
Lemma C8_exit_status_witness :
  (22 <> 0)
  /\ exit_code (main 22 (fun _ => None) (fun _ => 0) 1 None (fun _ => true)
                  (fun _ => true))
     = Some 22
  /\ started (main 22 (fun _ => None) (fun _ => 0) 1 None (fun _ => true)
                (fun _ => true))
     = []
  /\ read_records sample_sscanf3 sample_rand sample_lines [] <> []
  /\ exit_code (main 22 sample_sscanf3 sample_rand 2 (Some sample_lines)
                  (fun _ => true) (fun _ => true))
     = Some 0.
Proof.
  assert (H22 : 22 <> 0) by discriminate.
  assert (Hne : read_records sample_sscanf3 sample_rand sample_lines []
                <> []).
  { vm_compute. discriminate. }
  split; [exact H22|].
  assert (Hargs : 1 <> 2) by discriminate.
  destruct (C8_exit_status 22 (fun _ => None) (fun _ => 0) 1 None
              (fun _ => true) (fun _ => true) H22) as (Husage & _).
  split; [exact (proj1 (Husage Hargs))|].
  split; [exact (proj2 (Husage Hargs))|].
  split; [exact Hne|].
  destruct (C8_exit_status 22 sample_sscanf3 sample_rand 2
                (Some sample_lines) (fun _ => true) (fun _ => true) H22)
      as (_ & _ & _ & _ & Hrun & _).
    destruct (Hrun sample_lines eq_refl eq_refl Hne (fun _ => eq_refl))
    as (_ & Hexit & _).
  exact (Hexit (fun _ _ => eq_refl)).
Defined.

(** * Further properties of the program *)

(** ** Counters and traces *)

Lemma exec_maintenance_counters ai tr c :
  exec ai tr c ->
  aircraft_since_break (shared c) = since_last_break tr
  /\ consecutive_direction (shared c) = since_last_switch tr.
Proof.
  induction 1 as [|tr c e c' o _ [IHb IHs] Hstep]; [done|].
  pose proof (step_maintenance_fields _ _ _ _ Hstep) as (Hb & _ & Hc).
  rewrite Hb, Hc, IHb, IHs. destruct o; cbn; split; lia.
Qed.

(** [aircraft_since_break] is the number of admissions since the last
    completed break, and [consecutive_direction] the number of admissions
    since the last direction switch (of any class, emergency included). *)
Theorem maintenance_counters_count_admissions :
  forall ai tr c,
    exec ai tr c ->
    aircraft_since_break (shared c) = since_last_break tr
    /\ consecutive_direction (shared c) = since_last_switch tr.
Proof. intros ai tr c. apply exec_maintenance_counters. Qed.

(** The occupancy counters are the admissions minus the releases of the
    execution, in total and class by class. *)
Theorem occupancy_is_admissions_minus_releases :
  forall ai tr c,
    exec ai tr c ->
    aircraft_on_runway (shared c) = net_occupancy tr
    /\ commercial_on_runway (shared c) = net_occupancy_of COMMERCIAL tr
    /\ cargo_on_runway (shared c) = net_occupancy_of CARGO tr
    /\ emergency_on_runway (shared c) = net_occupancy_of EMERGENCY tr.
Proof.
  intros ai tr c.
  induction 1 as [|tr c e c' o _ (IH0 & IH1 & IH2 & IH3) Hstep]; [done|].
  pose proof (step_occupancy _ _ _ _ Hstep) as (H0 & H1 & H2 & H3).
  cbn [net_occupancy net_occupancy_of]. lia.
Qed.

(** ** The life cycle of an aircraft thread *)

Lemma broadcast_lookup (ts : list thread) i t' :
  pthread_cond_broadcast ts !! i = Some t' ->
  exists t, ts !! i = Some t /\ t' = wake t.
Proof.
  unfold pthread_cond_broadcast. revert i.
  induction ts as [|a ts IH]; intros [|i] H; cbn in H; try done.
  - injection H as <-. by exists a.
  - by apply (IH i).
Qed.

Lemma wake_pc_rank t : pc_rank (th_pc (wake t)) = pc_rank (th_pc t).
Proof. by destruct t as [a [| |[] ?| |]]. Qed.

Lemma wake_info t : th_info (wake t) = th_info t.
Proof. by destruct t as [a []]. Qed.

Lemma wake_is_departed t : is_departed (wake t) = is_departed t.
Proof. by destruct t as [a []]. Qed.

Lemma wake_Departed t : th_pc (wake t) = Departed <-> th_pc t = Departed.
Proof. by destruct t as [a []]. Qed.

Lemma wake_OnRunway t : th_pc (wake t) = OnRunway <-> th_pc t = OnRunway.
Proof. by destruct t as [a []]. Qed.

(** What a step does to the thread at one index. *)
Lemma step_thread c e c' o i t' :
  step c e = Ok c' o ->
  threads c' !! i = Some t' ->
  exists t,
    threads c !! i = Some t
    /\ aircraft_type (th_info t') = aircraft_type (th_info t)
    /\ fuel_reserve (th_info t') = fuel_reserve (th_info t)
    /\ pc_rank (th_pc t) <= pc_rank (th_pc t')
    /\ (match o with
        | Granted k _ =>
            if Nat.eqb k i
            then has_entered t = false /\ th_pc t' = OnRunway
            else has_entered t' = has_entered t
                 /\ is_departed t' = is_departed t
        | Released k _ =>
            if Nat.eqb k i
            then th_pc t = OnRunway /\ th_pc t' = Departed
            else has_entered t' = has_entered t
                 /\ is_departed t' = is_departed t
        | _ => has_entered t' = has_entered t
               /\ is_departed t' = is_departed t
        end).
Proof.
  intros Hstep Hlk. apply step_cases in Hstep.
  destruct o as [|k cls|k cls| |].
  - destruct Hstep as [(_ & _ & [Hts | (k & now & t & _ & Hk & Hpc & Hts)])
                      |(k & t & now & fe & g0 & fe' & He & Hloop & Hts & _)];
      rewrite Hts in Hlk.
    + exists t'. by repeat split.
    + apply list_lookup_insert_Some in Hlk.
      destruct Hlk as [(<- & <- & _)|(_ & Hlk)].
      * exists t. unfold has_entered, is_departed. rewrite Hpc. cbn.
        by repeat split.
      * exists t'. by repeat split.
    + apply list_lookup_insert_Some in Hlk.
      destruct Hlk as [(<- & <- & _)|(_ & Hlk)]; [|exists t'; by repeat split].
      exists t. apply enter_loop_TimedWait in Hloop.
      destruct Hloop as (_ & -> & _).
      destruct He as (_ & Ht & [(_ & Hpc & -> & _)|(_ & [w Hpc] & _)]);
        unfold has_entered, is_departed; rewrite Hpc; cbn;
        repeat split; try done.
      * destruct (_ >=? _); lia.
      * destruct fe; cbn; [lia|].
        match goal with |- context [if ?b then _ else _] => destruct b end;
          lia.
  - destruct Hstep as (t & now & fe & g0 & He & _ & _ & Hts & _).
    rewrite Hts in Hlk. apply list_lookup_insert_Some in Hlk.
    destruct Hlk as [(<- & <- & _)|(Hne & Hlk)].
    + exists t. rewrite Nat.eqb_refl.
      destruct He as (_ & Ht & [(_ & Hpc & _)|(_ & [w Hpc] & _)]);
        unfold has_entered; rewrite Hpc; cbn; repeat split; try done.
      destruct fe; cbn; lia.
    + exists t'. apply Nat.eqb_neq in Hne. rewrite Hne. by repeat split.
  - destruct Hstep as (t & _ & _ & Ht & Hpc & _ & _ & Hts & _).
    rewrite Hts in Hlk. apply broadcast_lookup in Hlk.
    destruct Hlk as (t0 & Hlk & ->).
    rewrite ?wake_info, ?wake_pc_rank, ?wake_has_entered, ?wake_is_departed.
    apply list_lookup_insert_Some in Hlk.
    destruct Hlk as [(<- & <- & _)|(Hne & Hlk)].
    + exists t. rewrite Nat.eqb_refl, Hpc. cbn. repeat split; try done; lia.
    + exists t0. apply Nat.eqb_neq in Hne. rewrite Hne. by repeat split.
  - destruct Hstep as (_ & _ & _ & Hts & _).
    rewrite Hts in Hlk. apply broadcast_lookup in Hlk.
    destruct Hlk as (t0 & Hlk & ->). exists t0.
    rewrite ?wake_info, ?wake_pc_rank, ?wake_has_entered, ?wake_is_departed.
    by repeat split.
  - destruct Hstep as (_ & _ & _ & Hts & _).
    rewrite Hts in Hlk. apply broadcast_lookup in Hlk.
    destruct Hlk as (t0 & Hlk & ->). exists t0.
    rewrite ?wake_info, ?wake_pc_rank, ?wake_has_entered, ?wake_is_departed.
    by repeat split.
Qed.

Lemma step_lookup_None c e c' o (i : nat) :
  step c e = Ok c' o -> threads c' !! i = None -> threads c !! i = None.
Proof.
  intros Hstep Hn. apply lookup_ge_None. apply lookup_ge_None in Hn.
  by rewrite <- (step_length _ _ _ _ Hstep).
Qed.

Lemma exec_thread_counts ai tr c i :
  exec ai tr c ->
  granted_count i tr
  = match threads c !! i with
    | Some t => Z.b2z (has_entered t)
    | None => 0
    end
  /\ released_count i tr
     = match threads c !! i with
       | Some t => Z.b2z (is_departed t)
       | None => 0
       end.
Proof.
  induction 1 as [|tr c e c' o _ [IHg IHr] Hstep].
  - cbn. destruct (_ !! i) as [t|] eqn:Hlk; [|done].
    apply list_lookup_fmap_Some_1 in Hlk. by destruct Hlk as (a & -> & _).
  - destruct (threads c' !! i) as [t'|] eqn:Hlk'.
    + destruct (step_thread _ _ _ _ _ _ Hstep Hlk')
        as (t & Hlk & _ & _ & _ & Ho).
      rewrite Hlk in IHg, IHr.
      destruct o as [|k cls|k cls| |];
        cbn [granted_count released_count];
        try (destruct Ho as [-> ->]; by split).
      * destruct (Nat.eqb k i); destruct Ho as [Ho1 Ho2].
        -- rewrite IHg, IHr, Ho1. unfold has_entered, is_departed in *.
           rewrite Ho2. destruct (th_pc t); try done.
        -- rewrite Ho1, Ho2. split; lia.
      * destruct (Nat.eqb k i); destruct Ho as [Ho1 Ho2].
        -- rewrite IHg, IHr. unfold has_entered, is_departed.
           rewrite Ho1, Ho2. done.
        -- rewrite Ho1, Ho2. split; lia.
    + pose proof (step_lookup_None _ _ _ _ _ Hstep Hlk') as Hn.
      rewrite Hn in IHg, IHr.
      destruct o as [|k cls|k cls| |];
        cbn [granted_count released_count]; try done.
      * destruct (Nat.eqb_spec k i) as [->|]; [|split; lia].
        apply step_cases in Hstep.
        destruct Hstep as (t & now & fe & g0 & (_ & Ht & _) & _).
        congruence.
      * destruct (Nat.eqb_spec k i) as [->|]; [|split; lia].
        apply step_cases in Hstep.
        destruct Hstep as (t & _ & _ & Ht & _).
        congruence.
Qed.

(** Every aircraft is admitted at most once, and released at most once and
    only after its admission: the number of admissions of thread [i] in a
    trace says whether the thread has entered, the number of its releases
    whether it has departed. *)
Theorem aircraft_admitted_once :
  forall ai tr c i,
    exec ai tr c ->
    granted_count i tr
    = match threads c !! i with
      | Some t => Z.b2z (has_entered t)
      | None => 0
      end
    /\ released_count i tr
       = match threads c !! i with
         | Some t => Z.b2z (is_departed t)
         | None => 0
         end
    /\ 0 <= released_count i tr <= granted_count i tr
    /\ granted_count i tr <= 1.
Proof.
  intros ai tr c i Hex.
  destruct (exec_thread_counts ai tr c i Hex) as [Hg Hr].
  split; [done|]. split; [done|].
  rewrite Hg, Hr. destruct (threads c !! i) as [t|]; [|lia].
  unfold has_entered, is_departed. destruct (th_pc t); cbn; lia.
Qed.

(** ** What holds when an aircraft is admitted *)

(** The waiting counters seen by the predicate when a thread evaluates it:
    the thread itself is counted. *)
Lemma entering_waiting_fields c e i t now fe g0 :
  Inv c ->
  entering c e i t now fe g0 ->
  let g1 := after_escalation (th_info t) now fe g0 in
  Z.b2z (thread_class (th_info t) =? EMERGENCY) <= waiting_emergency g1
  /\ (thread_class (th_info t) <> EMERGENCY ->
      waiting_emergency g1 = waiting_emergency (shared c))
  /\ fuel_emergency_waiting g1
     = fuel_emergency_waiting (shared c)
       + Z.b2z (escalates (th_info t) now fe).
Proof.
  intros HI (_ & Hlk & [(_ & _ & _ & ->)|(_ & [w Hpc] & ->)]); cbn zeta;
    rewrite after_escalation_eq, ?enter_begin_eq; globals_fields.
  - destruct HI. know_tallies c. repeat split; lia.
  - pose proof (waiting_counted EMERGENCY _ _ _ _ _ Hlk Hpc).
    destruct HI. repeat split; lia.
Qed.

(** The checks that held when a thread was admitted. *)
Lemma granted_checks c e c' i cls :
  step c e = Ok c' (Granted i cls) ->
  exists t now fe g0,
    entering c e i t now fe g0
    /\ cls = thread_class (th_info t)
    /\ (forall k,
          check k (after_escalation (th_info t) now fe g0) (th_info t)
            (desired_direction_of (th_info t)
               (after_escalation (th_info t) now fe g0))
            (Z.b2z (fe || escalates (th_info t) now fe)))
    /\ entry_effect (th_info t) (fe || escalates (th_info t) now fe)
         (after_escalation (th_info t) now fe g0) (shared c').
Proof.
  intros H. apply step_cases in H.
  destruct H as (t & now & fe & g0 & He & -> & Hloop & _).
  apply enter_loop_Entered in Hloop. cbn zeta in Hloop.
  destruct Hloop as [Hcan Heff].
  exists t, now, fe, g0. split; [done|]. split; [done|]. split; [|done].
  by apply can_enter_common_checks.
Qed.

Lemma granted_known_type c e c' i cls t :
  Inv c ->
  step c e = Ok c' (Granted i cls) ->
  threads c !! i = Some t ->
  known_type (th_info t).
Proof.
  intros HI Hstep Hlk. apply granted_checks in Hstep.
  destruct Hstep as (t0 & now & fe & g0 & He & _ & Hchk & _).
  assert (t0 = t) as -> by (destruct He as (_ & ? & _); congruence).
  pose proof (entering_waiting_fields _ _ _ _ _ _ _ HI He) as (Hw & _).
  cbn zeta in Hw. specialize (Hchk 6%nat). cbn in Hchk.
  unfold emergency_precedence_check in Hchk. unfold known_type.
  destruct (thread_class_cases (th_info t))
    as [[_ Ht] | [[_ Ht] | [Hk _]]]; [tauto|tauto|].
  rewrite Hk in Hw. cbn in Hw. right. right.
  destruct (Z.eq_dec (aircraft_type (th_info t)) EMERGENCY); [done|].
  specialize (Hchk n). lia.
Qed.

(** An aircraft whose type code is none of COMMERCIAL, CARGO and EMERGENCY
    is handled by [emergency_enter] but is never admitted: it counts itself
    in [waiting_emergency], and the predicate denies every aircraft of
    another type than EMERGENCY while that counter is positive. *)
Theorem unknown_type_never_admitted :
  forall ai tr c i t,
    exec ai tr c ->
    threads c !! i = Some t ->
    ~ known_type (th_info t) ->
    has_entered t = false /\ granted_count i tr = 0.
Proof.
  intros ai tr c i t Hex Hlk Hun.
  assert (He : has_entered t = false).
  { revert i t Hlk Hun.
    induction Hex as [|tr c e c' o Hex IH Hstep]; intros i t' Hlk' Hun.
    - cbn in Hlk'. apply list_lookup_fmap_Some_1 in Hlk'.
      by destruct Hlk' as (a & -> & _).
    - destruct (step_thread _ _ _ _ _ _ Hstep Hlk')
        as (t & Hlk & Hty & _ & _ & Ho).
      assert (Hun0 : ~ known_type (th_info t))
        by (unfold known_type in *; by rewrite <- Hty).
      specialize (IH i t Hlk Hun0).
      destruct o as [|k cls|k cls| |]; try (destruct Ho as [-> _]; done).
      + destruct (Nat.eqb_spec k i) as [->|]; [|by destruct Ho as [-> _]].
        exfalso. apply Hun0.
        eapply granted_known_type; eauto using exec_Inv.
      + destruct (Nat.eqb_spec k i) as [->|]; [|by destruct Ho as [-> _]].
        destruct Ho as [Ho _]. unfold has_entered in IH. by rewrite Ho in IH. }
  split; [done|].
  destruct (exec_thread_counts ai tr c i Hex) as (Hg & _).
  by rewrite Hg, Hlk, He.
Qed.

Lemma tally_exists p (ts : list thread) :
  0 < tally p ts -> exists i t, ts !! i = Some t /\ p t = true.
Proof.
  induction ts as [|a ts IH]; cbn [tally]; [lia|]. intros H.
  destruct (p a) eqn:Hp.
  - by exists 0%nat, a.
  - destruct IH as (i & t & Hlk & Ht); [cbn in H; lia|].
    by exists (S i), t.
Qed.

Lemma tally_le p q (ts : list thread) :
  (forall t, p t = true -> q t = true) -> tally p ts <= tally q ts.
Proof.
  intros Hpq. induction ts as [|a ts IH]; cbn [tally]; [lia|].
  specialize (Hpq a). destruct (p a), (q a); cbn; try lia.
  all: try by specialize (Hpq eq_refl).
Qed.

(** While an emergency aircraft waits, no commercial or cargo aircraft is
    admitted: when one is admitted, [waiting_emergency] is 0 and no thread
    started as an emergency aircraft is in its wait loop. *)
Theorem emergency_precedence_at_admission :
  forall ai c e c' i cls,
    reachable ai c ->
    step c e = Ok c' (Granted i cls) ->
    cls <> EMERGENCY ->
    waiting_emergency (shared c) = 0
    /\ forall j t,
         threads c !! j = Some t ->
         thread_class (th_info t) = EMERGENCY ->
         is_waiting t = false.
Proof.
  intros ai c e c' i cls Hr Hstep Hne.
  pose proof (reachable_Inv _ _ Hr) as HI.
  apply granted_checks in Hstep.
  destruct Hstep as (t & now & fe & g0 & He & -> & Hchk & _).
  pose proof (entering_waiting_fields _ _ _ _ _ _ _ HI He) as (_ & Hw & _).
  cbn zeta in Hw. specialize (Hw Hne).
  specialize (Hchk 6%nat). cbn in Hchk.
  unfold emergency_precedence_check in Hchk. rewrite Hw in Hchk.
  assert (Hty : aircraft_type (th_info t) <> EMERGENCY).
  { destruct (thread_class_cases (th_info t))
      as [[_ Ht] | [[_ Ht] | [Hk _]]]; [| |done]; rewrite Ht; done. }
  specialize (Hchk Hty).
  assert (H0 : waiting_emergency (shared c) = 0).
  { destruct HI. know_tallies c. lia. }
  split; [done|]. intros j tj Hlk Hk.
  rewrite (inv_waiting_emergency _ HI) in H0.
  pose proof (tally_zero _ _ _ _ H0 Hlk) as Hnot.
  unfold waiting_as in Hnot. by rewrite Hk, Z.eqb_refl in Hnot.
Qed.

(** A declared fuel emergency has priority: if another waiter still has a
    fuel emergency declared after an admission, then the admitted aircraft
    had declared one itself, before or in its last pass through the loop
    (its fuel reserve was used up at the time it read). *)
Theorem fuel_emergency_priority_at_admission :
  forall ai c e c' i cls,
    reachable ai c ->
    step c e = Ok c' (Granted i cls) ->
    fuel_emergency_waiting (shared c') > 0 ->
    exists t now,
      threads c !! i = Some t
      /\ (e = Enter i now \/ e = Retry i now)
      /\ (escalated t = true
          \/ fuel_reserve (th_info t)
             <= to_int (now - arrival_timestamp (th_info t))).
Proof.
  intros ai c e c' i cls Hr Hstep Hpos.
  pose proof (reachable_Inv _ _ Hr) as HI.
  apply granted_checks in Hstep.
  destruct Hstep as (t & now & fe & g0 & He & -> & Hchk & Heff).
  pose proof (entering_waiting_fields _ _ _ _ _ _ _ HI He) as (_ & _ & Hf).
  cbn zeta in Hf. specialize (Hchk 5%nat). cbn in Hchk.
  unfold escalation_check in Hchk.
  pose proof (ent_fuel _ _ _ _ Heff) as Hfuel.
  exists t, now.
  destruct He as (_ & Hlk & [(-> & Hpc & -> & _)|(-> & [w Hpc] & _)]).
  - split; [done|]. split; [by left|]. right.
    rewrite orb_false_l in *. unfold escalates in *. cbn [negb andb] in *.
    destruct (_ >=? _) eqn:E; [lia|]. cbn in *. lia.
  - split; [done|]. split; [by right|].
    rewrite (escalated_pc _ _ _ Hpc).
    destruct fe; [by left|]. right.
    rewrite orb_false_l in *. unfold escalates in *. cbn [negb andb] in *.
    destruct (_ >=? _) eqn:E; [lia|]. cbn in *. lia.
Qed.

(** A commercial aircraft is admitted only while the runway points north
    and a cargo aircraft only while it points south, and the admission
    leaves the direction as it is. *)
Theorem admission_respects_direction :
  forall c e c' i cls,
    step c e = Ok c' (Granted i cls) ->
    cls <> EMERGENCY ->
    current_direction (shared c) = class_direction cls
    /\ current_direction (shared c') = class_direction cls.
Proof.
  intros c e c' i cls Hstep Hne.
  pose proof (step_maintenance_fields _ _ _ _ Hstep) as (_ & Hd & _).
  cbn in Hd. rewrite Hd.
  apply granted_checks in Hstep.
  destruct Hstep as (t & now & fe & g0 & He & -> & Hchk & _).
  pose proof (srf_direction _ _
                (entering_same_runway_fields _ _ _ _ _ _ _ He)) as Hsame.
  specialize (Hchk 3%nat). cbn in Hchk. unfold direction_check in Hchk.
  rewrite Hsame in Hchk.
  unfold desired_direction_of, class_direction in *.
  destruct (thread_class_cases (th_info t))
    as [[Hk Ht] | [[Hk Ht] | [Hk _]]]; [| |done]; rewrite Hk, Ht in *;
    cbn in *; split; symmetry; apply Hchk; auto.
Qed.

(** ** The controller *)

Lemma controller_poll_cases c c' o :
  step c ControllerPoll = Ok c' o ->
  shared c' = shared c
  /\ (controller c' = OnBreak ->
      CONTROLLER_LIMIT <= aircraft_since_break (shared c))
  /\ (controller c' = Switching -> opposite_waiting (shared c) > 0).
Proof.
  cbn [step]. destruct (controller c) eqn:Hctl; try done.
  unfold controller_decide, switch_direction_assert.
  destruct (aircraft_since_break (shared c) >=? CONTROLLER_LIMIT) eqn:E1;
    destruct (aircraft_on_runway (shared c) =? 0) eqn:E2; cbn [andb];
    try destruct (opposite_waiting (shared c) >? 0) eqn:E3; cbn [andb];
    try destruct (_ || _); intros H; injection H as <- <-; cbn;
    rewrite ?Hctl; repeat split; try done; lia.
Qed.

(** What the controller has seen when it is inside a maintenance action. *)
Lemma exec_controller ai tr c :
  exec ai tr c ->
  (controller c = OnBreak ->
   CONTROLLER_LIMIT <= aircraft_since_break (shared c))
  /\ (controller c = Switching -> opposite_waiting (shared c) > 0).
Proof.
  induction 1 as [|tr c e c' o _ [IHb IHs] Hstep]; [by split|].
  pose proof (step_cases _ _ _ _ Hstep) as Hc.
  destruct o as [|k cls|k cls| |].
  - destruct Hc as [(Hsh & [Hctl | (-> & _)] & _)
                   |(k & t & now & fe & g0 & fe' & _ & _ & _ & Hctl)].
    + rewrite Hsh, Hctl. by split.
    + destruct (controller_poll_cases _ _ _ Hstep) as (Hsh' & ? & ?).
      rewrite Hsh'. by split.
    + rewrite Hctl. by split.
  - destruct Hc as (t & now & fe & g0 & _ & _ & _ & _ & ->). by split.
  - destruct Hc as (t & _ & _ & _ & _ & _ & _ & _ & ->). by split.
  - destruct Hc as (_ & _ & _ & _ & ->). by split.
  - destruct Hc as (_ & _ & _ & _ & ->). by split.
Qed.

(** The controller completes a break exactly when eight aircraft have been
    admitted since the last one: at that step [aircraft_since_break] is 8,
    and so is the number of admissions shown since the last break. *)
Theorem break_after_eight_admissions :
  forall ai tr c e c',
    exec ai tr c ->
    step c e = Ok c' BreakTaken ->
    aircraft_since_break (shared c) = CONTROLLER_LIMIT
    /\ since_last_break tr = CONTROLLER_LIMIT
    /\ since_last_break (BreakTaken :: tr) = 0.
Proof.
  intros ai tr c e c' Hex Hstep.
  apply step_cases in Hstep. destruct Hstep as (_ & Hctl & _).
  destruct (exec_controller _ _ _ Hex) as [Hb _]. specialize (Hb Hctl).
  destruct (exec_maintenance_counters _ _ _ Hex) as [Heq _].
  pose proof (inv_break _ (exec_Inv _ _ _ Hex)).
  split; [lia|]. split; [lia|done].
Qed.

(** The controller only turns the runway toward a direction somebody is
    waiting for: after a switch a commercial or cargo aircraft whose
    direction is the new one is in its wait loop. *)
Theorem switch_serves_a_waiter :
  forall ai c e c',
    reachable ai c ->
    step c e = Ok c' DirectionSwitched ->
    same_waiting (shared c') > 0
    /\ exists j t,
         threads c' !! j = Some t
         /\ is_waiting t = true
         /\ thread_class (th_info t) <> EMERGENCY
         /\ class_direction (thread_class (th_info t))
            = current_direction (shared c').
Proof.
  intros ai c e c' [tr Hex] Hstep.
  pose proof (exec_Inv _ _ _ Hex) as HI.
  pose proof (exec_Inv _ _ _ (exec_step _ _ _ _ _ _ Hex Hstep)) as HI'.
  apply step_cases in Hstep. destruct Hstep as (_ & Hctl & Hsh & Hts & _).
  destruct (exec_controller _ _ _ Hex) as [_ Hs]. specialize (Hs Hctl).
  assert (Hsame : same_waiting (shared c') = opposite_waiting (shared c)).
  { rewrite Hsh. unfold same_waiting, opposite_waiting, switch_direction.
    globals_fields. destruct (inv_direction _ HI) as [-> | ->]; done. }
  split; [lia|].
  assert (Hcls : exists cls,
             (cls = COMMERCIAL \/ cls = CARGO)
             /\ class_direction cls = current_direction (shared c')
             /\ 0 < tally (waiting_as cls) (threads c')).
  { rewrite <- Hsame in Hs. unfold same_waiting in Hs.
    rewrite (inv_north _ HI'), (inv_south _ HI') in Hs.
    rewrite (inv_waiting_commercial _ HI'), (inv_waiting_cargo _ HI') in Hs.
    destruct (inv_direction _ HI') as [Hd | Hd]; rewrite Hd in *; cbn in Hs.
    - exists COMMERCIAL. split; [by left|]. split; [done|lia].
    - exists CARGO. split; [by right|]. split; [done|lia]. }
  destruct Hcls as (cls & Hstd & Hdir & Hpos).
  apply tally_exists in Hpos. destruct Hpos as (j & t & Hlk & Hw).
  unfold waiting_as in Hw. apply andb_prop in Hw. destruct Hw as [Hk Hw].
  apply Z.eqb_eq in Hk.
  exists j, t. rewrite Hk. split; [done|]. split; [done|].
  split; [|done]. by destruct Hstd as [-> | ->].
Qed.

(** ** Fuel emergencies *)

(** [fuel_emergency_waiting] is the number of waiting threads whose local
    flag [fuel_emergency] is set; it never exceeds the number of waiting
    threads; and a declared fuel emergency is never withdrawn: a thread
    with the flag set keeps it until it is on the runway. *)
Theorem fuel_emergency_count :
  forall ai c,
    reachable ai c ->
    fuel_emergency_waiting (shared c) = tally escalated (threads c)
    /\ 0 <= fuel_emergency_waiting (shared c) <= tally is_waiting (threads c)
    /\ forall e c' o i t t',
         step c e = Ok c' o ->
         threads c !! i = Some t -> escalated t = true ->
         threads c' !! i = Some t' ->
         escalated t' = true \/ th_pc t' = OnRunway.
Proof.
  intros ai c Hr. pose proof (reachable_Inv _ _ Hr) as HI.
  split; [apply (inv_fuel _ HI)|]. split.
  - rewrite (inv_fuel _ HI). split; [apply tally_nonneg|].
    apply tally_le. intros [a [| |[] w| |]]; done.
  - intros e c' o i t t' Hstep Hlk Hesc Hlk'.
    destruct (step_thread _ _ _ _ _ _ Hstep Hlk')
      as (t0 & Hlk0 & _ & _ & Hrank & Ho).
    assert (t0 = t) as -> by congruence.
    destruct t as [a [| |[] w| |]]; try done.
    destruct t' as [a' [| |[] w'| |]]; cbn in Hrank; try lia; auto.
    exfalso. unfold has_entered, is_departed in Ho. cbn in Ho.
    destruct o as [|k cls|k cls| |]; try (destruct Ho; done);
      destruct (Nat.eqb k i); destruct Ho; done.
Qed.

Lemma to_int_small x : - 2 ^ 31 <= x < 2 ^ 31 -> to_int x = x.
Proof.
  intros H. unfold to_int. rewrite Z.mod_small; lia.
Qed.

(** An aircraft declares its fuel emergency in the first pass through its
    enter loop in which the time waited (which fits an [int]) has reached
    its fuel reserve, and not before, whether this pass is the one made on
    entry or a later one after a timed wait: after a pass made once the
    reserve is used up the aircraft is on the runway or waits with the flag
    set, and [fuel_emergency_waiting] has grown by one if it waits; after a
    pass made earlier it is on the runway or waits with the flag clear, and
    [fuel_emergency_waiting] is unchanged if it waits. *)
Theorem fuel_emergency_declared_in_time :
  forall c e i now c' o t t',
    step c e = Ok c' o ->
    threads c !! i = Some t ->
    (e = Enter i now /\ th_pc t = Arrived
     \/ e = Retry i now /\ exists w, th_pc t = Waiting false w) ->
    - 2 ^ 31 <= now - arrival_timestamp (th_info t) < 2 ^ 31 ->
    threads c' !! i = Some t' ->
    (fuel_reserve (th_info t) <= now - arrival_timestamp (th_info t) ->
     th_pc t' = OnRunway
     \/ th_pc t' = Waiting true false
        /\ fuel_emergency_waiting (shared c')
           = fuel_emergency_waiting (shared c) + 1)
    /\ (now - arrival_timestamp (th_info t) < fuel_reserve (th_info t) ->
        th_pc t' = OnRunway
        \/ th_pc t' = Waiting false false
           /\ fuel_emergency_waiting (shared c')
              = fuel_emergency_waiting (shared c)).
Proof.
  intros c e i now c' o t t' Hstep Hlk Hpass Hrange Hlk'.
  assert (Hesc : escalates (th_info t) now false
                 = (fuel_reserve (th_info t)
                    <=? now - arrival_timestamp (th_info t))).
  { unfold escalates. rewrite (to_int_small _ Hrange). cbn. lia. }
  assert (Hlt : (i < length (threads c))%nat) by (by eapply lookup_lt_Some).
  assert (Hloop : exists g0,
             fuel_emergency_waiting g0 = fuel_emergency_waiting (shared c)
             /\ after_enter c i t (enter_loop (th_info t) now false g0)
                = Ok c' o).
  { destruct Hpass as [[-> Hpc]|[-> [w Hpc]]]; cbn [step] in Hstep;
      destruct (controller c); try done; rewrite Hlk, Hpc in Hstep.
    - exists (enter_begin (th_info t) (shared c)). split; [|done].
      by rewrite enter_begin_eq.
    - by exists (shared c). }
  destruct Hloop as (g0 & Hfuel & Hafter).
  destruct (enter_loop _ _ _ _) as [g'|g' fe'] eqn:Hloop; cbn in Hafter;
    injection Hafter as <- <-; cbn in Hlk';
    rewrite list_lookup_insert_eq in Hlk' by done; injection Hlk' as <-.
  - split; intros _; by left.
  - cbn. apply enter_loop_TimedWait in Hloop. destruct Hloop as (-> & -> & _).
    rewrite after_escalation_eq, orb_false_l, Hesc. globals_fields.
    rewrite Hfuel.
    split; intros Hcmp; right.
    + assert ((fuel_reserve (th_info t)
               <=? now - arrival_timestamp (th_info t)) = true) as -> by lia.
      done.
    + assert ((fuel_reserve (th_info t)
               <=? now - arrival_timestamp (th_info t)) = false) as -> by lia.
      split; [done|]. cbn. lia.
Qed.

(** ** Assertions *)

(** No [assert] of the program fails: not those of the three leave
    functions, of [take_break] and [switch_direction], nor those the thread
    functions make after entering and after leaving the runway. *)
Theorem no_assertion_fails :
  forall ai c e, reachable ai c -> step c e <> Abort.
Proof.
  intros ai c e Hr. apply Inv_no_abort. by apply (reachable_Inv ai).
Qed.

(** ** Reading the workload and starting the threads *)

Lemma read_records_fuel sscanf3 rand lines :
  (forall k, 0 <= rand k) ->
  forall ai,
    Forall (fun a => FUEL_MIN <= fuel_reserve a <= FUEL_MAX) ai ->
    Forall (fun a => FUEL_MIN <= fuel_reserve a <= FUEL_MAX)
      (read_records sscanf3 rand lines ai).
Proof.
  intros Hrand. induction lines as [|line rest IH]; intros ai Hai;
    cbn [read_records]; [done|].
  destruct (_ <? _); [|done].
  destruct (skipped_line line); [by apply IH|].
  destruct (sscanf3 line) as [[[ty arrival] on_runway]|]; [|by apply IH].
  apply IH. apply Forall_app. split; [done|].
  constructor; [|constructor]. cbn. unfold FUEL_MIN, FUEL_MAX.
  pose proof (Z.rem_bound_pos (rand (length ai)) (60 - 20 + 1)
                (Hrand _) ltac:(lia)).
  lia.
Qed.

(** Every record [initialize] stores has a fuel reserve between FUEL_MIN
    and FUEL_MAX, [rand] returning no negative number. *)
Theorem initialize_fuel_reserve_in_range :
  forall sscanf3 rand lines a,
    (forall k, 0 <= rand k) ->
    In a (read_records sscanf3 rand lines []) ->
    FUEL_MIN <= fuel_reserve a <= FUEL_MAX.
Proof.
  intros sscanf3 rand lines a Hrand Hin.
  pose proof (read_records_fuel sscanf3 rand lines Hrand []
                (List.Forall_nil _)) as Hall.
  rewrite Forall_forall in Hall. apply Hall. by apply list_elem_of_In.
Qed.

Lemma read_records_fields sscanf3 rand lines :
  forall ai,
    Z.of_nat (length ai) <= MAX_AIRCRAFT ->
    map record_fields (read_records sscanf3 rand lines ai)
    = take (Z.to_nat MAX_AIRCRAFT)
        (map record_fields ai ++ parsed_lines sscanf3 lines).
Proof.
  induction lines as [|line rest IH]; intros ai Hai;
    cbn [read_records parsed_lines].
  - rewrite app_nil_r, take_ge; [done|]. rewrite length_map. lia.
  - destruct (Z.ltb_spec (Z.of_nat (length ai)) MAX_AIRCRAFT) as [Hlt|Hge].
    + destruct (skipped_line line); [by apply IH|].
      destruct (sscanf3 line) as [[[ty arrival] on_runway]|]; [|by apply IH].
      rewrite IH by (rewrite length_app; cbn [length]; lia).
      rewrite map_app. cbn [map record_fields aircraft_type arrival_time
                              runway_time].
      by rewrite <- app_assoc.
    + rewrite take_app_le by (rewrite length_map; lia).
      rewrite take_ge; [done|]. rewrite length_map. lia.
Qed.

(** [initialize] stores one record per line that is neither a comment nor
    empty and from which [sscanf] converts three integers, in file order,
    with the three integers as type, arrival time and runway time, and it
    stops after MAX_AIRCRAFT records. *)
Theorem initialize_records :
  forall sscanf3 rand lines,
    map record_fields (read_records sscanf3 rand lines [])
    = take (Z.to_nat MAX_AIRCRAFT) (parsed_lines sscanf3 lines).
Proof.
  intros sscanf3 rand lines.
  apply (read_records_fields sscanf3 rand lines []). cbn.
  unfold MAX_AIRCRAFT. lia.
Qed.

(** A workload file in which no line can be used (only comments, empty
    lines and lines [sscanf] cannot convert) ends the process with status 1
    before any thread is created. *)
Theorem unusable_workload_rejected :
  forall EINVAL sscanf3 rand lines create_ok finishes,
    parsed_lines sscanf3 lines = [] ->
    exit_code (main EINVAL sscanf3 rand 2 (Some lines) create_ok finishes)
    = Some 1
    /\ started (main EINVAL sscanf3 rand 2 (Some lines) create_ok finishes)
       = [].
Proof.
  intros EINVAL sscanf3 rand lines create_ok finishes Hnone.
  pose proof (read_records_fields sscanf3 rand lines []) as Hrec.
  rewrite Hnone in Hrec. cbn in Hrec.
  assert (Hnil : read_records sscanf3 rand lines [] = []).
  { specialize (Hrec ltac:(unfold MAX_AIRCRAFT; lia)).
    by destruct (read_records sscanf3 rand lines []). }
  unfold main, initialize. cbn [negb Z.eqb Pos.eqb]. by rewrite Hnil.
Qed.

Lemma create_aircraft_prefix create_ok finishes ais : forall i sofar m,
  (forall j, (i < j <= i + m)%nat -> create_ok j = true) ->
  (m < length ais)%nat ->
  create_ok (S (i + m)) = false ->
  exit_code (create_aircraft create_ok finishes ais i sofar) = Some 1
  /\ started (create_aircraft create_ok finishes ais i sofar)
     = sofar ++ take m (spawn_all ais i).
Proof.
  induction ais as [|a rest IH]; intros i sofar m Hok Hm Hfail;
    cbn [length] in Hm; [lia|].
  cbn [create_aircraft spawn_all]. destruct m as [|m].
  - rewrite Nat.add_0_r in Hfail. rewrite Hfail. cbn.
    by rewrite app_nil_r.
  - rewrite (Hok (S i)) by lia.
    destruct (IH (S i) (sofar ++ [SpawnAircraft
                                    (set_aircraft_id (Z.of_nat i) a)]) m)
      as [-> ->].
    + intros j Hj. apply Hok. lia.
    + lia.
    + by replace (S (S i + m)) with (S (i + S m)) by lia.
    + split; [done|]. cbn [take]. by rewrite <- app_assoc.
Qed.

Lemma create_aircraft_all create_ok finishes ais : forall i sofar,
  (forall j, (i < j <= i + length ais)%nat -> create_ok j = true) ->
  started (create_aircraft create_ok finishes ais i sofar)
  = sofar ++ spawn_all ais i.
Proof.
  induction ais as [|a rest IH]; intros i sofar Hok;
    cbn [create_aircraft spawn_all].
  - cbn. by rewrite app_nil_r.
  - rewrite (Hok (S i)) by (cbn [length]; lia).
    rewrite IH by (intros j Hj; apply Hok; cbn [length]; lia).
    by rewrite <- app_assoc.
Qed.

(** When the workload gives at least one record and every
    [pthread_create] succeeds, [main] creates the controller first and then
    one thread per record in file order, record number [i] with
    [aircraft_id] [i].  It then waits for the aircraft threads: it returns
    0 when each of them terminates, and never returns when one of them does
    not. *)
Theorem main_starts_all_threads :
  forall EINVAL sscanf3 rand lines create_ok finishes,
    read_records sscanf3 rand lines [] <> [] ->
    (forall k, (k <= length (read_records sscanf3 rand lines []))%nat ->
               create_ok k = true) ->
    started (main EINVAL sscanf3 rand 2 (Some lines) create_ok finishes)
    = SpawnController :: spawn_all (read_records sscanf3 rand lines []) 0
    /\ ((forall k, (k < length (read_records sscanf3 rand lines []))%nat ->
                   finishes k = true) ->
        exit_code (main EINVAL sscanf3 rand 2 (Some lines) create_ok finishes)
        = Some 0)
    /\ (forall k,
          (k < length (read_records sscanf3 rand lines []))%nat ->
          finishes k = false ->
          exit_code
            (main EINVAL sscanf3 rand 2 (Some lines) create_ok finishes)
          = None).
Proof.
  intros EINVAL sscanf3 rand lines create_ok finishes Hne Hok.
  unfold main, initialize. cbn [negb Z.eqb Pos.eqb].
  pose proof (read_records_bound sscanf3 rand lines []
                ltac:(cbn; unfold MAX_AIRCRAFT; lia)) as Hbound.
  destruct (read_records sscanf3 rand lines []) as [|a ais] eqn:Hrec;
    [done|].
  assert (((Z.of_nat (length (a :: ais)) >? MAX_AIRCRAFT)
           || (Z.of_nat (length (a :: ais)) <=? 0)) = false) as ->.
  { cbn [length] in *. lia. }
  rewrite (Hok 0%nat) by lia.
  assert (Hok' : forall j, (0 < j <= 0 + length (a :: ais))%nat ->
                           create_ok j = true).
  { intros j Hj. apply Hok. lia. }
  split.
  { apply (create_aircraft_all create_ok finishes (a :: ais) 0
             [SpawnController] Hok'). }
  destruct (create_aircraft_created create_ok finishes (a :: ais) 0%nat
              [SpawnController] Hok') as [-> _].
  cbn [Nat.add]. split.
  - intros Hfin. rewrite join_aircraft_all; [done|].
    intros k Hk. apply Hfin. lia.
  - intros k Hk Hfin.
    by rewrite (join_aircraft_blocked finishes _ 0 k) by (done || lia).
Qed.

(** When the [k]-th call of [pthread_create] is the first to fail, [main]
    exits with status 1 and the [k] threads created before (the controller
    and the first [k - 1] aircraft) are left running. *)
Theorem main_stops_at_failed_create :
  forall EINVAL sscanf3 rand lines create_ok finishes k,
    read_records sscanf3 rand lines [] <> [] ->
    (k <= length (read_records sscanf3 rand lines []))%nat ->
    (forall j, (j < k)%nat -> create_ok j = true) ->
    create_ok k = false ->
    exit_code (main EINVAL sscanf3 rand 2 (Some lines) create_ok finishes)
    = Some 1
    /\ started (main EINVAL sscanf3 rand 2 (Some lines) create_ok finishes)
       = take k (SpawnController
                 :: spawn_all (read_records sscanf3 rand lines []) 0).
Proof.
  intros EINVAL sscanf3 rand lines create_ok finishes k Hne Hk Hok Hfail.
  unfold main, initialize. cbn [negb Z.eqb Pos.eqb].
  pose proof (read_records_bound sscanf3 rand lines []
                ltac:(cbn; unfold MAX_AIRCRAFT; lia)) as Hbound.
  destruct (read_records sscanf3 rand lines []) as [|a ais] eqn:Hrec;
    [done|].
  assert (((Z.of_nat (length (a :: ais)) >? MAX_AIRCRAFT)
           || (Z.of_nat (length (a :: ais)) <=? 0)) = false) as ->.
  { cbn [length] in *. lia. }
  destruct k as [|k].
  - rewrite Hfail. done.
  - rewrite (Hok 0%nat) by lia. cbn [take].
    apply (create_aircraft_prefix create_ok finishes (a :: ais) 0
             [SpawnController] k).
    + intros j Hj. apply Hok. lia.
    + lia.
    + done.
Qed.

(** ** The properties on the scenarios *)

Lemma five_exec : exec five_ai five_trace five_config.
Proof.
  apply (run_trace_exec five_ai five_events [] (init_config five_ai));
    [apply exec_init|]. vm_compute. reflexivity.
Qed.

Lemma eight_exec : exec eight_ai eight_trace eight_config.
Proof.
  apply (run_trace_exec eight_ai eight_events [] (init_config eight_ai));
    [apply exec_init|]. vm_compute. reflexivity.
Qed.

Lemma stranded_exec : exec stranded_ai stranded_trace stranded_config.
Proof.
  apply (run_trace_exec stranded_ai stranded_events []
           (init_config stranded_ai)); [apply exec_init|].
  vm_compute. reflexivity.
Qed.

Lemma sample_read :
  read_records sample_sscanf3 sample_rand sample_lines []
  = [ sample_record 0 1 2; sample_record 2 0 3 ].
Proof. vm_compute. reflexivity. Qed.

Lemma maintenance_counters_witness :
  exec eight_ai eight_trace eight_config
  /\ aircraft_since_break (shared eight_config) = since_last_break eight_trace
  /\ consecutive_direction (shared eight_config)
     = since_last_switch eight_trace.
Proof.
  split; [exact eight_exec|].
  exact (maintenance_counters_count_admissions _ _ _ eight_exec).
Defined.

Lemma occupancy_trace_witness :
  exec scenario_ai
    [ Released 1 EMERGENCY; Released 0 EMERGENCY; Silent; Silent; Silent;
      Silent; Silent; Granted 1 EMERGENCY; Silent; Granted 0 EMERGENCY;
      Silent ] scenario_stalled
  /\ aircraft_on_runway (shared scenario_stalled)
     = net_occupancy
         [ Released 1 EMERGENCY; Released 0 EMERGENCY; Silent; Silent; Silent;
           Silent; Silent; Granted 1 EMERGENCY; Silent; Granted 0 EMERGENCY;
           Silent ].
Proof.
  assert (Hex : exec scenario_ai
    [ Released 1 EMERGENCY; Released 0 EMERGENCY; Silent; Silent; Silent;
      Silent; Silent; Granted 1 EMERGENCY; Silent; Granted 0 EMERGENCY;
      Silent ] scenario_stalled).
  { apply (run_trace_exec scenario_ai scenario_events []
             (init_config scenario_ai)); [apply exec_init|].
    vm_compute. reflexivity. }
  split; [exact Hex|].
  exact (proj1 (occupancy_is_admissions_minus_releases _ _ _ Hex)).
Defined.

Lemma aircraft_admitted_once_witness :
  exec five_ai five_trace five_config
  /\ granted_count 0 five_trace = 1
  /\ released_count 0 five_trace = 1
  /\ granted_count 4 five_trace = 0.
Proof.
  split; [exact five_exec|].
  destruct (aircraft_admitted_once five_ai five_trace five_config 0%nat
              five_exec) as (Hg & Hr & _).
  destruct (aircraft_admitted_once five_ai five_trace five_config 4%nat
              five_exec) as (Hg4 & _).
  split; [exact Hg|]. split; [exact Hr|exact Hg4].
Defined.

Lemma unknown_type_witness :
  exec stranded_ai stranded_trace stranded_config
  /\ threads stranded_config !! 0%nat = Some stranded_thread
  /\ ~ known_type (th_info stranded_thread)
  /\ has_entered stranded_thread = false
  /\ granted_count 0 stranded_trace = 0.
Proof.
  assert (Hun : ~ known_type (th_info stranded_thread)).
  { unfold known_type. cbn. unfold COMMERCIAL, CARGO, EMERGENCY. lia. }
  split; [exact stranded_exec|]. split; [reflexivity|]. split; [exact Hun|].
  exact (unknown_type_never_admitted stranded_ai stranded_trace
           stranded_config 0%nat stranded_thread stranded_exec eq_refl Hun).
Defined.

Lemma emergency_precedence_witness :
  exists c',
    reachable five_ai five_config
    /\ step five_config (Enter 4 4) = Ok c' (Granted 4 COMMERCIAL)
    /\ COMMERCIAL <> EMERGENCY
    /\ waiting_emergency (shared five_config) = 0.
Proof.
  assert (Hr : reachable five_ai five_config)
    by (exists five_trace; exact five_exec).
  assert (Hne : COMMERCIAL <> EMERGENCY) by discriminate.
  destruct (step five_config (Enter 4 4)) as [c' o| |] eqn:Hstep;
    [|vm_compute in Hstep; discriminate..].
  assert (Ho : o = Granted 4 COMMERCIAL).
  { vm_compute in Hstep. by injection Hstep as _ <-. }
  subst o. exists c'. split; [exact Hr|]. split; [reflexivity|].
  split; [exact Hne|].
  exact (proj1 (emergency_precedence_at_admission five_ai five_config _ c'
                  4%nat COMMERCIAL Hr Hstep Hne)).
Defined.

Lemma fuel_emergency_priority_witness :
  reachable scenario_ai scenario_blocked
  /\ step scenario_blocked (Retry 3 110)
     = Ok scenario_entered (Granted 3 EMERGENCY)
  /\ fuel_emergency_waiting (shared scenario_entered) > 0
  /\ exists t now,
       threads scenario_blocked !! 3%nat = Some t
       /\ (Retry 3 110 = Enter 3 now \/ Retry 3 110 = Retry 3 now)
       /\ (escalated t = true
           \/ fuel_reserve (th_info t)
              <= to_int (now - arrival_timestamp (th_info t))).
Proof.
  assert (Hr : reachable scenario_ai scenario_blocked).
  { apply (run_reachable _ (scenario_events ++ [Retry 2 100])).
    vm_compute. reflexivity. }
  assert (Hs : step scenario_blocked (Retry 3 110)
               = Ok scenario_entered (Granted 3 EMERGENCY)).
  { vm_compute. reflexivity. }
  assert (Hpos : fuel_emergency_waiting (shared scenario_entered) > 0).
  { cbn. lia. }
  split; [exact Hr|]. split; [exact Hs|]. split; [exact Hpos|].
  exact (fuel_emergency_priority_at_admission scenario_ai scenario_blocked _
           _ _ _ Hr Hs Hpos).
Defined.

Lemma admission_direction_witness :
  exists c',
    step five_config (Enter 4 4) = Ok c' (Granted 4 COMMERCIAL)
    /\ COMMERCIAL <> EMERGENCY
    /\ current_direction (shared five_config) = NORTH
    /\ current_direction (shared c') = NORTH.
Proof.
  assert (Hne : COMMERCIAL <> EMERGENCY) by discriminate.
  destruct (step five_config (Enter 4 4)) as [c' o| |] eqn:Hstep;
    [|vm_compute in Hstep; discriminate..].
  assert (Ho : o = Granted 4 COMMERCIAL).
  { vm_compute in Hstep. by injection Hstep as _ <-. }
  subst o. exists c'. split; [reflexivity|]. split; [exact Hne|].
  exact (admission_respects_direction five_config _ c' 4%nat COMMERCIAL
           Hstep Hne).
Defined.

Lemma break_after_eight_witness :
  exists c',
    exec eight_ai eight_trace eight_config
    /\ step eight_config ControllerDone = Ok c' BreakTaken
    /\ aircraft_since_break (shared eight_config) = CONTROLLER_LIMIT
    /\ since_last_break eight_trace = CONTROLLER_LIMIT.
Proof.
  destruct (step eight_config ControllerDone) as [c' o| |] eqn:Hstep;
    [|vm_compute in Hstep; discriminate..].
  assert (Ho : o = BreakTaken).
  { vm_compute in Hstep. by injection Hstep as _ <-. }
  subst o. exists c'. split; [exact eight_exec|]. split; [reflexivity|].
  destruct (break_after_eight_admissions eight_ai eight_trace eight_config _
              c' eight_exec Hstep) as (H1 & H2 & _).
  split; [exact H1|exact H2].
Defined.

Lemma switch_serves_a_waiter_witness :
  reachable turning_ai turning_before
  /\ step turning_before ControllerDone = Ok turning_after DirectionSwitched
  /\ same_waiting (shared turning_after) > 0.
Proof.
  assert (Hr : reachable turning_ai turning_before).
  { apply (run_reachable _ turning_events). vm_compute. reflexivity. }
  assert (Hs : step turning_before ControllerDone
               = Ok turning_after DirectionSwitched).
  { vm_compute. reflexivity. }
  split; [exact Hr|]. split; [exact Hs|].
  exact (proj1 (switch_serves_a_waiter turning_ai turning_before _ _ Hr Hs)).
Defined.

Lemma fuel_emergency_count_witness :
  reachable scenario_ai scenario_stalled
  /\ fuel_emergency_waiting (shared scenario_stalled)
     = tally escalated (threads scenario_stalled).
Proof.
  assert (Hr : reachable scenario_ai scenario_stalled).
  { apply (run_reachable _ scenario_events). vm_compute. reflexivity. }
  split; [exact Hr|].
  exact (proj1 (fuel_emergency_count scenario_ai scenario_stalled Hr)).
Defined.

Lemma fuel_emergency_declared_witness :
  run (init_config [ scenario_aircraft CARGO 30 ]) [ Arrive 0 0 ]
  = Some waiting_before
  /\ threads waiting_before !! 0%nat = Some waiting_thread
  /\ (Enter 0 30 = Enter 0 30 /\ th_pc waiting_thread = Arrived
      \/ Enter 0 30 = Retry 0 30
         /\ exists w, th_pc waiting_thread = Waiting false w)
  /\ - 2 ^ 31 <= 30 - arrival_timestamp (th_info waiting_thread) < 2 ^ 31
  /\ fuel_reserve (th_info waiting_thread)
     <= 30 - arrival_timestamp (th_info waiting_thread)
  /\ exists c' o t',
       step waiting_before (Enter 0 30) = Ok c' o
       /\ threads c' !! 0%nat = Some t'
       /\ (th_pc t' = OnRunway
           \/ th_pc t' = Waiting true false
              /\ fuel_emergency_waiting (shared c')
                 = fuel_emergency_waiting (shared waiting_before) + 1).
Proof.
  assert (Hpass : Enter 0 30 = Enter 0 30 /\ th_pc waiting_thread = Arrived
                  \/ Enter 0 30 = Retry 0 30
                     /\ exists w, th_pc waiting_thread = Waiting false w).
  { left. split; reflexivity. }
  assert (Hrange : - 2 ^ 31
                   <= 30 - arrival_timestamp (th_info waiting_thread)
                   < 2 ^ 31) by (cbn; lia).
  assert (Hused : fuel_reserve (th_info waiting_thread)
                  <= 30 - arrival_timestamp (th_info waiting_thread))
    by (cbn; lia).
  split; [reflexivity|].
  split; [reflexivity|]. split; [exact Hpass|]. split; [exact Hrange|].
  split; [exact Hused|].
  destruct (step waiting_before (Enter 0 30)) as [c' o| |] eqn:Hstep;
    [|vm_compute in Hstep; discriminate..].
  destruct (threads c' !! 0%nat) as [t'|] eqn:Hlk';
    [|vm_compute in Hstep; injection Hstep as <- _; discriminate].
  exists c', o, t'. split; [reflexivity|]. split; [exact Hlk'|].
  exact (proj1 (fuel_emergency_declared_in_time waiting_before _ 0%nat 30 c'
                  o waiting_thread t' Hstep eq_refl Hpass Hrange Hlk')
           Hused).
Defined.

Lemma no_assertion_fails_witness :
  reachable scenario_ai scenario_entered
  /\ step scenario_entered (CheckOnRunway 3) <> Abort
  /\ step scenario_entered (Leave 3) <> Abort.
Proof.
  assert (Hr : reachable scenario_ai scenario_entered).
  { apply (run_reachable _ (scenario_events ++ [Retry 2 100; Retry 3 110])).
    vm_compute. reflexivity. }
  split; [exact Hr|]. split.
  - exact (no_assertion_fails scenario_ai scenario_entered _ Hr).
  - exact (no_assertion_fails scenario_ai scenario_entered _ Hr).
Defined.

Lemma counters_in_int_range_witness :
  reachable scenario_ai scenario_stalled
  /\ Z.of_nat (length scenario_ai) <= MAX_AIRCRAFT
  /\ in_int_range (consecutive_direction (shared scenario_stalled)).
Proof.
  assert (Hr : reachable scenario_ai scenario_stalled).
  { apply (run_reachable _ scenario_events). vm_compute. reflexivity. }
  assert (Hn : Z.of_nat (length scenario_ai) <= MAX_AIRCRAFT).
  { cbn. unfold MAX_AIRCRAFT. lia. }
  split; [exact Hr|]. split; [exact Hn|].
  apply (counters_in_int_range scenario_ai scenario_stalled Hr Hn).
Defined.

Lemma initialize_fuel_reserve_witness :
  (forall k, 0 <= sample_rand k)
  /\ In (sample_record 0 1 2)
       (read_records sample_sscanf3 sample_rand sample_lines [])
  /\ FUEL_MIN <= fuel_reserve (sample_record 0 1 2) <= FUEL_MAX.
Proof.
  assert (Hrand : forall k, 0 <= sample_rand k).
  { intros k. unfold sample_rand. lia. }
  assert (Hin : In (sample_record 0 1 2)
                  (read_records sample_sscanf3 sample_rand sample_lines [])).
  { vm_compute. left. reflexivity. }
  split; [exact Hrand|]. split; [exact Hin|].
  exact (initialize_fuel_reserve_in_range sample_sscanf3 sample_rand
           sample_lines _ Hrand Hin).
Defined.

Lemma unusable_workload_witness :
  parsed_lines sample_sscanf3
    [ "# no aircraft today"%string; "landing"%string ] = []
  /\ exit_code
       (main 22 sample_sscanf3 sample_rand 2
          (Some [ "# no aircraft today"%string; "landing"%string ])
          (fun _ => true) (fun _ => true)) = Some 1.
Proof.
  assert (Hnone : parsed_lines sample_sscanf3
                    [ "# no aircraft today"%string; "landing"%string ] = []).
  { vm_compute. reflexivity. }
  split; [exact Hnone|].
  exact (proj1 (unusable_workload_rejected 22 sample_sscanf3 sample_rand _
                  (fun _ => true) (fun _ => true) Hnone)).
Defined.

Lemma main_starts_all_threads_witness :
  read_records sample_sscanf3 sample_rand sample_lines [] <> []
  /\ started (main 22 sample_sscanf3 sample_rand 2 (Some sample_lines)
                (fun _ => true) (fun _ => true))
     = SpawnController
       :: spawn_all (read_records sample_sscanf3 sample_rand sample_lines [])
            0
  /\ exit_code (main 22 sample_sscanf3 sample_rand 2 (Some sample_lines)
                  (fun _ => true) (fun _ => true)) = Some 0
  /\ exit_code (main 22 sample_sscanf3 sample_rand 2 (Some sample_lines)
                  (fun _ => true) (fun k => Nat.eqb k 0)) = None.
Proof.
  assert (Hne : read_records sample_sscanf3 sample_rand sample_lines []
                <> []).
  { vm_compute. discriminate. }
  assert (H1 : (1 < length (read_records sample_sscanf3 sample_rand
                              sample_lines []))%nat).
  { vm_compute. lia. }
  split; [exact Hne|].
  destruct (main_starts_all_threads 22 sample_sscanf3 sample_rand
              sample_lines (fun _ => true) (fun _ => true) Hne
              (fun _ _ => eq_refl)) as (Hst & Hex & _).
  destruct (main_starts_all_threads 22 sample_sscanf3 sample_rand
              sample_lines (fun _ => true) (fun k => Nat.eqb k 0) Hne
              (fun _ _ => eq_refl)) as (_ & _ & Hblock).
  split; [exact Hst|]. split; [exact (Hex (fun _ _ => eq_refl))|].
  exact (Hblock 1%nat H1 eq_refl).
Defined.

Lemma main_stops_at_failed_create_witness :
  read_records sample_sscanf3 sample_rand sample_lines [] <> []
  /\ exit_code (main 22 sample_sscanf3 sample_rand 2 (Some sample_lines)
                  (fun k => Nat.eqb k 0) (fun _ => true)) = Some 1
  /\ started (main 22 sample_sscanf3 sample_rand 2 (Some sample_lines)
                (fun k => Nat.eqb k 0) (fun _ => true))
     = [ SpawnController ].
Proof.
  assert (Hne : read_records sample_sscanf3 sample_rand sample_lines []
                <> []).
  { vm_compute. discriminate. }
  assert (Hk : (1 <= length (read_records sample_sscanf3 sample_rand
                               sample_lines []))%nat).
  { vm_compute. lia. }
  assert (Hok : forall j, (j < 1)%nat -> Nat.eqb j 0 = true).
  { intros j Hj. destruct j; [reflexivity|lia]. }
  split; [exact Hne|].
  exact (main_stops_at_failed_create 22 sample_sscanf3 sample_rand
           sample_lines (fun k => Nat.eqb k 0) (fun _ => true) 1%nat Hne Hk
           Hok eq_refl).
Defined.
